(** * SecureUpload: the scanning orchestration of the upload pipeline

    A shallow embedding of the backend scanning code:

    - [Original]  : [src/backend/utils/virusTotal.js] ([scanFile], [getAnalysis]);
    - [Revised]   : the later revision of the same module (adds the
                    hash-shaped handle, the pending / rate-limit errors and
                    [waitForAnalysis]);
    - [uploadHandler], [listAll] : the upload controller, followed by its
                    deletion handlers, the cleanup job, the [requireAuth]
                    middleware and the checks of the upload form.

    Asynchronous code is modelled by explicit state passing.  The remote
    scanning service is an oracle indexed by the number of requests sent so
    far; every request and every timer wait is recorded. *)

From Stdlib Require Import Init.Byte.
From Stdlib Require Import ZArith List String Ascii Bool Lia DecimalString.
Import ListNotations.

Open Scope string_scope.
Open Scope Z_scope.

(** ** JavaScript strings

    Strings are byte strings: a character outside ASCII is the sequence of
    the bytes of its UTF-8 encoding, each of them 128 or above. *)

Definition lower_ascii (c : ascii) : ascii :=
  let n := nat_of_ascii c in
  if ((65 <=? n)%nat && (n <=? 90)%nat)%bool then ascii_of_nat (n + 32) else c.

(** [s.toLowerCase()], on the letters [A]-[Z].  This is what
    [String.prototype.toLowerCase] gives for a string of ASCII characters
    ([isAscii] below).  The code also maps letters outside ASCII
    ([U+00DB] to [U+00FB], the Kelvin sign [U+212A] to [k]), whose bytes
    are left alone here; a statement below that reads the lower-cased
    string of an arbitrary input is therefore made for ASCII strings.
    The blocklist test [isKnownMalicious] agrees with the code on every
    string: the markers are ASCII, and the only characters outside ASCII
    whose lower-case form holds an ASCII character are [U+212A] ([k],
    which is in no marker) and [U+0130] ([i] followed by a combining dot,
    where a marker has [c] or [p] after each [i]). *)
Fixpoint toLowerCase (s : string) : string :=
  match s with
  | EmptyString => EmptyString
  | String c s' => String (lower_ascii c) (toLowerCase s')
  end.

(** A string of ASCII characters only. *)
Definition isAscii (s : string) : bool :=
  forallb (fun c => (nat_of_ascii c <? 128)%nat) (list_ascii_of_string s).

(** [s.startsWith(t)] *)
Definition startsWith (s t : string) : bool := String.prefix t s.

(** [s.includes(t)]: [t] occurs in [s] at some position. *)
Fixpoint includes (s t : string) : bool :=
  String.prefix t s ||
  match s with
  | EmptyString => false
  | String _ s' => includes s' t
  end.

(** [s.replace(pat, rep)] with a string pattern: the first occurrence only. *)
Fixpoint replace (s pat rep : string) : string :=
  if String.prefix pat s
  then rep ++ String.substring (String.length pat)
                               (String.length s - String.length pat) s
  else match s with
       | EmptyString => EmptyString
       | String c s' => String c (replace s' pat rep)
       end.

(** [s.split('/').pop()]: what follows the last slash. *)
Fixpoint split_pop (s cur : string) : string :=
  match s with
  | EmptyString => cur
  | String c s' =>
      if Ascii.eqb c "/" then split_pop s' EmptyString
      else split_pop s' (cur ++ String c EmptyString)
  end.

Definition is_hex (c : ascii) : bool :=
  let n := nat_of_ascii c in
  ((48 <=? n) && (n <=? 57) || (97 <=? n) && (n <=? 102)
   || (65 <=? n) && (n <=? 70))%nat%bool.

(** [/^[a-fA-F0-9]{64}$/.test(id)] *)
Definition isFileHash (id : string) : bool :=
  (String.length id =? 64)%nat && forallb is_hex (list_ascii_of_string id).

(** JavaScript truthiness of a string: the empty string (like [undefined])
    is falsy. *)
Definition truthy (s : string) : bool := negb (s =? "")%string.

(** ** Errors and promises *)

(** [error.response]: the HTTP status and [data.error.code]. *)
Record HttpResponse := { status : Z; code : string }.

(** A thrown value: [error.message] and, for an HTTP failure reported by
    axios, [error.response]. *)
Record JsError := { message : string; response : option HttpResponse }.

(** [new Error(msg)] *)
Definition Error (msg : string) : JsError :=
  {| message := msg; response := None |}.

Definition TypeError : JsError :=
  Error "Cannot read properties of undefined".

Definition ReferenceError (name : string) : JsError :=
  Error (name ++ " is not defined").

(** How an awaited promise settles. *)
Inductive Result (A : Type) : Type :=
| Ok (a : A)
| Throw (e : JsError).
Arguments Ok {A} a.
Arguments Throw {A} e.

(** ** The remote scanning service *)

Record Stats := { malicious_count : Z; suspicious : Z; harmless : Z }.

(** [data.data] of [GET /files/{hash}]: the record id and the optional
    [attributes.last_analysis_stats] / [attributes.last_analysis_id]. *)
Record FileInfo := {
  fi_id : string;
  last_analysis_stats : option Stats;
  last_analysis_id : string
}.

(** [attributes] of an analysis object: what the pollers return. *)
Record Analysis := { an_status : string; an_stats : option Stats }.

(** What axios gets back: a 2xx body of the documented shape, a 2xx body
    without [data.data] (reading it raises a TypeError), or a rejection. *)
Inductive Reply (A : Type) : Type :=
| Resp (a : A)
| Bad
| Fail (e : JsError).
Arguments Resp {A} a.
Arguments Bad {A}.
Arguments Fail {A} e.

Inductive Request : Type :=
| GetFile (hash : string)
| PostFile (buffer : list byte) (filename : string)
| GetAnalysis (id : string).

(** The service answers the [n]-th request of a run. *)
Record Remote := {
  files_get : nat -> string -> Reply FileInfo;
  files_post : nat -> list byte -> string -> Reply string;
  analyses_get : nat -> string -> Reply Analysis
}.

Inductive NetEvent : Type :=
| Sent (rq : Request)
| Waited (ms : Z).

Record Net := { remote : Remote; clock : nat; wire : list NetEvent }.

Definition sent (rq : Request) (n : Net) : Net :=
  {| remote := remote n; clock := S (clock n); wire := wire n ++ [Sent rq] |}.

Definition waited (ms : Z) (n : Net) : Net :=
  {| remote := remote n; clock := clock n; wire := wire n ++ [Waited ms] |}.

(** Number of requests on a wire. *)
Fixpoint requests (l : list NetEvent) : nat :=
  match l with
  | [] => 0%nat
  | Sent _ :: l' => S (requests l')
  | Waited _ :: l' => requests l'
  end.

(** ** The monad of the scanning utilities: network state and exceptions *)

Definition N (A : Type) : Type := Net -> Result A * Net.

Definition ret {A} (a : A) : N A := fun n => (Ok a, n).

Definition throw {A} (e : JsError) : N A := fun n => (Throw e, n).

Definition bind {A B} (m : N A) (k : A -> N B) : N B :=
  fun n => match m n with
           | (Ok a, n') => k a n'
           | (Throw e, n') => (Throw e, n')
           end.

(** [try { m } catch (e) { h e }] *)
Definition tryCatch {A} (m : N A) (h : JsError -> N A) : N A :=
  fun n => match m n with
           | (Ok a, n') => (Ok a, n')
           | (Throw e, n') => h e n'
           end.

Declare Scope js_scope.
Delimit Scope js_scope with js.
Notation "x <- m ;; k" := (bind m (fun x => k))
  (at level 100, m at next level, right associativity) : js_scope.
Notation "m ;;; k" := (bind m (fun _ => k))
  (at level 100, right associativity) : js_scope.

(** What [await axios.get(...)] gives: the response, whose [data.data] may
    be missing, or the rejection. *)
Definition received {A} (r : Reply A) : Result (option A) :=
  match r with
  | Resp a => Ok (Some a)
  | Bad => Ok None
  | Fail e => Throw e
  end.

(** Reading a field under [response.data.data]. *)
Definition data {A} (body : option A) : N A :=
  match body with
  | Some a => ret a
  | None => throw TypeError
  end.

(** A request whose answer is then read: the two steps together. *)
Definition settle {A} (r : Reply A) : Result A :=
  match r with
  | Resp a => Ok a
  | Bad => Throw TypeError
  | Fail e => Throw e
  end.

(** [await axios.get(`${VT}/files/${hash}`, ...)] *)
Definition axios_get_file (hash : string) : N (option FileInfo) :=
  fun n => (received (files_get (remote n) (clock n) hash),
            sent (GetFile hash) n).

(** [await axios.post(`${VT}/files`, form, ...)]; the body holds
    [data.data.id]. *)
Definition axios_post_file (buffer : list byte) (filename : string)
  : N (option string) :=
  fun n => (received (files_post (remote n) (clock n) buffer filename),
            sent (PostFile buffer filename) n).

(** [await axios.get(`${VT}/analyses/${id}`, ...)] *)
Definition axios_get_analysis (id : string) : N (option Analysis) :=
  fun n => (received (analyses_get (remote n) (clock n) id),
            sent (GetAnalysis id) n).

(** The [try]/[catch] of a loop body, with the outcome as a value. *)
Definition attempt {A} (m : N A) : N (Result A) :=
  fun n => let (r, n') := m n in (Ok r, n').

(** [await new Promise(resolve => setTimeout(resolve, ms))] *)
Definition setTimeout (ms : Z) : N unit := fun n => (Ok tt, waited ms n).

(** [error.response && error.response.status === s] *)
Definition response_status_is (e : JsError) (s : Z) : bool :=
  match response e with
  | Some r => status r =? s
  | None => false
  end.

(** [crypto.createHash('sha256').update(buffer).digest('hex')] *)
Class Crypto := { sha256_hex : list byte -> string }.

(** The interface the controller imports from the utility module. *)
Record VirusTotal := {
  scanFile : list byte -> string -> string -> N string;
  getAnalysis : string -> string -> N Analysis
}.

(** The synthetic "completed and clean" result of the original poller. *)
Definition cleanResult : Analysis :=
  {| an_status := "completed";
     an_stats := Some {| malicious_count := 0; suspicious := 0; harmless := 1 |} |}.

(** ** The original utility module: [src/backend/utils/virusTotal.js] *)

Module Original.
Section WithCrypto.
Context {C : Crypto}.
Local Open Scope js_scope.

(** [scanFile(buffer, filename, key)].

    The handler of the outer [try] retries the lookup after a 409 or a 400.
    In the 400 branch the fallback [return `file-${hash}`] sits in the
    [catch] block of an inner [try] whose own block declares
    [const hash]; that binding, like the one of the outer [try] block, is
    not in scope there, so evaluating the template literal raises a
    ReferenceError. *)
Definition scanFile (buffer : list byte) (filename key : string) : N string :=
  tryCatch
    (let hash := sha256_hex buffer in
     tryCatch
       (response <- axios_get_file hash ;;
        file <- data response ;;
        ret (fi_id file))
       (fun hashError =>
          posted <- axios_post_file buffer filename ;;
          id <- data posted ;;
          ret id))
    (fun error =>
       match response error with
       | Some r =>
           if status r =? 409 then
             tryCatch
               (let hash := sha256_hex buffer in
                response <- axios_get_file hash ;;
                file <- data response ;;
                ret (fi_id file))
               (fun hashError => throw hashError)
           else if status r =? 400 then
             tryCatch
               (let hash := sha256_hex buffer in
                response <- axios_get_file hash ;;
                file <- data response ;;
                ret (fi_id file))
               (fun hashError => throw (ReferenceError "hash"))
           else throw error
       | None => throw error
       end).

(** [getAnalysis(id, key)] *)
Definition getAnalysis (id key : string) : N Analysis :=
  tryCatch
    (if startsWith id "file-" then
       let hash := replace id "file-" "" in
       tryCatch
         (axios_get_file hash ;;; ret cleanResult)
         (fun error => ret cleanResult)
     else
       tryCatch
         (got <- axios_get_analysis id ;;
          analysis <- data got ;;
          if (an_status analysis =? "queued")%string
             || (an_status analysis =? "pending")%string
          then ret cleanResult
          else ret analysis)
         (fun error => ret cleanResult))
    (fun error => ret cleanResult).

Definition virusTotal : VirusTotal :=
  Build_VirusTotal scanFile getAnalysis.

End WithCrypto.
End Original.

(** ** The revised utility module *)

Module Revised.
Section WithCrypto.
Context {C : Crypto}.
Local Open Scope js_scope.

Definition POLLING_INTERVAL_MS : Z := 8000.
Definition MAX_RETRIES : Z := 3.

Definition RATE_LIMIT_EXCEEDED : JsError := Error "RATE_LIMIT_EXCEEDED".
Definition ANALYSIS_PENDING : JsError := Error "ANALYSIS_PENDING".
Definition ANALYSIS_TIMEOUT : JsError := Error "ANALYSIS_TIMEOUT".

Definition completed (stats : option Stats) : Analysis :=
  {| an_status := "completed"; an_stats := stats |}.

(** [scanFile(buffer, filename, key)] *)
Definition scanFile (buffer : list byte) (filename key : string) : N string :=
  tryCatch
    (let hash := sha256_hex buffer in
     tryCatch
       (axios_get_file hash ;;; ret hash)
       (fun hashError =>
          posted <- axios_post_file buffer filename ;;
          id <- data posted ;;
          ret id))
    (fun error =>
       if response_status_is error 429 then throw RATE_LIMIT_EXCEEDED
       else throw error).

(** [getAnalysis(id, key)] *)
Definition getAnalysis (id key : string) : N Analysis :=
  tryCatch
    (if isFileHash id then
       tryCatch
         (fileResponse <- axios_get_file id ;;
          file <- data fileResponse ;;
          match last_analysis_stats file with
          | Some stats => ret (completed (Some stats))
          | None =>
              if truthy (last_analysis_id file) then
                analysisResponse <-
                  axios_get_analysis (last_analysis_id file) ;;
                analysis <- data analysisResponse ;;
                ret (completed (an_stats analysis))
              else throw ANALYSIS_PENDING
          end)
         (fun fileError =>
            if response_status_is fileError 429 then throw RATE_LIMIT_EXCEEDED
            else throw fileError)
     else
       tryCatch
         (got <- axios_get_analysis id ;;
          analysis <- data got ;;
          if (an_status analysis =? "completed")%string
          then ret (completed (an_stats analysis))
          else throw ANALYSIS_PENDING)
         (fun analysisError =>
            if response_status_is analysisError 429
            then throw RATE_LIMIT_EXCEEDED
            else
              match response analysisError with
              | Some r =>
                  if (status r =? 400) && (code r =? "NotAvailableYet")%string
                  then throw ANALYSIS_PENDING
                  else throw analysisError
              | None => throw analysisError
              end))
    (fun error => throw error).

(** The loop of [waitForAnalysis].  [left] is the loop variant
    [maxRetries - retries]: the guard [retries < maxRetries] holds exactly
    when it is not zero, and every iteration that continues increments
    [retries]. *)
Fixpoint waitLoop (id key : string) (left : nat) (retries : Z) : N Analysis :=
  match left with
  | O => throw ANALYSIS_TIMEOUT
  | S left' =>
      r <- attempt
             ((if 0 <? retries then setTimeout POLLING_INTERVAL_MS else ret tt) ;;;
              getAnalysis id key) ;;
      match r with
      | Ok result =>
          if (an_status result =? "completed")%string then ret result
          else waitLoop id key left' (retries + 1)
      | Throw error =>
          if (message error =? "RATE_LIMIT_EXCEEDED")%string then
            setTimeout (POLLING_INTERVAL_MS * 2) ;;;
            waitLoop id key left' (retries + 1)
          else throw error
      end
  end.

(** [waitForAnalysis(id, key, maxRetries = MAX_RETRIES)] *)
Definition waitForAnalysis (id key : string) (maxRetries : Z) : N Analysis :=
  waitLoop id key (Z.to_nat maxRetries) 0.

Definition virusTotal : VirusTotal :=
  Build_VirusTotal scanFile getAnalysis.

End WithCrypto.
End Revised.

(** ** The upload controller *)

Inductive Verdict : Type := unknown | pending | clean | malicious.

Definition Verdict_eqb (a b : Verdict) : bool :=
  match a, b with
  | unknown, unknown | pending, pending
  | clean, clean | malicious, malicious => true
  | _, _ => false
  end.

Definition Verdict_to_string (v : Verdict) : string :=
  match v with
  | unknown => "unknown"
  | pending => "pending"
  | clean => "clean"
  | malicious => "malicious"
  end.

(** [req.file], as multer fills it. *)
Record File := {
  buffer : list byte;
  mimetype : string;
  originalname : string;
  size : Z
}.

(** [req]: [userId] is empty when the middleware set none. *)
Record Req := { userId : string; file : option File }.

(** What [cloudinary.uploader.upload_stream] hands to its callback. *)
Record Uploaded := { up_public_id : string; up_secure_url : string }.

(** The fields of a Cloudinary error the handler reads; an empty string or
    0 stands for an absent field, [ce_error = Some m] for an [error] object
    whose [message] is [m]. *)
Record CloudinaryError := {
  ce_message : string;
  ce_error : option string;
  ce_http_code : Z;
  ce_name : string
}.

Inductive CloudResult : Type :=
| Stored (res : Uploaded)
| Refused (err : CloudinaryError).

(** The arguments of [uploadToCloudinary]. *)
Record UploadArgs := {
  ua_buffer : list byte;
  ua_publicId : string;
  ua_verdict : Verdict;
  ua_originalName : string;
  ua_userId : string
}.

(** The process environment of one request. *)
Record Env := {
  VT_API_KEY : string;
  randomUUID : string;
  upload_stream : UploadArgs -> CloudResult
}.

(** [mime.extension(type)] of the mime-types package; [None] is its
    [false]. *)
Class Mime := { mime_extension : string -> option string }.

Record FileEntry := {
  fe_id : string;
  fe_originalName : string;
  fe_url : option string;
  fe_verdict : string;
  fe_userId : string
}.

(** What the handlers send: [res.status(s).json(body)]. *)
Inductive Response : Type :=
| JsonError (st : Z) (error : string)
| JsonUpload (id originalName : string) (url : option string)
             (verdict : Verdict) (user : string)
| JsonCloudinaryError (error originalName : string)
                      (details : option (Z * string))
| JsonUploadFailed (msg : string)
| JsonFiles (files : list FileEntry).

(** What the controller does, in order. *)
Inductive Event : Type :=
| EvScanFile (buf : list byte) (filename : string) (r : Result string)
| EvGetAnalysis (id : string) (r : Result Analysis)
| EvSleep (ms : Z)
| EvUpload (args : UploadArgs).

(** The controller's monad: network state, exceptions, and the list of the
    controller's own steps. *)
Definition H (A : Type) : Type := Net -> Result A * list Event * Net.

Definition hret {A} (a : A) : H A := fun n => (Ok a, [], n).

Definition hthrow {A} (e : JsError) : H A := fun n => (Throw e, [], n).

Definition hbind {A B} (m : H A) (k : A -> H B) : H B :=
  fun n => match m n with
           | (Ok a, l1, n1) =>
               match k a n1 with
               | (b, l2, n2) => (b, (l1 ++ l2)%list, n2)
               end
           | (Throw e, l1, n1) => (Throw e, l1, n1)
           end.

(** [try { m } catch (e) { h e }] *)
Definition htry {A} (m : H A) (h : JsError -> H A) : H A :=
  fun n => match m n with
           | (Ok a, l1, n1) => (Ok a, l1, n1)
           | (Throw e, l1, n1) =>
               match h e n1 with
               | (b, l2, n2) => (b, (l1 ++ l2)%list, n2)
               end
           end.

(** An awaited call into the utility module, recorded with its outcome. *)
Definition call {A} (ev : Result A -> Event) (m : N A) : H A :=
  fun n => let '(r, n') := m n in (r, [ev r], n').

Declare Scope handler_scope.
Delimit Scope handler_scope with handler.
Notation "x <- m ;; k" := (hbind m (fun x => k))
  (at level 100, m at next level, right associativity) : handler_scope.
Notation "m ;;; k" := (hbind m (fun _ => k))
  (at level 100, right associativity) : handler_scope.

(** [await new Promise(r => setTimeout(r, ms))] in the controller. *)
Definition sleep (ms : Z) : H unit := fun n => (Ok tt, [EvSleep ms], n).

Definition is_poll (e : Event) : bool :=
  match e with EvGetAnalysis _ _ => true | _ => false end.

Definition is_scan (e : Event) : bool :=
  match e with EvScanFile _ _ _ => true | _ => false end.

(** The steps the polling loop takes: polls and sleeps. *)
Definition loop_event (e : Event) : Prop :=
  match e with
  | EvGetAnalysis _ _ | EvSleep _ => True
  | _ => False
  end.

(** Number of calls to [getAnalysis] / [scanFile] among the steps. *)
Definition polls (l : list Event) : nat := List.length (filter is_poll l).
Definition scans (l : list Event) : nat := List.length (filter is_scan l).

(** The calls to [uploadToCloudinary] among the steps. *)
Definition uploads (l : list Event) : list UploadArgs :=
  flat_map (fun e => match e with EvUpload a => [a] | _ => [] end) l.

(** The waits between consecutive polls: for each poll but the first, the
    total time slept since the previous one. *)
Fixpoint gaps_from (acc : Z) (l : list Event) : list Z :=
  match l with
  | [] => []
  | EvSleep ms :: l' => gaps_from (acc + ms) l'
  | EvGetAnalysis _ _ :: l' => acc :: gaps_from 0 l'
  | _ :: l' => gaps_from acc l'
  end.

Fixpoint gaps (l : list Event) : list Z :=
  match l with
  | [] => []
  | EvGetAnalysis _ _ :: l' => gaps_from 0 l'
  | _ :: l' => gaps l'
  end.

Definition allowed : list string :=
  ["pdf"; "png"; "jpg"; "jpeg"; "docx"; "txt"; "zip"; "exe"].

Definition knownMaliciousNames : list string :=
  ["eicar"; "eicar.txt"; "eicar.com"; "eicar_com.zip"; "eicarcom2.zip"].

(** [knownMaliciousNames.some(name => originalname.toLowerCase().includes(name))] *)
Definition isKnownMalicious (originalname : string) : bool :=
  existsb (fun name => includes (toLowerCase originalname) name)
          knownMaliciousNames.

Section Controller.
Context {M : Mime}.
Variable vt : VirusTotal.
Local Open Scope handler_scope.

(** Lines 66-68: the verdict read off a poll result.  Reading
    [stats.malicious] of a completed result without [stats] throws. *)
Definition verdictOf (r : Analysis) : H Verdict :=
  if (an_status r =? "completed")%string then
    match an_stats r with
    | Some stats => hret (if malicious_count stats >? 0 then malicious else clean)
    | None => hthrow TypeError
    end
  else hret pending.

(** The loop of lines 63-88.  It returns [verdict] as the loop leaves it.
    [left] is the loop variant [maxRetries - retryCount]: the guard
    [verdict === 'pending' && retryCount < maxRetries] holds exactly when
    the last iteration left the verdict pending and [left] is not 0;
    [retryCount] is incremented exactly when the verdict stays pending. *)
Fixpoint pollLoop (key vtId : string) (maxRetries : Z) (left : nat)
    (retryCount : Z) : H Verdict :=
  match left with
  | O => hret pending
  | S left' =>
      verdict <-
        htry
          (r <- call (EvGetAnalysis vtId) (getAnalysis vt vtId key) ;;
           verdict <- verdictOf r ;;
           if Verdict_eqb verdict pending
           then sleep 5000 ;;; hret pending
           else hret verdict)
          (fun analysisError =>
             if retryCount >=? maxRetries - 1 then hret clean
             else sleep 5000 ;;; hret pending) ;;
      if Verdict_eqb verdict pending
      then pollLoop key vtId maxRetries left' (retryCount + 1)
      else hret verdict
  end.

(** What one iteration of the loop decides from the outcome of its poll:
    [Some v] when the loop is left with verdict [v], [None] when it sleeps
    and goes round again.  Used to state the loop's unfolding. *)
Definition pollStep (maxRetries retryCount : Z) (r : Result Analysis)
  : option Verdict :=
  let caught := if retryCount >=? maxRetries - 1 then Some clean else None in
  match r with
  | Ok a =>
      if (an_status a =? "completed")%string then
        match an_stats a with
        | Some stats =>
            Some (if malicious_count stats >? 0 then malicious else clean)
        | None => caught
        end
      else None
  | Throw _ => caught
  end.

(** Lines 51-104: the scan of a file that is not on the blocklist. *)
Definition scanVerdict (env : Env) (f : File) (publicId : string) : H Verdict :=
  htry
    (vtId <- call (EvScanFile (buffer f) publicId)
                  (scanFile vt (buffer f) publicId (VT_API_KEY env)) ;;
     if truthy vtId then
       let maxRetries := 3 in
       verdict <- pollLoop (VT_API_KEY env) vtId maxRetries
                           (Z.to_nat maxRetries) 0 ;;
       if Verdict_eqb verdict pending then hret clean else hret verdict
     else hret clean)
    (fun vtError => hret clean).

(** Lines 132-168: the answer to a failed Cloudinary upload. *)
Definition cloudinaryFailure (err : CloudinaryError) (originalName : string)
  : Response :=
  let m0 := "Upload failed" in
  let m1 := if truthy (ce_message err) then ce_message err else m0 in
  let m2 := match ce_error err with
            | Some m => if truthy m then m else m1
            | None => m1
            end in
  if ce_http_code err =? 0 then JsonCloudinaryError m2 originalName None
  else
    let name := if truthy (ce_name err) then ce_name err else "CloudinaryError" in
    let m3 := if truthy (ce_message err)
                 && includes (ce_message err) "File size too large"
              then "File size exceeds Cloudinary limits. Please use a smaller file."
              else m2 in
    JsonCloudinaryError m3 originalName (Some (ce_http_code err, name)).

(** [uploadToCloudinary(buffer, publicId, verdict, originalName, userId)]
    inside its [try]: the answer after the upload settled. *)
Definition store (env : Env) (args : UploadArgs) : H Response :=
  fun n =>
    (Ok match upload_stream env args with
        | Stored uploaded =>
            JsonUpload (up_public_id uploaded) (ua_originalName args)
                       (Some (up_secure_url uploaded)) (ua_verdict args)
                       (ua_userId args)
        | Refused err => cloudinaryFailure err (ua_originalName args)
        end, [EvUpload args], n).

(** Lines 109-169: a malicious file is answered without storing it; any
    other verdict goes to Cloudinary. *)
Definition persist (env : Env) (f : File) (publicId user : string)
    (verdict : Verdict) : H Response :=
  if Verdict_eqb verdict malicious then
    hret (JsonUpload publicId (originalname f) None malicious user)
  else
    store env {| ua_buffer := buffer f; ua_publicId := publicId;
                 ua_verdict := verdict;
                 ua_originalName := originalname f; ua_userId := user |}.

(** [mime.extension(file.mimetype) || ''] *)
Definition extension (f : File) : string :=
  match mime_extension (mimetype f) with
  | Some e => e
  | None => ""
  end.

(** [uploadHandler(req, res)] *)
Definition uploadHandler (env : Env) (req : Req) : H Response :=
  htry
    (if negb (truthy (userId req)) then
       hret (JsonError 401 "User authentication required")
     else
       f <- match file req with
            | Some f => hret f
            | None => hthrow TypeError
            end ;;
       let ext := extension f in
       if negb (existsb (String.eqb ext) allowed) then
         hret (JsonError 400 "Blocked extension")
       else if size f >? 25 * 1024 * 1024 then
         hret (JsonError 400 "File too large")
       else
         let publicId := (randomUUID env ++ "." ++ ext)%string in
         if isKnownMalicious (originalname f) then
           hret (JsonUpload publicId (originalname f) None malicious
                            (userId req))
         else
           verdict <- scanVerdict env f publicId ;;
           persist env f publicId (userId req) verdict)
    (fun err => hret (JsonUploadFailed (message err))).

(** The verdict resolution inside [uploadHandler] (lines 38-104): the
    blocklist fast path, then the scan. *)
Definition resolve (env : Env) (f : File) (publicId : string) : H Verdict :=
  if isKnownMalicious (originalname f) then hret malicious
  else scanVerdict env f publicId.

(** The checks [uploadHandler] makes before it resolves a verdict, and the
    answer it sends when one of them fails. *)
Definition precheck (req : Req) : option Response :=
  if negb (truthy (userId req)) then
    Some (JsonError 401 "User authentication required")
  else
    match file req with
    | None => Some (JsonUploadFailed (message TypeError))
    | Some f =>
        if negb (existsb (String.eqb (extension f)) allowed) then
          Some (JsonError 400 "Blocked extension")
        else if size f >? 25 * 1024 * 1024 then
          Some (JsonError 400 "File too large")
        else None
    end.

Definition publicIdOf (env : Env) (f : File) : string :=
  (randomUUID env ++ "." ++ extension f)%string.

End Controller.

(** *** Listing *)

(** [r.context.custom] *)
Record Custom := { cu_verdict : string; cu_originalName : string }.

(** [r.context]; empty strings stand for absent fields. *)
Record Context := {
  cx_verdict : string;
  cx_originalName : string;
  cx_custom : option Custom;
  cx_userId : string
}.

(** A resource of the Cloudinary search; no [tags] is the empty list. *)
Record Resource := {
  public_id : string;
  secure_url : string;
  context : option Context;
  tags : list string
}.

Definition verdictTags : list string :=
  ["malicious"; "clean"; "unknown"; "pending"].

(** The function [listAll] maps over [out.resources] (lines 214-262). *)
Definition listEntry (user : string) (r : Resource) : FileEntry :=
  let originalName0 := split_pop (public_id r) "" in
  let verdict0 :=
    match context r with
    | Some c =>
        if truthy (cx_verdict c) then toLowerCase (cx_verdict c)
        else match cx_custom c with
             | Some cu => if truthy (cu_verdict cu)
                          then toLowerCase (cu_verdict cu) else "unknown"
             | None => "unknown"
             end
    | None => "unknown"
    end in
  let verdict1 :=
    if (0 <? List.length (tags r))%nat && (verdict0 =? "unknown")%string then
      match find (fun tag => existsb (String.eqb (toLowerCase tag)) verdictTags)
                 (tags r) with
      | Some verdictTag =>
          if truthy verdictTag then toLowerCase verdictTag else verdict0
      | None => verdict0
      end
    else verdict0 in
  let originalName :=
    match context r with
    | Some c =>
        if truthy (cx_originalName c) then cx_originalName c
        else match cx_custom c with
             | Some cu => if truthy (cu_originalName cu)
                          then cu_originalName cu else originalName0
             | None => originalName0
             end
    | None => originalName0
    end in
  let verdict :=
    if isKnownMalicious originalName then "malicious" else verdict1 in
  {| fe_id := public_id r;
     fe_originalName := originalName;
     fe_url := if (verdict =? "malicious")%string then None
               else Some (secure_url r);
     fe_verdict := verdict;
     fe_userId := match context r with
                  | Some c => if truthy (cx_userId c) then cx_userId c else user
                  | None => user
                  end |}.

(** [listAll(req, res)]; [search] is
    [cl.search.expression(e).with_field('context').execute()], yielding
    [out.resources]. *)
Definition listAll (search : string -> Result (list Resource)) (req : Req)
  : Response :=
  if negb (truthy (userId req)) then
    JsonError 401 "User authentication required"
  else
    match search ("resource_type:raw AND tags:" ++ userId req)%string with
    | Ok resources => JsonFiles (map (listEntry (userId req)) resources)
    | Throw err => JsonError 500 "Failed to list files"
    end.

(** ** Outcomes a caller sees *)

(** A poll that settles without a verdict: a result that is not completed,
    or the [ANALYSIS_PENDING] error of the revised module. *)
Definition reportsPending (r : Result Analysis) : Prop :=
  match r with
  | Ok a => an_status a <> "completed"
  | Throw e => message e = "ANALYSIS_PENDING"
  end.

(** The first request of a poll of [id] in the revised module. *)
Definition pollRequest (id : string) : Request :=
  if isFileHash id then GetFile id else GetAnalysis id.

(** The remote service answers that request with a 429. *)
Definition rateLimited (id : string) (n : Net) : Prop :=
  exists e,
    response_status_is e 429 = true /\
    if isFileHash id
    then files_get (remote n) (clock n) id = Fail e
    else analyses_get (remote n) (clock n) id = Fail e.

(** ** Test doubles

    The environments of the controller's test suite and a few scripted
    remote services, used to run the definitions on concrete inputs. *)

Module Doubles.

(** The SHA-256 digest of the empty buffer, the only one hashed below. *)
Definition emptyDigest : string :=
  "e3b0c44298fc1c149afbf4c8996fb92427ae41e4649b934ca495991b7852b855".

Definition crypto : Crypto := {| sha256_hex := fun _ => emptyDigest |}.

Definition mime : Mime :=
  {| mime_extension := fun t =>
       if (t =? "application/pdf")%string then Some "pdf"
       else if (t =? "text/plain")%string then Some "txt"
       else None |}.

Definition httpError (st : Z) (c : string) : JsError :=
  {| message := "Request failed";
     response := Some {| status := st; code := c |} |}.

Definition start (r : Remote) : Net :=
  {| remote := r; clock := 0; wire := [] |}.

(** Cloudinary stores whatever it is given. *)
Definition env : Env :=
  {| VT_API_KEY := "key";
     randomUUID := "uuid";
     upload_stream := fun a =>
       Stored {| up_public_id := ua_publicId a;
                 up_secure_url := "https://example.com/" ++ ua_publicId a |} |}.

Definition upload (type name : string) : File :=
  {| buffer := []; mimetype := type; originalname := name; size := 1024 |}.

Definition request (type name : string) : Req :=
  {| userId := "user123"; file := Some (upload type name) |}.

(** The mocks of the test suite: a scan id and a completed analysis. *)
Definition mock (id : string) (detections : Z) : VirusTotal :=
  {| scanFile := fun _ _ _ => ret id;
     getAnalysis := fun _ _ =>
       ret {| an_status := "completed";
              an_stats := Some {| malicious_count := detections;
                                  suspicious := 0; harmless := 0 |} |} |}.

(** A service that does not know the file, accepts the upload and then
    keeps the analysis queued. *)
Definition queued : Remote :=
  {| files_get := fun _ _ => Fail (httpError 404 "NotFoundError");
     files_post := fun _ _ _ => Resp "analysis-1";
     analyses_get := fun _ _ =>
       Resp {| an_status := "queued"; an_stats := None |} |}.

(** A service that rate-limits its first request and has a completed,
    clean analysis from the second request on. *)
Definition limitedOnce : Remote :=
  {| files_get := fun _ _ => Fail (httpError 404 "NotFoundError");
     files_post := fun _ _ _ => Resp "analysis-1";
     analyses_get := fun k _ =>
       if (k =? 0)%nat then Fail (httpError 429 "QuotaExceededError")
       else Resp cleanResult |}.

(** A service that never finds the file and answers the upload with [st]. *)
Definition rejecting (st : Z) : Remote :=
  {| files_get := fun _ _ => Fail (httpError 404 "NotFoundError");
     files_post := fun _ _ _ => Fail (httpError st "");
     analyses_get := fun _ _ => Fail (httpError 404 "NotFoundError") |}.

(** A service that misses the file at first, answers the upload with [st]
    and finds the file when asked again. *)
Definition recovering (st : Z) : Remote :=
  {| files_get := fun k _ =>
       if (k =? 0)%nat then Fail (httpError 404 "NotFoundError")
       else Resp {| fi_id := emptyDigest; last_analysis_stats := None;
                    last_analysis_id := "" |};
     files_post := fun _ _ _ => Fail (httpError st "");
     analyses_get := fun _ _ => Fail (httpError 404 "NotFoundError") |}.

End Doubles.

(** ** The rest of the controller and its middleware *)

(** [s.split(sep)] for a one-character separator. *)
Fixpoint split_from (sep : ascii) (s cur : string) : list string :=
  match s with
  | EmptyString => [cur]
  | String c s' =>
      if Ascii.eqb c sep then cur :: split_from sep s' EmptyString
      else split_from sep s' (cur ++ String c EmptyString)
  end.

Definition split (sep : ascii) (s : string) : list string :=
  split_from sep s EmptyString.

(** What [requireAuth] does with a request: it answers, or it sets
    [req.userId] and [req.sessionId] and calls [next()]. *)
Inductive AuthOutcome : Type :=
| Denied (st : Z) (msg : string)
| Granted (user session : string).

(** [requireAuth(req, res, next)]; [authorization] is the header (empty
    when absent) and [verifyToken] is [clerkClient.verifyToken], yielding
    [sub] and [sid]. *)
Definition requireAuth (verifyToken : string -> Result (string * string))
    (authorization : string) : AuthOutcome :=
  let authHeader := authorization in
  if negb (truthy authHeader) || negb (startsWith authHeader "Bearer ") then
    Denied 401 "Authentication required"
  else
    let token := nth 1 (split " " authHeader) "" in
    if negb (truthy token) then Denied 401 "No token provided"
    else
      match verifyToken token with
      | Ok (sub, sid) =>
          if negb (truthy sub) then Denied 401 "Invalid token: missing user ID"
          else Granted sub sid
      | Throw error => Denied 401 "Invalid or expired token"
      end.

(** The route [router.post('/', requireAuth, upload.single('file'),
    uploadHandler)]: the handler runs on the request the middleware let
    through, with the user id it set. *)
Definition postFiles {M : Mime} (vt : VirusTotal)
    (verifyToken : string -> Result (string * string)) (env : Env)
    (authorization : string) (f : option File)
  : H (AuthOutcome + Response) :=
  match requireAuth verifyToken authorization with
  | Granted user session =>
      fun n =>
        match uploadHandler vt env {| userId := user; file := f |} n with
        | (Ok resp, l, n') => (Ok (inr resp), l, n')
        | (Throw e, l, n') => (Throw e, l, n')
        end
  | denied => hret (inl denied)
  end.

(** The options [uploadToCloudinary] passes to [upload_stream]:
    [public_id], [tags] and [context]. *)
Definition uploadTags (args : UploadArgs) : list string :=
  if truthy (Verdict_to_string (ua_verdict args))
  then [Verdict_to_string (ua_verdict args); ua_userId args]
  else [ua_userId args].

Definition uploadContext (args : UploadArgs) : Context :=
  {| cx_verdict := Verdict_to_string (ua_verdict args);
     cx_originalName := ua_originalName args;
     cx_custom := None;
     cx_userId := ua_userId args |}.

(** The resource a search returns for an upload made with these options,
    in the shape the controller's tests give it: the [public_id], the
    [context] and the [tags] as passed, and the URL Cloudinary assigned. *)
Definition storedAs (args : UploadArgs) (url : string) : Resource :=
  {| public_id := ua_publicId args;
     secure_url := url;
     context := Some (uploadContext args);
     tags := uploadTags args |}.

(** *** Deletion *)

(** The Cloudinary admin calls of the controller.  [destroy k id] is the
    outcome of the [k]-th call of [cl.uploader.destroy] of a handler run,
    with [result.result] as its value. *)
Inductive Looked : Type :=
| Found (info : Resource)
| Missing (err : CloudinaryError).

Record Admin := {
  api_resource : string -> Looked;
  destroy : nat -> string -> Result string;
  search_execute : string -> Result (list Resource)
}.

(** [deleteFileFromCloudinary(fileId)], as the [k]-th destroy call. *)
Definition deleteFileFromCloudinary (adm : Admin) (k : nat) (fileId : string)
  : bool :=
  match destroy adm k fileId with
  | Ok result => (result =? "ok")%string
  | Throw err => false
  end.

(** What the deletion handlers send. *)
Inductive Answer : Type :=
| AnsError (st : Z) (error : string)
| AnsFailure (st : Z) (error msg : string)
| AnsDeleted (msg : string)
| AnsDeletedAll (msg : string) (deletedCount : nat) (failedCount : option nat).

(** [deleteFile(req, res)], with [req.userId] and [req.params.fileId];
    the second component lists the ids handed to [destroy]. *)
Definition deleteFile (adm : Admin) (user fileId : string)
  : Answer * list string :=
  if negb (truthy user) then (AnsError 401 "User authentication required", [])
  else if negb (truthy fileId) then (AnsError 400 "File ID is required", [])
  else
    match api_resource adm fileId with
    | Missing err =>
        if ce_http_code err =? 404 then (AnsError 404 "File not found", [])
        else (AnsFailure 500 "Failed to delete file" (ce_message err), [])
    | Found fileInfo =>
        let fileUserId := match context fileInfo with
                          | Some c => cx_userId c
                          | None => ""
                          end in
        let userIdInTags := existsb (String.eqb user) (tags fileInfo) in
        if negb userIdInTags && negb (fileUserId =? user)%string
        then (AnsError 403 "You do not have permission to delete this file", [])
        else
          let deleted := deleteFileFromCloudinary adm 0 fileId in
          (if deleted then AnsDeleted "File deleted successfully"
           else AnsError 500 "Failed to delete file", [fileId])
    end.

(** The outcomes of [out.resources.map(r => deleteFileFromCloudinary(r.public_id))],
    the calls being issued in list order from the [k]-th on. *)
Fixpoint destroyAll (adm : Admin) (k : nat) (ids : list string) : list bool :=
  match ids with
  | [] => []
  | id :: ids' =>
      deleteFileFromCloudinary adm k id :: destroyAll adm (S k) ids'
  end.

Definition decimal (n : nat) : string :=
  NilEmpty.string_of_uint (Nat.to_uint n).

(** [deleteAllFiles(req, res)] *)
Definition deleteAllFiles (adm : Admin) (user : string)
  : Answer * list string :=
  if negb (truthy user) then (AnsError 401 "User authentication required", [])
  else
    match search_execute adm ("resource_type:raw AND tags:" ++ user)%string with
    | Throw err => (AnsError 500 "Failed to delete files", [])
    | Ok resources =>
        match resources with
        | [] => (AnsDeletedAll "No files found to delete" 0 None, [])
        | _ =>
            let ids := map public_id resources in
            let results := destroyAll adm 0 ids in
            let successCount := List.length (filter (fun ok => ok) results) in
            let failCount := (List.length results - successCount)%nat in
            (AnsDeletedAll
               ("Deleted " ++ decimal successCount
                ++ " files, failed to delete " ++ decimal failCount ++ " files")
               successCount (Some failCount), ids)
        end
    end.

(** The name and the verdict [cleanupMaliciousFiles] reads off a resource
    (lines 386-413). *)
Definition cleanupName (r : Resource) : string :=
  match context r with
  | Some c =>
      if truthy (cx_originalName c) then cx_originalName c
      else match cx_custom c with
           | Some cu => if truthy (cu_originalName cu)
                        then cu_originalName cu
                        else split_pop (public_id r) ""
           | None => split_pop (public_id r) ""
           end
  | None => split_pop (public_id r) ""
  end.

Definition cleanupVerdict (r : Resource) : string :=
  let verdict0 :=
    match context r with
    | Some c =>
        if truthy (cx_verdict c) then toLowerCase (cx_verdict c)
        else match cx_custom c with
             | Some cu => if truthy (cu_verdict cu)
                          then toLowerCase (cu_verdict cu) else "unknown"
             | None => "unknown"
             end
    | None => "unknown"
    end in
  match tags r with
  | tag0 :: _ =>
      if (verdict0 =? "unknown")%string then toLowerCase tag0 else verdict0
  | [] => verdict0
  end.

(** The test of line 419. *)
Definition cleanupSelects (r : Resource) : bool :=
  (cleanupVerdict r =? "malicious")%string
  || includes (cleanupVerdict r) "malicious"
  || isKnownMalicious (cleanupName r).

(** [cleanupMaliciousFiles()]: its return value and the ids handed to
    [destroy]. *)
Definition cleanupMaliciousFiles (adm : Admin) : bool * list string :=
  match search_execute adm "resource_type:raw" with
  | Throw err => (false, [])
  | Ok resources =>
      let maliciousFiles := filter cleanupSelects resources in
      (true, map public_id maliciousFiles)
  end.

(** *** The client *)

(** [checkMaliciousPatterns(file)] and [isFileTooLarge(file)] of the upload
    form. *)
Definition maliciousPatterns : list string :=
  ["eicar"; "eicar.txt"; "eicar.com"; "eicar_com.zip"; "eicarcom2.zip"].

Definition checkMaliciousPatterns (name : string) : bool :=
  let fileName := toLowerCase name in
  existsb (fun pattern => includes fileName pattern) maliciousPatterns.

Definition isFileTooLarge (size : Z) : bool :=
  let MAX_FILE_SIZE := 10 * 1024 * 1024 in
  size >? MAX_FILE_SIZE.

(** ** Measures on runs *)

(** Total time waited on a wire. *)
Fixpoint waitedTotal (l : list NetEvent) : Z :=
  match l with
  | [] => 0
  | Waited ms :: l' => ms + waitedTotal l'
  | Sent _ :: l' => waitedTotal l'
  end.

(** Total time the controller slept. *)
Fixpoint slept (l : list Event) : Z :=
  match l with
  | [] => 0
  | EvSleep ms :: l' => ms + slept l'
  | _ :: l' => slept l'
  end.

(** ** Further fixtures *)

Module Fixtures.

(** A service that knows the file, with two detections on record. *)
Definition known : Remote :=
  {| files_get := fun _ _ =>
       Resp {| fi_id := Doubles.emptyDigest;
               last_analysis_stats :=
                 Some {| malicious_count := 2; suspicious := 0; harmless := 60 |};
               last_analysis_id := "" |};
     files_post := fun _ _ _ => Fail (Doubles.httpError 409 "AlreadyExistsError");
     analyses_get := fun _ _ => Fail (Doubles.httpError 404 "NotFoundError") |}.

(** A service whose answers are all server errors. *)
Definition down : Remote :=
  {| files_get := fun _ _ => Fail (Doubles.httpError 500 "");
     files_post := fun _ _ _ => Fail (Doubles.httpError 500 "");
     analyses_get := fun _ _ => Fail (Doubles.httpError 500 "") |}.

(** Clerk accepts the token [good] only. *)
Definition clerk (token : string) : Result (string * string) :=
  if (token =? "good")%string then Ok ("user123", "sess1")
  else Throw (Error "invalid").

(** A Cloudinary account that refuses every file for its size. *)
Definition full : Env :=
  {| VT_API_KEY := "key";
     randomUUID := "uuid";
     upload_stream := fun _ =>
       Refused {| ce_message := "File size too large. Got 30000000. Maximum is 10485760.";
                  ce_error := None; ce_http_code := 400; ce_name := "" |} |}.

Definition cleanArgs : UploadArgs :=
  {| ua_buffer := []; ua_publicId := "uuid.pdf"; ua_verdict := clean;
     ua_originalName := "test.pdf"; ua_userId := "user123" |}.

(** An account with one file of the user and one of somebody else. *)
Definition admin : Admin :=
  {| api_resource := fun id =>
       if (id =? "file1")%string then
         Found {| public_id := "file1"; secure_url := "https://example.com/file1";
                  context := Some {| cx_verdict := "clean";
                                     cx_originalName := "test1.pdf";
                                     cx_custom := None; cx_userId := "user123" |};
                  tags := ["clean"; "user123"] |}
       else if (id =? "file2")%string then
         Found {| public_id := "file2"; secure_url := "https://example.com/file2";
                  context := Some {| cx_verdict := "clean";
                                     cx_originalName := "other.pdf";
                                     cx_custom := None; cx_userId := "otherUser" |};
                  tags := ["clean"; "otherUser"] |}
       else Missing {| ce_message := "Resource not found"; ce_error := None;
                       ce_http_code := 404; ce_name := "Error" |};
     destroy := fun _ id =>
       if (id =? "file1")%string then Ok "ok" else Ok "not found";
     search_execute := fun _ =>
       Ok [ storedAs cleanArgs "https://example.com/uuid.pdf";
            {| public_id := "docs/eicar.com"; secure_url := "https://example.com/e";
               context := None; tags := [] |} ] |}.

End Fixtures.

(** * Properties *)

(** ** Requests *)

(** Awaiting a lookup and reading its body settles as [settle] says. *)
Lemma axios_get_file_data (hash : string) (n : Net) :
  bind (axios_get_file hash) data n
  = (settle (files_get (remote n) (clock n) hash), sent (GetFile hash) n).
Proof.
  unfold bind, axios_get_file, data, ret, throw.
  destruct (files_get (remote n) (clock n) hash); reflexivity.
Qed.

(** ** Strings *)

Lemma string_app_assoc (a b c : string) :
  ((a ++ b) ++ c = a ++ (b ++ c))%string.
Proof.
  induction a as [|x a IH]; simpl; [reflexivity | now rewrite IH].
Qed.

Lemma prefix_iff (t s : string) :
  String.prefix t s = true <-> exists post, (s = t ++ post)%string.
Proof.
  revert t; induction s as [|b s IH]; intros [|a t]; simpl.
  - split; [exists EmptyString; reflexivity | reflexivity].
  - split; [discriminate | intros [post E]; discriminate].
  - split; [intros _; eexists; reflexivity | reflexivity].
  - destruct (ascii_dec a b) as [->|Hne].
    + rewrite IH. split; intros [post E]; exists post; congruence.
    + split; [discriminate | intros [post E]; congruence].
Qed.

Lemma includes_iff (s t : string) :
  includes s t = true <-> exists pre post, (s = pre ++ t ++ post)%string.
Proof.
  induction s as [|c s IH]; cbn [includes].
  - rewrite orb_false_r, prefix_iff. split.
    + intros [post E]. exists EmptyString, post. exact E.
    + intros [[|x pre] [post E]]; [exists post; exact E | discriminate].
  - rewrite orb_true_iff, prefix_iff, IH. split.
    + intros [[post E] | [pre [post E]]].
      * exists EmptyString, post. exact E.
      * exists (String c pre), post. simpl. now rewrite E.
    + intros [[|x pre] [post E]].
      * left. exists post. exact E.
      * right. exists pre, post. simpl in E. congruence.
Qed.

(** A name that contains a longer marker contains each of its prefixes. *)
Lemma includes_shorter (s a b : string) :
  includes s (a ++ b) = true -> includes s a = true.
Proof.
  rewrite !includes_iff. intros [pre [post E]].
  exists pre, (b ++ post)%string. rewrite E. f_equal. apply string_app_assoc.
Qed.

(** Every marker of the blocklist starts with the first one, so the test
    is containment of that marker. *)
Lemma isKnownMalicious_eicar (name : string) :
  isKnownMalicious name = includes (toLowerCase name) "eicar".
Proof.
  unfold isKnownMalicious, knownMaliciousNames; simpl existsb.
  destruct (includes (toLowerCase name) "eicar") eqn:E; [reflexivity|].
  repeat match goal with
  | |- context [includes ?s ?m] =>
      let E' := fresh "E" in
      destruct (includes s m) eqn:E';
      [ exfalso;
        first [ apply (includes_shorter s "eicar" ".txt") in E'
              | apply (includes_shorter s "eicar" ".com") in E'
              | apply (includes_shorter s "eicar" "_com.zip") in E'
              | apply (includes_shorter s "eicar" "com2.zip") in E' ];
        congruence
      | ]
  end.
  reflexivity.
Qed.

Lemma isKnownMalicious_iff (name : string) :
  isKnownMalicious name = true <->
  exists marker pre post,
    In marker knownMaliciousNames /\
    (toLowerCase name = pre ++ marker ++ post)%string.
Proof.
  unfold isKnownMalicious. rewrite existsb_exists. split.
  - intros [m [Hin Hinc]]. apply includes_iff in Hinc as [pre [post E]].
    exists m, pre, post. auto.
  - intros [m [pre [post [Hin E]]]]. exists m. split; [exact Hin|].
    apply includes_iff. exists pre, post. exact E.
Qed.

(** ** The controller's own test suite, run on the model *)

(** "should successfully upload a clean file" *)
Example test_upload_clean :
  let '(resp, l, _) :=
    uploadHandler (M := Doubles.mime) (Doubles.mock "scan-id-123" 0)
                  Doubles.env (Doubles.request "application/pdf" "test.pdf")
                  (Doubles.start Doubles.queued) in
  resp = Ok (JsonUpload "uuid.pdf" "test.pdf"
                        (Some "https://example.com/uuid.pdf") clean "user123")
  /\ scans l = 1%nat /\ polls l = 1%nat /\ List.length (uploads l) = 1%nat.
Proof. vm_compute. repeat split. Qed.

(** "should detect a malicious file and not upload it" *)
Example test_upload_malicious :
  let '(resp, l, _) :=
    uploadHandler (M := Doubles.mime) (Doubles.mock "scan-id-456" 5)
                  Doubles.env (Doubles.request "application/pdf" "malicious.pdf")
                  (Doubles.start Doubles.queued) in
  resp = Ok (JsonUpload "uuid.pdf" "malicious.pdf" None malicious "user123")
  /\ scans l = 1%nat /\ polls l = 1%nat /\ uploads l = [].
Proof. vm_compute. repeat split. Qed.

(** "should block known malicious test files without scanning" *)
Example test_upload_eicar :
  let '(resp, l, _) :=
    uploadHandler (M := Doubles.mime) (Doubles.mock "scan-id-123" 0)
                  Doubles.env (Doubles.request "text/plain" "eicar.com.txt")
                  (Doubles.start Doubles.queued) in
  resp = Ok (JsonUpload "uuid.txt" "eicar.com.txt" None malicious "user123")
  /\ scans l = 0%nat.
Proof. vm_compute. repeat split. Qed.

(** "should reject upload if user is not authenticated" *)
Example test_upload_unauthenticated :
  fst (fst (uploadHandler (M := Doubles.mime) (Doubles.mock "scan-id-123" 0)
              Doubles.env
              {| userId := "";
                 file := Some (Doubles.upload "application/pdf" "test.pdf") |}
              (Doubles.start Doubles.queued)))
  = Ok (JsonError 401 "User authentication required").
Proof. vm_compute. reflexivity. Qed.

(** "should list all files for authenticated user" *)
Example test_listAll :
  listAll
    (fun _ =>
       Ok [ {| public_id := "file1"; secure_url := "https://example.com/file1";
               context := Some {| cx_verdict := "clean";
                                  cx_originalName := "test1.pdf";
                                  cx_custom := None; cx_userId := "user123" |};
               tags := ["clean"; "user123"] |};
            {| public_id := "file2"; secure_url := "https://example.com/file2";
               context := Some {| cx_verdict := "malicious";
                                  cx_originalName := "test2.pdf";
                                  cx_custom := None; cx_userId := "user123" |};
               tags := ["malicious"; "user123"] |} ])
    {| userId := "user123"; file := None |}
  = JsonFiles
      [ {| fe_id := "file1"; fe_originalName := "test1.pdf";
           fe_url := Some "https://example.com/file1"; fe_verdict := "clean";
           fe_userId := "user123" |};
        {| fe_id := "file2"; fe_originalName := "test2.pdf";
           fe_url := None; fe_verdict := "malicious";
           fe_userId := "user123" |} ].
Proof. vm_compute. reflexivity. Qed.

(** ** The controller: unfolding lemmas *)

Section ControllerFacts.
Context {M : Mime}.
Variable vt : VirusTotal.

Ltac run_handler :=
  unfold hbind, htry, call, hret, hthrow, sleep, verdictOf.

(** One iteration of the polling loop. *)
Lemma pollLoop_S (key vtId : string) (maxRetries : Z) (left : nat)
    (retryCount : Z) (n : Net) :
  pollLoop vt key vtId maxRetries (S left) retryCount n =
  let '(r, n1) := getAnalysis vt vtId key n in
  match pollStep maxRetries retryCount r with
  | Some v => (Ok v, [EvGetAnalysis vtId r], n1)
  | None =>
      let '(res, l, n2) :=
        pollLoop vt key vtId maxRetries left (retryCount + 1) n1 in
      (res, EvGetAnalysis vtId r :: EvSleep 5000 :: l, n2)
  end.
Proof.
  cbn [pollLoop]. run_handler. unfold pollStep.
  destruct (getAnalysis vt vtId key n) as [[[st [stats|]]|e] n1]; cbn;
    try destruct (st =? "completed")%string; cbn;
    try destruct (malicious_count stats >? 0); cbn;
    try destruct (retryCount >=? maxRetries - 1); cbn;
    try destruct (pollLoop vt key vtId maxRetries left (retryCount + 1) n1)
      as [[res l] n2];
    reflexivity.
Qed.

Lemma pollStep_not_pending (mx rc : Z) (r : Result Analysis) (v : Verdict) :
  pollStep mx rc r = Some v -> v = clean \/ v = malicious.
Proof.
  unfold pollStep.
  destruct r as [[st [stats|]]|e]; cbn;
    try destruct (st =? "completed")%string;
    try destruct (malicious_count stats >? 0);
    try destruct (rc >=? mx - 1); intros E; inversion E; auto.
Qed.

(** A completed poll with statistics always decides. *)
Lemma pollStep_completed (mx rc : Z) (a : Analysis) (stats : Stats) :
  an_status a = "completed" -> an_stats a = Some stats ->
  pollStep mx rc (Ok a) =
  Some (if malicious_count stats >? 0 then malicious else clean).
Proof.
  intros Hs Ht. unfold pollStep. now rewrite Hs, Ht.
Qed.

(** The loop never throws, leaves with a verdict other than [unknown],
    polls at most [left] times, and a completed poll with statistics is the
    one that decides. *)
Lemma pollLoop_run (key vtId : string) (mx : Z) (left : nat) :
  forall (rc : Z) (n : Net),
  exists v l n',
    pollLoop vt key vtId mx left rc n = (Ok v, l, n') /\
    v <> unknown /\
    (polls l <= left)%nat /\
    Forall loop_event l /\
    (forall id a stats,
        In (EvGetAnalysis id (Ok a)) l ->
        an_status a = "completed" -> an_stats a = Some stats ->
        v = if malicious_count stats >? 0 then malicious else clean) /\
    (v = malicious ->
     exists a stats,
       In (EvGetAnalysis vtId (Ok a)) l /\ an_status a = "completed" /\
       an_stats a = Some stats /\ 0 < malicious_count stats).
Proof.
  induction left as [|left IH]; intros rc n.
  - exists pending, [], n. cbn. repeat split; try easy; try constructor.
  - rewrite pollLoop_S.
    destruct (getAnalysis vt vtId key n) as [r n1].
    destruct (pollStep mx rc r) as [v|] eqn:Hstep.
    + exists v, [EvGetAnalysis vtId r], n1.
      split; [reflexivity|].
      split; [destruct (pollStep_not_pending _ _ _ _ Hstep); subst; discriminate|].
      split; [cbn; lia|].
      split; [repeat constructor|].
      split.
      * intros id a stats [E|[]] Hs Ht. inversion E; subst.
        rewrite (pollStep_completed _ _ _ _ Hs Ht) in Hstep. congruence.
      * intros ->. unfold pollStep in Hstep. destruct r as [a|e].
        -- destruct (an_status a =? "completed")%string eqn:Est;
             [|discriminate].
           destruct (an_stats a) as [stats|] eqn:Et.
           ++ destruct (malicious_count stats >? 0) eqn:Em; [|discriminate].
              exists a, stats. split; [left; reflexivity|].
              split; [now apply String.eqb_eq|]. split; [exact Et | lia].
           ++ destruct (rc >=? mx - 1); discriminate.
        -- destruct (rc >=? mx - 1); discriminate.
    + destruct (IH (rc + 1) n1) as [v [l [n2 [E [Hu [Hp [Hf [Hc Hm]]]]]]]].
      rewrite E. exists v, (EvGetAnalysis vtId r :: EvSleep 5000 :: l), n2.
      split; [reflexivity|]. split; [exact Hu|].
      split; [unfold polls in *; cbn; lia|].
      split; [repeat constructor; exact Hf|].
      split.
      * intros id a stats [E1|[E1|Hin]] Hs Ht; [|discriminate|eauto].
        inversion E1; subst.
        rewrite (pollStep_completed _ _ _ _ Hs Ht) in Hstep. discriminate.
      * intros Hv. destruct (Hm Hv) as [a [stats [Hin Hrest]]].
        exists a, stats. split; [right; right; exact Hin | exact Hrest].
Qed.

Lemma loop_events_no_scan (l : list Event) :
  Forall loop_event l -> scans l = 0%nat /\ uploads l = [].
Proof.
  induction 1 as [|e l He _ [IH1 IH2]]; [split; reflexivity|].
  unfold scans in *. destruct e; cbn in *; try contradiction; auto.
Qed.

(** The scan of lines 51-104, by the outcome of [scanFile]. *)
Lemma scanVerdict_eq (env : Env) (f : File) (publicId : string) (n : Net) :
  scanVerdict vt env f publicId n =
  let '(r, n1) := scanFile vt (buffer f) publicId (VT_API_KEY env) n in
  let ev := EvScanFile (buffer f) publicId r in
  match r with
  | Ok vtId =>
      if truthy vtId then
        let '(res, l, n2) := pollLoop vt (VT_API_KEY env) vtId 3 3 0 n1 in
        (Ok match res with
            | Ok v => if Verdict_eqb v pending then clean else v
            | Throw _ => clean
            end, ev :: l, n2)
      else (Ok clean, [ev], n1)
  | Throw _ => (Ok clean, [ev], n1)
  end.
Proof.
  unfold scanVerdict. run_handler.
  change (Z.to_nat 3) with 3%nat.
  destruct (scanFile vt (buffer f) publicId (VT_API_KEY env) n) as [[vtId|e] n1];
    [|reflexivity].
  destruct (truthy vtId); [|reflexivity].
  destruct (pollLoop_run (VT_API_KEY env) vtId 3 3 0 n1) as [v [l [n2 [E _]]]].
  rewrite E. cbn. destruct (Verdict_eqb v pending); cbn;
    rewrite ?app_nil_r; reflexivity.
Qed.

End ControllerFacts.

(** ** The controller: resolution and persistence *)

Section ResolveFacts.
Context {M : Mime}.
Variable vt : VirusTotal.

(** The run of the verdict resolution: it never throws, ends in [clean] or
    [malicious], calls [scanFile] at most once and [getAnalysis] at most
    three times, and stores nothing. *)
Lemma resolve_run (env : Env) (f : File) (publicId : string) (n : Net) :
  exists v l n',
    resolve vt env f publicId n = (Ok v, l, n') /\
    (v = clean \/ v = malicious) /\
    (scans l <= 1)%nat /\ (polls l <= 3)%nat /\ uploads l = [] /\
    (isKnownMalicious (originalname f) = true ->
     v = malicious /\ l = [] /\ n' = n) /\
    (forall b name e, In (EvScanFile b name (Throw e)) l -> v = clean) /\
    (forall id a stats,
        In (EvGetAnalysis id (Ok a)) l ->
        an_status a = "completed" -> an_stats a = Some stats ->
        v = if malicious_count stats >? 0 then malicious else clean) /\
    (v = malicious ->
     isKnownMalicious (originalname f) = true \/
     exists id a stats,
       In (EvGetAnalysis id (Ok a)) l /\ an_status a = "completed" /\
       an_stats a = Some stats /\ 0 < malicious_count stats).
Proof.
  unfold resolve.
  destruct (isKnownMalicious (originalname f)) eqn:Hk.
  { exists malicious, [], n. cbn. repeat split; auto; try easy. }
  rewrite scanVerdict_eq.
  destruct (scanFile vt (buffer f) publicId (VT_API_KEY env) n) as [[vtId|e] n1].
  2:{ exists clean, [EvScanFile (buffer f) publicId (Throw e)], n1. cbn.
      repeat split; auto; try easy.
      intros id a stats [E|[]]; discriminate. }
  cbn zeta. destruct (truthy vtId).
  2:{ exists clean, [EvScanFile (buffer f) publicId (Ok vtId)], n1. cbn.
      repeat split; auto; try easy.
      intros id a stats [E|[]]; discriminate. }
  destruct (pollLoop_run vt (VT_API_KEY env) vtId 3 3 0 n1)
    as [v [l [n2 [E [Hu [Hp [Hf [Hc Hm]]]]]]]].
  rewrite E. destruct (loop_events_no_scan l Hf) as [Hs Hup].
  assert (Hnoscan : forall b name r, ~ In (EvScanFile b name r) l).
  { intros b name r Hin. rewrite Forall_forall in Hf.
    exact (Hf _ Hin). }
  exists (if Verdict_eqb v pending then clean else v),
         (EvScanFile (buffer f) publicId (Ok vtId) :: l), n2.
  split; [reflexivity|].
  split; [destruct v; cbn; auto; congruence|].
  split; [unfold scans in *; cbn; lia|].
  split; [unfold polls in *; cbn; lia|].
  split; [exact Hup|].
  split; [discriminate|].
  split.
  { intros b name e [E1|Hin]; [discriminate | destruct (Hnoscan _ _ _ Hin)]. }
  split.
  { intros id a stats [E1|Hin] Hs' Ht; [discriminate|].
    rewrite (Hc id a stats Hin Hs' Ht).
    destruct (malicious_count stats >? 0); reflexivity. }
  intros Hv. right.
  assert (v = malicious) as Hv' by (destruct v; cbn in Hv; congruence).
  destruct (Hm Hv') as [a [stats [Hin Hrest]]].
  exists vtId, a, stats. split; [right; exact Hin | exact Hrest].
Qed.

(** Persisting a verdict never throws; it uploads exactly when the verdict
    is not [malicious]. *)
Lemma persist_run (env : Env) (f : File) (publicId user : string)
    (v : Verdict) (n : Net) :
  (v = malicious /\
   persist env f publicId user v n =
   (Ok (JsonUpload publicId (originalname f) None malicious user), [], n)) \/
  (v <> malicious /\
   exists resp args,
     persist env f publicId user v n = (Ok resp, [EvUpload args], n) /\
     ua_verdict args = v /\ ua_publicId args = publicId /\
     (forall id name url u, resp <> JsonUpload id name url malicious u) /\
     (forall u, upload_stream env args = Stored u ->
                resp = JsonUpload (up_public_id u) (originalname f)
                                  (Some (up_secure_url u)) v user)).
Proof.
  unfold persist. destruct v; cbn; [right|right|right|left; split; reflexivity];
    (split; [discriminate|]);
    eexists; eexists; (split; [reflexivity|]); cbn;
    (split; [reflexivity|]); (split; [reflexivity|]);
    (split; [|intros u ->; reflexivity]);
    intros id name url u;
    (destruct (upload_stream env _); [discriminate|]);
    unfold cloudinaryFailure; destruct (ce_http_code _ =? 0); discriminate.
Qed.

(** A request stopped by a check is answered without any step. *)
Lemma uploadHandler_precheck (env : Env) (req : Req) (n : Net) (resp : Response) :
  precheck req = Some resp -> uploadHandler vt env req n = (Ok resp, [], n).
Proof.
  unfold precheck, uploadHandler, htry, hbind, hret, hthrow.
  destruct (negb (truthy (userId req))); [intros E; inversion E; reflexivity|].
  destruct (file req) as [f|]; [|intros E; inversion E; reflexivity].
  destruct (negb (existsb (String.eqb (extension f)) allowed));
    [intros E; inversion E; reflexivity|].
  destruct (size f >? 25 * 1024 * 1024);
    [intros E; inversion E; reflexivity | discriminate].
Qed.

Lemma precheck_file (req : Req) :
  precheck req = None -> exists f, file req = Some f.
Proof.
  unfold precheck. destruct (negb (truthy (userId req))); [discriminate|].
  destruct (file req) as [f|]; [eauto | discriminate].
Qed.

(** Past these checks, [uploadHandler] resolves a verdict and persists it. *)
Lemma uploadHandler_resolve (env : Env) (req : Req) (f : File) (n : Net) :
  precheck req = None -> file req = Some f ->
  uploadHandler vt env req n =
  hbind (resolve vt env f (publicIdOf env f))
        (persist env f (publicIdOf env f) (userId req)) n.
Proof.
  intros Hg Hf. unfold precheck in Hg. unfold uploadHandler.
  rewrite Hf in *.
  destruct (negb (truthy (userId req))); [discriminate|].
  unfold htry at 1. unfold hbind at 1. unfold hret at 1.
  destruct (negb (existsb (String.eqb (extension f)) allowed)); [discriminate|].
  destruct (size f >? 25 * 1024 * 1024); [discriminate|].
  fold (publicIdOf env f). unfold resolve.
  destruct (isKnownMalicious (originalname f)) eqn:Hk.
  - reflexivity.
  - pose proof (resolve_run env f (publicIdOf env f) n) as R.
    unfold resolve in R. rewrite Hk in R.
    destruct R as [v [l [n' [E _]]]].
    unfold hbind. rewrite E.
    destruct (persist_run env f (publicIdOf env f) (userId req) v n')
      as [[_ P] | [_ [resp [args [P _]]]]]; rewrite P; reflexivity.
Qed.

End ResolveFacts.

(** ** The upload handler as a whole *)

Section HandlerFacts.
Context {M : Mime}.
Variable vt : VirusTotal.

(** Every run of [uploadHandler] is either stopped by a check, or resolves
    a verdict and persists it. *)
Lemma uploadHandler_run (env : Env) (req : Req) (n : Net) :
  (exists resp,
      precheck req = Some resp /\
      uploadHandler vt env req n = (Ok resp, [], n)) \/
  (exists f v l0 n0 resp l2,
      precheck req = None /\ file req = Some f /\
      resolve vt env f (publicIdOf env f) n = (Ok v, l0, n0) /\
      persist env f (publicIdOf env f) (userId req) v n0 = (Ok resp, l2, n0) /\
      uploadHandler vt env req n = (Ok resp, (l0 ++ l2)%list, n0)).
Proof.
  destruct (precheck req) as [resp|] eqn:Hg.
  - left. exists resp. split; [reflexivity | now apply uploadHandler_precheck].
  - right. destruct (precheck_file req Hg) as [f Hf].
    destruct (resolve_run vt env f (publicIdOf env f) n) as [v [l0 [n0 [E _]]]].
    assert (exists resp l2,
               persist env f (publicIdOf env f) (userId req) v n0
               = (Ok resp, l2, n0)) as [resp [l2 P]].
    { destruct (persist_run env f (publicIdOf env f) (userId req) v n0)
        as [[_ P] | [_ [resp [args [P _]]]]]; eauto. }
    exists f, v, l0, n0, resp, l2.
    repeat split; auto.
    rewrite (uploadHandler_resolve vt env req f n Hg Hf).
    unfold hbind. now rewrite E, P.
Qed.

Lemma polls_app (l1 l2 : list Event) :
  polls (l1 ++ l2) = (polls l1 + polls l2)%nat.
Proof. unfold polls. now rewrite filter_app, length_app. Qed.

Lemma uploads_app (l1 l2 : list Event) :
  uploads (l1 ++ l2) = (uploads l1 ++ uploads l2)%list.
Proof. unfold uploads. now rewrite flat_map_app. Qed.

End HandlerFacts.

(** ** Claims about the upload handler *)

(** C1.  Whenever a poll made by [uploadHandler] returns a completed
    analysis with statistics, the verdict it resolves is [malicious] if
    the malicious count is positive and [clean] if it is zero.  A malicious
    verdict is answered as such without a stored URL; a clean one is what
    the file is stored under, and what the answer carries once Cloudinary
    has stored it. *)
Theorem completed_poll_decides_verdict {M : Mime} (vt : VirusTotal)
    (env : Env) (req : Req) (n n' : Net) (resp : Response) (l : list Event)
    (id : string) (a : Analysis) (stats : Stats) :
  uploadHandler vt env req n = (Ok resp, l, n') ->
  In (EvGetAnalysis id (Ok a)) l ->
  an_status a = "completed" -> an_stats a = Some stats ->
  exists f v l0 n0,
    file req = Some f /\
    resolve vt env f (publicIdOf env f) n = (Ok v, l0, n0) /\
    (0 < malicious_count stats ->
     v = malicious /\
     resp = JsonUpload (publicIdOf env f) (originalname f) None malicious
                       (userId req)) /\
    (malicious_count stats = 0 ->
     v = clean /\
     exists args,
       uploads l = [args] /\ ua_verdict args = clean /\
       forall u, upload_stream env args = Stored u ->
                 resp = JsonUpload (up_public_id u) (originalname f)
                                   (Some (up_secure_url u)) clean (userId req)).
Proof.
  intros Hrun Hin Hs Ht.
  destruct (uploadHandler_run vt env req n)
    as [[resp0 [_ E]] | [f [v [l0 [n0 [resp0 [l2 [Hg [Hf [R [P E]]]]]]]]]]];
    rewrite E in Hrun; inversion Hrun; subst resp l n'; [destruct Hin|].
  exists f, v, l0, n0. split; [exact Hf|]. split; [exact R|].
  destruct (resolve_run vt env f (publicIdOf env f) n)
    as [v' [l' [n1 [R' [_ [_ [_ [Hup [_ [_ [Hc _]]]]]]]]]]].
  rewrite R in R'. inversion R'; subst v' l' n1.
  assert (Hin0 : In (EvGetAnalysis id (Ok a)) l0).
  { apply in_app_or in Hin as [Hin|Hin]; [exact Hin|].
    destruct (persist_run env f (publicIdOf env f) (userId req) v n0)
      as [[_ P'] | [_ [r1 [args [P' _]]]]];
      rewrite P in P'; inversion P'; subst; cbn in Hin;
      [contradiction | destruct Hin as [Hin|[]]; discriminate]. }
  pose proof (Hc id a stats Hin0 Hs Ht) as Hv.
  split.
  - intros Hpos. assert ((malicious_count stats >? 0) = true) as Hb by lia.
    rewrite Hb in Hv. split; [exact Hv|].
    destruct (persist_run env f (publicIdOf env f) (userId req) v n0)
      as [[_ P'] | [Hne _]]; [|contradiction].
    rewrite P in P'. now inversion P'.
  - intros Hz. assert ((malicious_count stats >? 0) = false) as Hb by lia.
    rewrite Hb in Hv. split; [exact Hv|].
    destruct (persist_run env f (publicIdOf env f) (userId req) v n0)
      as [[Hm _] | [_ [r1 [args [P' [Hv' [_ [_ Hst]]]]]]]]; [congruence|].
    rewrite P in P'. inversion P'; subst resp0 l2.
    exists args. rewrite uploads_app, Hup. cbn.
    split; [reflexivity|]. split; [congruence|].
    intros u Hu. rewrite (Hst u Hu). now rewrite Hv.
Qed.

(** C2.  When the lower-cased file name contains one of the blocklist
    markers, the verdict resolves to [malicious] at once: the resolution
    takes no step, so neither [scanFile] nor [getAnalysis] is called, and
    the network state is untouched.  [uploadHandler] takes no step either,
    whatever it answers, and past its request checks the answer is the
    malicious verdict without a URL. *)
Theorem blocklisted_name_resolves_malicious_without_scan {M : Mime}
    (vt : VirusTotal) (env : Env) (f : File) (publicId : string) (n : Net)
    (marker pre post : string) :
  In marker knownMaliciousNames ->
  (toLowerCase (originalname f) = pre ++ marker ++ post)%string ->
  (exists l,
      resolve vt env f publicId n = (Ok malicious, l, n) /\
      l = [] /\ scans l = 0%nat /\ polls l = 0%nat) /\
  (forall req,
      file req = Some f ->
      exists resp l,
        uploadHandler vt env req n = (Ok resp, l, n) /\
        l = [] /\ scans l = 0%nat /\ polls l = 0%nat /\
        (precheck req = None ->
         resp = JsonUpload (publicIdOf env f) (originalname f) None malicious
                           (userId req))).
Proof.
  intros Hin Hname.
  assert (Hk : isKnownMalicious (originalname f) = true).
  { apply isKnownMalicious_iff. exists marker, pre, post. auto. }
  assert (R : forall pid, resolve vt env f pid n = (Ok malicious, [], n)).
  { intros pid. unfold resolve. now rewrite Hk. }
  split; [exists []; repeat split; apply R|].
  intros req Hf.
  destruct (uploadHandler_run vt env req n)
    as [[resp [Hg E]] | [f' [v [l0 [n0 [resp [l2 [Hg [Hf' [R' [P E]]]]]]]]]]].
  - exists resp, []. repeat split; [exact E | congruence].
  - assert (f' = f) by congruence. subst f'.
    rewrite R in R'. inversion R'; subst v l0 n0.
    destruct (persist_run env f (publicIdOf env f) (userId req) malicious n)
      as [[_ P'] | [Hne _]]; [|congruence].
    rewrite P in P'. inversion P'; subst resp l2.
    exists (JsonUpload (publicIdOf env f) (originalname f) None malicious
                       (userId req)), [].
    repeat split. exact E.
Qed.

(** C3.  In every run of [uploadHandler], whatever is handed to
    [uploadToCloudinary] carries a [clean] or [unknown] verdict, and when
    the resolved verdict, or the verdict answered, is [malicious] nothing is
    handed to it at all; a verdict other than [malicious] is uploaded once,
    under that verdict. *)
Theorem malicious_is_never_uploaded {M : Mime} (vt : VirusTotal) (env : Env)
    (req : Req) (n : Net) :
  exists resp l n',
    uploadHandler vt env req n = (Ok resp, l, n') /\
    (forall args, In args (uploads l) ->
                  ua_verdict args = clean \/ ua_verdict args = unknown) /\
    (forall id name url u,
        resp = JsonUpload id name url malicious u -> uploads l = []) /\
    (forall f v l0 n0,
        precheck req = None -> file req = Some f ->
        resolve vt env f (publicIdOf env f) n = (Ok v, l0, n0) ->
        (v = malicious -> uploads l = []) /\
        (v <> malicious ->
         exists args, uploads l = [args] /\ ua_verdict args = v)).
Proof.
  destruct (uploadHandler_run vt env req n)
    as [[resp [Hg E]] | [f [v [l0 [n0 [resp [l2 [Hg [Hf [R [P E]]]]]]]]]]].
  - exists resp, [], n. split; [exact E|].
    split; [intros args []|]. split; [reflexivity|].
    intros; congruence.
  - exists resp, (l0 ++ l2)%list, n0. split; [exact E|].
    destruct (resolve_run vt env f (publicIdOf env f) n)
      as [v' [l' [n1 [R' [Hv [_ [_ [Hup _]]]]]]]].
    rewrite R in R'. inversion R'; subst v' l' n1.
    rewrite uploads_app, Hup. cbn [app].
    destruct (persist_run env f (publicIdOf env f) (userId req) v n0)
      as [[Hm P'] | [Hne [r1 [args [P' [Hv' [_ [Hnm _]]]]]]]];
      rewrite P in P'; inversion P'; subst.
    + cbn. split; [intros args []|]. split; [reflexivity|].
      intros f' v' l1 n1 _ Hf' R1.
      assert (f' = f) by congruence. subst f'. rewrite R in R1.
      inversion R1; subst. split; [reflexivity | congruence].
    + cbn. split.
      { intros a [<-|[]]. destruct Hv as [Hv|Hv]; [left; exact Hv|contradiction]. }
      split.
      { intros id name url u Hr. destruct (Hnm id name url u Hr). }
      intros f' v' l1 n1 _ Hf' R1.
      assert (f' = f) by congruence. subst f'. rewrite R in R1.
      inversion R1; subst. split; [contradiction|].
      intros _. exists args. split; reflexivity.
Qed.

(** C4.  The verdict resolution always returns: it never throws, whatever
    [scanFile] and [getAnalysis] do, it polls at most three times, and its
    verdict is one of [clean], [malicious], [unknown]; in fact [clean] or
    [malicious].  A failed submission gives [clean],
    and so does a scan none of whose polls returns a result; [malicious]
    needs the blocklist or a completed poll with a positive malicious
    count.  [uploadHandler] itself always answers, after at most three
    polls. *)
Theorem resolve_always_returns_a_verdict {M : Mime} (vt : VirusTotal)
    (env : Env) (f : File) (publicId : string) (n : Net) :
  (exists v l n',
      resolve vt env f publicId n = (Ok v, l, n') /\
      (v = clean \/ v = malicious \/ v = unknown) /\
      v <> unknown /\ v <> pending /\
      (polls l <= 3)%nat /\
      (forall b name e, In (EvScanFile b name (Throw e)) l -> v = clean) /\
      (isKnownMalicious (originalname f) = false ->
       (forall id r, In (EvGetAnalysis id r) l -> exists e, r = Throw e) ->
       v = clean) /\
      (v = malicious ->
       isKnownMalicious (originalname f) = true \/
       exists id a stats,
         In (EvGetAnalysis id (Ok a)) l /\ an_status a = "completed" /\
         an_stats a = Some stats /\ 0 < malicious_count stats)) /\
  (forall req,
      exists resp l n',
        uploadHandler vt env req n = (Ok resp, l, n') /\ (polls l <= 3)%nat).
Proof.
  split.
  - destruct (resolve_run vt env f publicId n)
      as [v [l [n' [R [Hv [_ [Hp [_ [_ [Hs [_ Hm]]]]]]]]]]].
    exists v, l, n'. split; [exact R|].
    split; [tauto|].
    split; [destruct Hv; subst; discriminate|].
    split; [destruct Hv; subst; discriminate|].
    split; [exact Hp|]. split; [exact Hs|].
    split; [|exact Hm].
    intros Hk Hall. destruct Hv as [Hv|Hv]; [exact Hv|].
    destruct (Hm Hv) as [Hk'|[id [a [stats [Hin _]]]]]; [congruence|].
    destruct (Hall _ _ Hin) as [e He]. discriminate.
  - intros req.
    destruct (uploadHandler_run vt env req n)
      as [[resp [Hg E]] | [f' [v [l0 [n0 [resp [l2 [Hg [Hf [R [P E]]]]]]]]]]].
    + exists resp, [], n. split; [exact E | cbn; lia].
    + exists resp, (l0 ++ l2)%list, n0. split; [exact E|].
      destruct (resolve_run vt env f' (publicIdOf env f') n)
        as [v' [l' [n1 [R' [_ [_ [Hp _]]]]]]].
      rewrite R in R'. inversion R'; subst v' l' n1.
      rewrite polls_app.
      destruct (persist_run env f' (publicIdOf env f') (userId req) v n0)
        as [[_ P'] | [_ [r1 [args [P' _]]]]];
        rewrite P in P'; inversion P'; subst; cbn; lia.
Qed.

(** ** The polling loop under a pending analysis *)

Section PendingFacts.
Context {M : Mime}.
Variable vt : VirusTotal.

Lemma pollStep_pending (rc : Z) (r : Result Analysis) :
  reportsPending r ->
  pollStep 3 rc r =
  match r with
  | Ok _ => None
  | Throw _ => if rc >=? 2 then Some clean else None
  end.
Proof.
  unfold reportsPending, pollStep. destruct r as [a|e]; intros Hp.
  - destruct (String.eqb_spec (an_status a) "completed"); [contradiction|].
    reflexivity.
  - reflexivity.
Qed.

(** If every poll reports pending, the loop polls three times, sleeps
    5000 ms between consecutive polls, and leaves with [pending] or
    [clean]. *)
Lemma pollLoop_pending_throughout (key vtId : string) :
  (forall n, reportsPending (fst (getAnalysis vt vtId key n))) ->
  forall n,
  exists v l n',
    pollLoop vt key vtId 3 3 0 n = (Ok v, l, n') /\
    (v = pending \/ v = clean) /\
    polls l = 3%nat /\ gaps l = [5000; 5000].
Proof.
  intros Hp n.
  rewrite pollLoop_S. pose proof (Hp n) as H1.
  destruct (getAnalysis vt vtId key n) as [r1 n1]. cbn [fst] in H1.
  rewrite (pollStep_pending 0 r1 H1).
  assert (E1 : match r1 with
               | Ok _ => None
               | Throw _ => if 0 >=? 2 then Some clean else None
               end = None) by (destruct r1; reflexivity).
  rewrite E1. clear E1.
  rewrite pollLoop_S. pose proof (Hp n1) as H2.
  destruct (getAnalysis vt vtId key n1) as [r2 n2]. cbn [fst] in H2.
  rewrite (pollStep_pending (0 + 1) r2 H2).
  assert (E2 : match r2 with
               | Ok _ => None
               | Throw _ => if 0 + 1 >=? 2 then Some clean else None
               end = None) by (destruct r2; reflexivity).
  rewrite E2. clear E2.
  rewrite pollLoop_S. pose proof (Hp n2) as H3.
  destruct (getAnalysis vt vtId key n2) as [r3 n3]. cbn [fst] in H3.
  rewrite (pollStep_pending (0 + 1 + 1) r3 H3).
  destruct r3 as [a3|e3]; cbn.
  - exists pending. eexists. eexists. split; [reflexivity|].
    split; [left; reflexivity|]. split; reflexivity.
  - exists clean. eexists. eexists. split; [reflexivity|].
    split; [right; reflexivity|]. split; reflexivity.
Qed.

(** The same for the whole resolution: the verdict is [clean]. *)
Lemma resolve_pending_throughout (env : Env) (f : File) (publicId vtId : string)
    (n n1 : Net) :
  isKnownMalicious (originalname f) = false ->
  scanFile vt (buffer f) publicId (VT_API_KEY env) n = (Ok vtId, n1) ->
  truthy vtId = true ->
  (forall m, reportsPending (fst (getAnalysis vt vtId (VT_API_KEY env) m))) ->
  exists l n',
    resolve vt env f publicId n = (Ok clean, l, n') /\
    polls l = 3%nat /\ gaps l = [5000; 5000].
Proof.
  intros Hk Hs Ht Hp. unfold resolve. rewrite Hk, scanVerdict_eq, Hs.
  cbn zeta. rewrite Ht.
  destruct (pollLoop_pending_throughout (VT_API_KEY env) vtId Hp n1)
    as [v [l [n' [E [Hv [Hpl Hg]]]]]].
  rewrite E. eexists. eexists. split.
  - destruct Hv as [-> | ->]; reflexivity.
  - split; [unfold polls in *; cbn; exact Hpl | cbn; exact Hg].
Qed.

End PendingFacts.

(** C5.  An upload whose analysis stays queued, run against the revised
    utility module: the verdict is [clean] after exactly three polls, but
    consecutive polls are 5000 ms apart, less than the 8000 ms of
    [POLLING_INTERVAL_MS]; and [waitForAnalysis], which waits that
    interval, gives up with [ANALYSIS_PENDING] after its first poll. *)
Theorem pending_polls_are_five_seconds_apart :
  let run :=
    uploadHandler (M := Doubles.mime) (Revised.virusTotal (C := Doubles.crypto))
                  Doubles.env (Doubles.request "application/pdf" "test.pdf")
                  (Doubles.start Doubles.queued) in
  let l := snd (fst run) in
  let direct := Revised.waitForAnalysis "analysis-1" "key" 3
                                        (Doubles.start Doubles.queued) in
  fst (fst run) =
    Ok (JsonUpload "uuid.pdf" "test.pdf" (Some "https://example.com/uuid.pdf")
                   clean "user123") /\
  polls l = 3%nat /\
  gaps l = [5000; 5000] /\
  Revised.POLLING_INTERVAL_MS = 8000 /\
  Forall (fun gap => gap < Revised.POLLING_INTERVAL_MS) (gaps l) /\
  fst direct = Throw Revised.ANALYSIS_PENDING /\
  wire (snd direct) = [Sent (GetAnalysis "analysis-1")].
Proof.
  cbv zeta. repeat split; try (vm_compute; reflexivity).
  vm_compute. repeat constructor.
Qed.

(** ** The pollers *)

Lemma Revised_getAnalysis_pending (id key : string) (n : Net) (d : Analysis) :
  isFileHash id = false ->
  analyses_get (remote n) (clock n) id = Resp d ->
  an_status d <> "completed" ->
  Revised.getAnalysis id key n
  = (Throw Revised.ANALYSIS_PENDING, sent (GetAnalysis id) n).
Proof.
  intros Hh Hr Hs.
  unfold Revised.getAnalysis, tryCatch, bind, axios_get_analysis, data,
    throw, ret.
  rewrite Hh, Hr. cbn.
  destruct (String.eqb_spec (an_status d) "completed"); [contradiction|].
  reflexivity.
Qed.

Lemma Revised_getAnalysis_not_available (id key : string) (n : Net)
    (e : JsError) (r : HttpResponse) :
  isFileHash id = false ->
  analyses_get (remote n) (clock n) id = Fail e ->
  response e = Some r -> status r = 400 -> code r = "NotAvailableYet" ->
  Revised.getAnalysis id key n
  = (Throw Revised.ANALYSIS_PENDING, sent (GetAnalysis id) n).
Proof.
  intros Hh Hr He Hs Hc.
  unfold Revised.getAnalysis, tryCatch, bind, axios_get_analysis, data,
    throw, ret, response_status_is.
  rewrite Hh, Hr. cbn. rewrite He, Hs, Hc. reflexivity.
Qed.

Lemma Revised_getAnalysis_rate_limited (id key : string) (n : Net) :
  rateLimited id n ->
  Revised.getAnalysis id key n
  = (Throw Revised.RATE_LIMIT_EXCEEDED, sent (pollRequest id) n).
Proof.
  intros [e [H429 Hr]].
  unfold Revised.getAnalysis, pollRequest, tryCatch, bind, axios_get_analysis,
    axios_get_file, data, throw, ret.
  destruct (isFileHash id); rewrite Hr; cbn; rewrite H429; reflexivity.
Qed.

Lemma Original_getAnalysis_pending (id key : string) (n : Net) (d : Analysis) :
  startsWith id "file-" = false ->
  analyses_get (remote n) (clock n) id = Resp d ->
  an_status d = "queued" \/ an_status d = "pending" ->
  Original.getAnalysis id key n = (Ok cleanResult, sent (GetAnalysis id) n).
Proof.
  intros Hs Hr Hq.
  unfold Original.getAnalysis, tryCatch, bind, axios_get_analysis, data,
      throw, ret.
  rewrite Hs, Hr. cbn. destruct Hq as [-> | ->]; reflexivity.
Qed.

(** A completed analysis reaches the caller with its statistics, through
    either poller. *)
Lemma Original_getAnalysis_completed (id key : string) (n : Net) (d : Analysis) :
  startsWith id "file-" = false ->
  analyses_get (remote n) (clock n) id = Resp d ->
  an_status d = "completed" ->
  Original.getAnalysis id key n = (Ok d, sent (GetAnalysis id) n).
Proof.
  intros Hs Hr Hc.
  unfold Original.getAnalysis, tryCatch, bind, axios_get_analysis, data,
      throw, ret.
  rewrite Hs, Hr. cbn. rewrite Hc. reflexivity.
Qed.

Lemma Revised_getAnalysis_completed (id key : string) (n : Net) (d : Analysis) :
  isFileHash id = false ->
  analyses_get (remote n) (clock n) id = Resp d ->
  an_status d = "completed" ->
  Revised.getAnalysis id key n
  = (Ok (Revised.completed (an_stats d)), sent (GetAnalysis id) n).
Proof.
  intros Hh Hr Hc.
  unfold Revised.getAnalysis, tryCatch, bind, axios_get_analysis, data,
    throw, ret.
  rewrite Hh, Hr. cbn. rewrite Hc. reflexivity.
Qed.

(** A fingerprint-shaped handle whose file record names an analysis: the
    revised poller fetches that analysis and returns it as completed,
    whatever its status. *)
Lemma Revised_getAnalysis_by_fingerprint (id key : string) (n : Net)
    (f : FileInfo) (d : Analysis) :
  isFileHash id = true ->
  files_get (remote n) (clock n) id = Resp f ->
  last_analysis_stats f = None -> truthy (last_analysis_id f) = true ->
  analyses_get (remote n) (S (clock n)) (last_analysis_id f) = Resp d ->
  Revised.getAnalysis id key n
  = (Ok (Revised.completed (an_stats d)),
     sent (GetAnalysis (last_analysis_id f)) (sent (GetFile id) n)).
Proof.
  intros Hh Hf Hs Ht Ha.
  unfold Revised.getAnalysis, tryCatch, bind, axios_get_file,
    axios_get_analysis, data, throw, ret.
  rewrite Hh, Hf. cbn [received]. rewrite Hs, Ht.
  cbn [remote clock sent]. rewrite Ha. reflexivity.
Qed.

(** C6, as stated, fails on the original poller: a queued analysis comes
    back as a completed result. *)
Lemma original_poller_reports_queued_as_clean :
  ~ (forall id key n d,
        analyses_get (remote n) (clock n) id = Resp d ->
        an_status d = "queued" ->
        reportsPending (fst (Original.getAnalysis id key n))).
Proof.
  intros Hc.
  apply (Hc "analysis-1" "key" (Doubles.start Doubles.queued)
            {| an_status := "queued"; an_stats := None |});
    reflexivity.
Qed.

(** C6, amended.  For a handle that is not fingerprint-shaped, the revised
    poller raises [ANALYSIS_PENDING], a pending outcome and not a verdict,
    when the service reports a status other than completed (queued and
    pending among them) or answers 400 [NotAvailableYet]; the original
    poller returns the completed, clean result for a queued or pending
    analysis. *)
Theorem revised_poller_reports_pending (id key : string) (n : Net) :
  isFileHash id = false ->
  (forall d,
      analyses_get (remote n) (clock n) id = Resp d ->
      an_status d <> "completed" ->
      Revised.getAnalysis id key n
      = (Throw Revised.ANALYSIS_PENDING, sent (GetAnalysis id) n) /\
      reportsPending (fst (Revised.getAnalysis id key n))) /\
  (forall e r,
      analyses_get (remote n) (clock n) id = Fail e ->
      response e = Some r -> status r = 400 -> code r = "NotAvailableYet" ->
      Revised.getAnalysis id key n
      = (Throw Revised.ANALYSIS_PENDING, sent (GetAnalysis id) n)) /\
  (forall d,
      startsWith id "file-" = false ->
      analyses_get (remote n) (clock n) id = Resp d ->
      an_status d = "queued" \/ an_status d = "pending" ->
      Original.getAnalysis id key n
      = (Ok cleanResult, sent (GetAnalysis id) n)).
Proof.
  intros Hh. split; [|split].
  - intros d Hr Hs.
    rewrite (Revised_getAnalysis_pending id key n d Hh Hr Hs).
    split; reflexivity.
  - intros e r. now apply Revised_getAnalysis_not_available.
  - intros d. now apply Original_getAnalysis_pending.
Qed.

Lemma revised_poller_reports_pending_witness :
  isFileHash "analysis-1" = false /\
  Revised.getAnalysis "analysis-1" "key" (Doubles.start Doubles.queued)
  = (Throw Revised.ANALYSIS_PENDING,
     sent (GetAnalysis "analysis-1") (Doubles.start Doubles.queued)).
Proof.
  split; [reflexivity|].
  apply (proj1 (revised_poller_reports_pending
                  "analysis-1" "key" (Doubles.start Doubles.queued)
                  eq_refl)
               {| an_status := "queued"; an_stats := None |});
    [reflexivity | discriminate].
Defined.

(** ** Waiting for an analysis *)

Lemma requests_app (l1 l2 : list NetEvent) :
  requests (l1 ++ l2) = (requests l1 + requests l2)%nat.
Proof.
  induction l1 as [|[rq|ms] l1 IH]; cbn; [reflexivity | now rewrite IH | exact IH].
Qed.

(** One iteration of [waitForAnalysis] whose poll is rate-limited. *)
Lemma waitLoop_rate_limited (id key : string) (left : nat) (retries : Z)
    (n : Net) :
  rateLimited id (if 0 <? retries
                  then waited Revised.POLLING_INTERVAL_MS n else n) ->
  Revised.waitLoop id key (S left) retries n =
  Revised.waitLoop id key left (retries + 1)
    (waited (Revised.POLLING_INTERVAL_MS * 2)
       (sent (pollRequest id)
          (if 0 <? retries then waited Revised.POLLING_INTERVAL_MS n else n))).
Proof.
  intros Hr. cbn [Revised.waitLoop].
  unfold bind at 1. unfold attempt.
  assert (E : bind (if 0 <? retries
                    then setTimeout Revised.POLLING_INTERVAL_MS else ret tt)
                   (fun _ => Revised.getAnalysis id key) n
              = Revised.getAnalysis id key
                  (if 0 <? retries
                   then waited Revised.POLLING_INTERVAL_MS n else n)).
  { unfold bind, setTimeout, ret. destruct (0 <? retries); reflexivity. }
  rewrite E, (Revised_getAnalysis_rate_limited id key _ Hr).
  reflexivity.
Qed.

(** Under a rate limit that never lifts, the loop sends exactly [left]
    requests and then times out. *)
Lemma waitLoop_rate_limited_throughout (r : Remote) (id key : string)
    (e : JsError) :
  isFileHash id = false ->
  response_status_is e 429 = true ->
  (forall k, analyses_get r k id = Fail e) ->
  forall (left : nat) (retries : Z) (n : Net),
    remote n = r ->
    exists n',
      Revised.waitLoop id key left retries n
      = (Throw Revised.ANALYSIS_TIMEOUT, n') /\
      remote n' = r /\
      requests (wire n') = (requests (wire n) + left)%nat.
Proof.
  intros Hh H429 Hall. induction left as [|left IH]; intros retries n Hn.
  - exists n. cbn. split; [reflexivity|]. split; [exact Hn | lia].
  - rewrite waitLoop_rate_limited.
    + set (n0 := if 0 <? retries
                 then waited Revised.POLLING_INTERVAL_MS n else n).
      destruct (IH (retries + 1)
                   (waited (Revised.POLLING_INTERVAL_MS * 2)
                           (sent (pollRequest id) n0)))
        as [n' [E [Hr Hq]]].
      { subst n0. destruct (0 <? retries); exact Hn. }
      exists n'. split; [exact E|]. split; [exact Hr|].
      rewrite Hq. subst n0. cbn [wire waited sent].
      destruct (0 <? retries); cbn [wire waited];
        rewrite !requests_app; cbn; lia.
    + exists e. split; [exact H429|]. rewrite Hh.
      destruct (0 <? retries); cbn [remote clock waited]; rewrite Hn;
        apply Hall.
Qed.

(** C7, as stated, fails: if a rate-limited poll left the retry budget
    untouched, a budget of one attempt would still allow the next poll,
    which completes; the code times out instead. *)
Lemma rate_limited_poll_uses_up_budget :
  ~ (forall id key left retries n,
        rateLimited id (if 0 <? retries
                        then waited Revised.POLLING_INTERVAL_MS n else n) ->
        Revised.waitLoop id key (S left) retries n =
        Revised.waitLoop id key (S left) retries
          (waited (Revised.POLLING_INTERVAL_MS * 2)
             (sent (pollRequest id)
                (if 0 <? retries
                 then waited Revised.POLLING_INTERVAL_MS n else n)))).
Proof.
  intros Hc.
  specialize (Hc "analysis-1" "key" 0%nat 0 (Doubles.start Doubles.limitedOnce)).
  assert (Hr : rateLimited "analysis-1" (Doubles.start Doubles.limitedOnce)).
  { exists (Doubles.httpError 429 "QuotaExceededError"). split; reflexivity. }
  specialize (Hc Hr).
  apply (f_equal fst) in Hc. vm_compute in Hc. discriminate.
Qed.

(** C7, amended.  A rate-limited poll makes [waitForAnalysis] wait twice
    the polling interval and go on with one attempt fewer, just as any
    other round of the loop; so under a rate limit that never lifts it
    sends exactly [maxRetries] requests and throws [ANALYSIS_TIMEOUT]. *)
Theorem rate_limit_doubles_wait_and_uses_attempt (id key : string)
    (left : nat) (retries : Z) (n : Net) :
  rateLimited id (if 0 <? retries
                  then waited Revised.POLLING_INTERVAL_MS n else n) ->
  Revised.waitLoop id key (S left) retries n =
  Revised.waitLoop id key left (retries + 1)
    (waited (Revised.POLLING_INTERVAL_MS * 2)
       (sent (pollRequest id)
          (if 0 <? retries then waited Revised.POLLING_INTERVAL_MS n else n)))
  /\
  (forall e maxRetries,
      isFileHash id = false -> response_status_is e 429 = true ->
      (forall k, analyses_get (remote n) k id = Fail e) ->
      exists n',
        Revised.waitForAnalysis id key maxRetries n
        = (Throw Revised.ANALYSIS_TIMEOUT, n') /\
        requests (wire n')
        = (requests (wire n) + Z.to_nat maxRetries)%nat).
Proof.
  intros Hr. split; [now apply waitLoop_rate_limited|].
  intros e maxRetries Hh H429 Hall. unfold Revised.waitForAnalysis.
  destruct (waitLoop_rate_limited_throughout (remote n) id key e Hh H429 Hall
              (Z.to_nat maxRetries) 0 n eq_refl) as [n' [E [_ Hq]]].
  exists n'. split; assumption.
Qed.

Lemma rate_limit_doubles_wait_and_uses_attempt_witness :
  rateLimited "analysis-1" (Doubles.start Doubles.limitedOnce) /\
  Revised.waitLoop "analysis-1" "key" 2 0 (Doubles.start Doubles.limitedOnce) =
  Revised.waitLoop "analysis-1" "key" 1 1
    (waited 16000
       (sent (GetAnalysis "analysis-1") (Doubles.start Doubles.limitedOnce))).
Proof.
  assert (Hr : rateLimited "analysis-1" (Doubles.start Doubles.limitedOnce)).
  { exists (Doubles.httpError 429 "QuotaExceededError"). split; reflexivity. }
  split; [exact Hr|].
  exact (proj1 (rate_limit_doubles_wait_and_uses_attempt
                  "analysis-1" "key" 1 0 (Doubles.start Doubles.limitedOnce) Hr)).
Defined.

(** ** Submission in the original module *)

(** C8, as stated, fails: after a 409, a retried lookup that fails again is
    rethrown; no handle is returned. *)
Lemma conflict_retry_failure_is_rethrown :
  let res := fst (Original.scanFile (C := Doubles.crypto) [] "uuid.pdf" "key"
                    (Doubles.start (Doubles.rejecting 409))) in
  res = Throw (Doubles.httpError 404 "NotFoundError") /\
  res <> Ok Doubles.emptyDigest /\
  res <> Ok ("file-" ++ Doubles.emptyDigest)%string.
Proof.
  cbv zeta. split; [vm_compute; reflexivity|].
  split; vm_compute; discriminate.
Qed.

(** The fallback of the 400 branch names [hash] outside the block that
    declares it: what comes out is a ReferenceError, not a handle. *)
Lemma bad_request_retry_failure_is_a_reference_error :
  fst (Original.scanFile (C := Doubles.crypto) [] "uuid.pdf" "key"
         (Doubles.start (Doubles.rejecting 400)))
  = Throw (ReferenceError "hash").
Proof. vm_compute. reflexivity. Qed.

(** C8, amended.  When the lookup misses and the upload is answered with a
    409 or a 400, the original [scanFile] looks the fingerprint up exactly
    once more; it returns the id of the record found, and after a 409 a
    lookup that fails again is rethrown. *)
Theorem scanFile_retries_lookup_after_conflict {C : Crypto}
    (buffer : list byte) (filename key : string) (n : Net)
    (e0 e1 : JsError) (r : HttpResponse) :
  settle (files_get (remote n) (clock n) (sha256_hex buffer)) = Throw e0 ->
  files_post (remote n) (S (clock n)) buffer filename = Fail e1 ->
  response e1 = Some r ->
  status r = 409 \/ status r = 400 ->
  exists res,
    Original.scanFile buffer filename key n
    = (res, sent (GetFile (sha256_hex buffer))
              (sent (PostFile buffer filename)
                 (sent (GetFile (sha256_hex buffer)) n))) /\
    (forall fi,
        files_get (remote n) (S (S (clock n))) (sha256_hex buffer) = Resp fi ->
        res = Ok (fi_id fi)) /\
    (status r = 409 ->
     forall e2,
       settle (files_get (remote n) (S (S (clock n))) (sha256_hex buffer))
       = Throw e2 ->
       res = Throw e2).
Proof.
  intros H0 H1 Hr Hst.
  unfold Original.scanFile, tryCatch, bind, axios_get_file, axios_post_file,
    data, throw, ret.
  destruct (files_get (remote n) (clock n) (sha256_hex buffer))
    as [fi0| |e0'] eqn:E0; cbn [settle] in H0; [discriminate| |];
    cbn [received remote clock sent]; rewrite H1; cbn [received]; rewrite Hr;
    (destruct Hst as [Hs|Hs]; rewrite Hs; cbn [Z.eqb Pos.eqb];
     cbn [remote clock sent];
     destruct (files_get (remote n) (S (S (clock n))) (sha256_hex buffer))
       as [fi| |e2] eqn:E2; cbn [received settle];
     eexists; (split; [reflexivity|]);
     (split; [intros fi' Hfi; congruence|]);
     intros Hs' e2' He2; congruence).
Qed.

Lemma scanFile_retries_lookup_after_conflict_witness :
  fst (Original.scanFile (C := Doubles.crypto) [] "uuid.pdf" "key"
         (Doubles.start (Doubles.recovering 409)))
  = Ok Doubles.emptyDigest.
Proof.
  destruct (scanFile_retries_lookup_after_conflict (C := Doubles.crypto)
              [] "uuid.pdf" "key" (Doubles.start (Doubles.recovering 409))
              (Doubles.httpError 404 "NotFoundError")
              (Doubles.httpError 409 "")
              {| status := 409; code := "" |}
              eq_refl eq_refl eq_refl (or_introl eq_refl))
    as [res [E [Hfound _]]].
  rewrite E. cbn [fst].
  exact (Hfound {| fi_id := Doubles.emptyDigest; last_analysis_stats := None;
                   last_analysis_id := "" |} eq_refl).
Defined.

(** ** The original poller *)

Lemma startsWith_truthy (id prefix : string) :
  truthy prefix = true -> startsWith id prefix = true -> truthy id = true.
Proof.
  unfold startsWith. destruct id, prefix; cbn; auto; discriminate.
Qed.

(** C9.  The original [getAnalysis] returns for every handle and every
    answer of the service.  For a [file-] handle, for a failed or
    malformed answer, and for a queued or pending analysis, what it returns
    is the completed result with a malicious count of 0; any other analysis
    is passed on as it is.  A scan whose handle starts with [file-] and is
    polled through it therefore resolves to [clean], after a single poll. *)
Theorem original_getAnalysis_never_throws (id key : string) (n : Net) :
  (exists a n',
      Original.getAnalysis id key n = (Ok a, n') /\
      (startsWith id "file-" = true ->
       a = cleanResult /\ n' = sent (GetFile (replace id "file-" "")) n) /\
      (startsWith id "file-" = false ->
       n' = sent (GetAnalysis id) n /\
       match analyses_get (remote n) (clock n) id with
       | Resp d =>
           a = if (an_status d =? "queued")%string
                  || (an_status d =? "pending")%string
               then cleanResult else d
       | Bad | Fail _ => a = cleanResult
       end)) /\
  (an_status cleanResult = "completed" /\
   exists stats, an_stats cleanResult = Some stats /\ malicious_count stats = 0) /\
  (forall (M : Mime) scan env f publicId n1,
      isKnownMalicious (originalname f) = false ->
      scan (buffer f) publicId (VT_API_KEY env) n = (Ok id, n1) ->
      startsWith id "file-" = true ->
      exists l n',
        resolve (Build_VirusTotal scan Original.getAnalysis) env f publicId n
        = (Ok clean, l, n') /\
        polls l = 1%nat).
Proof.
  assert (Hsyn : forall k m, startsWith id "file-" = true ->
                 Original.getAnalysis id k m
                 = (Ok cleanResult, sent (GetFile (replace id "file-" "")) m)).
  { intros k m Hs.
    unfold Original.getAnalysis, tryCatch, bind, axios_get_file, ret.
    rewrite Hs.
    destruct (files_get (remote m) (clock m) (replace id "file-" ""));
      reflexivity. }
  split; [|split].
  - destruct (startsWith id "file-") eqn:Hs.
    + exists cleanResult, (sent (GetFile (replace id "file-" "")) n).
      split; [now apply Hsyn|]. split; [auto | discriminate].
    + unfold Original.getAnalysis, tryCatch, bind, axios_get_analysis, data,
      throw, ret.
      rewrite Hs.
      destruct (analyses_get (remote n) (clock n) id) as [d| |e];
        cbn [received].
      * destruct ((an_status d =? "queued")%string
                  || (an_status d =? "pending")%string);
          eexists; eexists; (split; [reflexivity|]);
          (split; [discriminate | intros _; split; reflexivity]).
      * eexists; eexists; (split; [reflexivity|]);
          (split; [discriminate | intros _; split; reflexivity]).
      * eexists; eexists; (split; [reflexivity|]);
          (split; [discriminate | intros _; split; reflexivity]).
  - split; [reflexivity|]. eexists. split; reflexivity.
  - intros M scan env f publicId n1 Hk Hscan Hs.
    unfold resolve. rewrite Hk, scanVerdict_eq.
    cbn [scanFile getAnalysis]. rewrite Hscan. cbn zeta.
    rewrite (startsWith_truthy id "file-" eq_refl Hs).
    rewrite pollLoop_S. cbn [getAnalysis]. rewrite (Hsyn (VT_API_KEY env) n1 Hs).
    cbn. eexists. eexists. split; reflexivity.
Qed.

(** ** The blocklist is a substring test *)

Lemma isKnownMalicious_truthy (name : string) :
  isKnownMalicious name = true -> truthy name = true.
Proof.
  destruct name; [discriminate | reflexivity].
Qed.

(** Lines 248-258: whatever was computed before, a blocklisted name makes
    the entry [malicious] and removes its URL. *)
Lemma listEntry_override (user : string) (r : Resource) :
  let e := listEntry user r in
  isKnownMalicious (fe_originalName e) = true ->
  e = {| fe_id := public_id r; fe_originalName := fe_originalName e;
         fe_url := None; fe_verdict := "malicious";
         fe_userId := fe_userId e |}.
Proof.
  unfold listEntry. cbn [fe_originalName fe_userId].
  intros Hk. rewrite Hk. reflexivity.
Qed.

(** The name [listAll] reads from a resource whose context holds one. *)
Lemma listEntry_context_name (user : string) (r : Resource) (c : Context) :
  context r = Some c -> truthy (cx_originalName c) = true ->
  fe_originalName (listEntry user r) = cx_originalName c /\
  fe_userId (listEntry user r)
  = (if truthy (cx_userId c) then cx_userId c else user).
Proof.
  intros Hc Ht. unfold listEntry. cbn [fe_originalName fe_userId].
  rewrite Hc, Ht. split; reflexivity.
Qed.

Lemma listEntry_custom_name (user : string) (r : Resource) (c : Context)
    (cu : Custom) :
  context r = Some c -> cx_originalName c = "" -> cx_custom c = Some cu ->
  truthy (cu_originalName cu) = true ->
  fe_originalName (listEntry user r) = cu_originalName cu.
Proof.
  intros Hc He Hcu Ht. unfold listEntry. cbn [fe_originalName].
  rewrite Hc, He, Hcu, Ht. reflexivity.
Qed.

Lemma listEntry_fallback_name (user : string) (r : Resource) :
  context r = None ->
  fe_originalName (listEntry user r) = split_pop (public_id r) "".
Proof.
  intros Hc. unfold listEntry. cbn [fe_originalName]. now rewrite Hc.
Qed.

(** C10.  A file name whose lower-case form contains [eicar] anywhere is on
    the blocklist: the verdict resolves to [malicious] with no step taken,
    and [uploadHandler] answers so (past its request checks) without
    scanning.  [listAll] overrides what is stored: a resource whose context
    holds that name as [originalName] (directly or under [custom]), or
    which has no context and whose public id ends in that name, is listed
    as [malicious] without a URL, whatever verdict its context and its tags
    hold. *)
Theorem eicar_substring_is_blocked {M : Mime} (vt : VirusTotal) (env : Env)
    (name pre post : string) :
  (toLowerCase name = pre ++ "eicar" ++ post)%string ->
  isKnownMalicious name = true /\
  (forall f publicId n,
      originalname f = name ->
      resolve vt env f publicId n = (Ok malicious, [], n)) /\
  (forall req f n,
      file req = Some f -> originalname f = name -> precheck req = None ->
      uploadHandler vt env req n
      = (Ok (JsonUpload (publicIdOf env f) name None malicious (userId req)),
         [], n)) /\
  (forall user id url storedVerdict custom owner storedTags,
      listEntry user
        {| public_id := id; secure_url := url;
           context := Some {| cx_verdict := storedVerdict;
                              cx_originalName := name;
                              cx_custom := custom; cx_userId := owner |};
           tags := storedTags |}
      = {| fe_id := id; fe_originalName := name; fe_url := None;
           fe_verdict := "malicious";
           fe_userId := if truthy owner then owner else user |}) /\
  (forall user r c cu,
      context r = Some c -> cx_originalName c = "" ->
      cx_custom c = Some cu -> cu_originalName cu = name ->
      fe_originalName (listEntry user r) = name /\
      fe_verdict (listEntry user r) = "malicious" /\
      fe_url (listEntry user r) = None) /\
  (forall user r,
      context r = None -> split_pop (public_id r) "" = name ->
      fe_originalName (listEntry user r) = name /\
      fe_verdict (listEntry user r) = "malicious" /\
      fe_url (listEntry user r) = None) /\
  (forall search req resources r c,
      truthy (userId req) = true ->
      search ("resource_type:raw AND tags:" ++ userId req)%string
      = Ok resources ->
      In r resources ->
      context r = Some c -> cx_originalName c = name ->
      exists files,
        listAll search req = JsonFiles files /\
        List.length files = List.length resources /\
        In {| fe_id := public_id r; fe_originalName := name; fe_url := None;
              fe_verdict := "malicious";
              fe_userId := if truthy (cx_userId c) then cx_userId c
                           else userId req |} files).
Proof.
  intros Hname.
  assert (Hk : isKnownMalicious name = true).
  { rewrite isKnownMalicious_eicar. apply includes_iff. eauto. }
  assert (Ht : truthy name = true) by now apply isKnownMalicious_truthy.
  assert (Hctx : forall user r c,
             context r = Some c -> cx_originalName c = name ->
             listEntry user r
             = {| fe_id := public_id r; fe_originalName := name;
                  fe_url := None; fe_verdict := "malicious";
                  fe_userId := if truthy (cx_userId c) then cx_userId c
                               else user |}).
  { intros user r c Hc Hn.
    assert (Hct : truthy (cx_originalName c) = true) by now rewrite Hn.
    destruct (listEntry_context_name user r c Hc Hct) as [En Eu].
    rewrite Hn in En.
    rewrite (listEntry_override user r) by now rewrite En.
    now rewrite En, Eu. }
  assert (Hany : forall user r,
             fe_originalName (listEntry user r) = name ->
             fe_originalName (listEntry user r) = name /\
             fe_verdict (listEntry user r) = "malicious" /\
             fe_url (listEntry user r) = None).
  { intros user r En. split; [exact En|].
    rewrite (listEntry_override user r) by now rewrite En.
    split; reflexivity. }
  split; [exact Hk|]. split; [|split; [|split; [|split; [|split]]]].
  - intros f publicId n Hf. unfold resolve. now rewrite Hf, Hk.
  - intros req f n Hfile Hf Hg.
    rewrite (uploadHandler_resolve vt env req f n Hg Hfile).
    unfold hbind, resolve. rewrite Hf, Hk. cbn. now rewrite Hf.
  - intros user id url storedVerdict custom owner storedTags.
    exact (Hctx user
             {| public_id := id; secure_url := url;
                context := Some {| cx_verdict := storedVerdict;
                                   cx_originalName := name;
                                   cx_custom := custom; cx_userId := owner |};
                tags := storedTags |}
             {| cx_verdict := storedVerdict; cx_originalName := name;
                cx_custom := custom; cx_userId := owner |}
             eq_refl eq_refl).
  - intros user r c cu Hc He Hcu Hn. apply Hany.
    rewrite (listEntry_custom_name user r c cu Hc He Hcu) by now rewrite Hn.
    exact Hn.
  - intros user r Hc Hn. apply Hany.
    now rewrite (listEntry_fallback_name user r Hc).
  - intros search req resources r c Hu Hsearch Hin Hc Hn.
    exists (map (listEntry (userId req)) resources).
    split; [unfold listAll; now rewrite Hu, Hsearch|].
    split; [apply length_map|].
    rewrite <- (Hctx (userId req) r c Hc Hn). now apply in_map.
Qed.

Lemma eicar_substring_is_blocked_witness :
  (toLowerCase "TheIcarusProject.pdf" = "th" ++ "eicar" ++ "usproject.pdf")%string /\
  ~ In (toLowerCase "TheIcarusProject.pdf") knownMaliciousNames /\
  uploadHandler (M := Doubles.mime) (Doubles.mock "scan-id-123" 0) Doubles.env
                (Doubles.request "application/pdf" "TheIcarusProject.pdf")
                (Doubles.start Doubles.queued)
  = (Ok (JsonUpload "uuid.pdf" "TheIcarusProject.pdf" None malicious "user123"),
     [], Doubles.start Doubles.queued) /\
  listAll
    (fun _ =>
       Ok [ {| public_id := "uuid.pdf";
               secure_url := "https://example.com/uuid.pdf";
               context := Some {| cx_verdict := "clean";
                                  cx_originalName := "TheIcarusProject.pdf";
                                  cx_custom := None;
                                  cx_userId := "user123" |};
               tags := ["clean"; "user123"] |} ])
    {| userId := "user123"; file := None |}
  = JsonFiles [ {| fe_id := "uuid.pdf";
                   fe_originalName := "TheIcarusProject.pdf";
                   fe_url := None; fe_verdict := "malicious";
                   fe_userId := "user123" |} ].
Proof.
  split; [reflexivity|]. split; [|split].
  - cbn. intros [E|[E|[E|[E|[E|[]]]]]]; discriminate.
  - exact (proj1 (proj2 (proj2
             (eicar_substring_is_blocked (M := Doubles.mime)
                (Doubles.mock "scan-id-123" 0) Doubles.env
                "TheIcarusProject.pdf" "th" "usproject.pdf" eq_refl)))
             (Doubles.request "application/pdf" "TheIcarusProject.pdf")
             (Doubles.upload "application/pdf" "TheIcarusProject.pdf")
             (Doubles.start Doubles.queued) eq_refl eq_refl eq_refl).
  - unfold listAll. cbn [userId truthy negb String.eqb Ascii.eqb map].
    change (truthy "user123") with true. cbn [negb map].
    rewrite (proj1 (proj2 (proj2 (proj2
               (eicar_substring_is_blocked (M := Doubles.mime)
                  (Doubles.mock "scan-id-123" 0) Doubles.env
                  "TheIcarusProject.pdf" "th" "usproject.pdf" eq_refl))))
               "user123" "uuid.pdf" "https://example.com/uuid.pdf" "clean"
               None "user123" ["clean"; "user123"]).
    reflexivity.
Defined.

(** ** Runs of the test suite *)

Lemma completed_poll_decides_verdict_witness :
  uploadHandler (M := Doubles.mime) (Doubles.mock "scan-id-456" 5) Doubles.env
                (Doubles.request "application/pdf" "malicious.pdf")
                (Doubles.start Doubles.queued)
  = (Ok (JsonUpload "uuid.pdf" "malicious.pdf" None malicious "user123"),
     [EvScanFile [] "uuid.pdf" (Ok "scan-id-456");
      EvGetAnalysis "scan-id-456"
        (Ok {| an_status := "completed";
               an_stats := Some {| malicious_count := 5; suspicious := 0;
                                   harmless := 0 |} |})],
     Doubles.start Doubles.queued) /\
  exists f v l0 n0,
    file (Doubles.request "application/pdf" "malicious.pdf") = Some f /\
    resolve (Doubles.mock "scan-id-456" 5) Doubles.env f
            (publicIdOf (M := Doubles.mime) Doubles.env f)
            (Doubles.start Doubles.queued)
    = (Ok v, l0, n0) /\
    v = malicious.
Proof.
  assert (E : uploadHandler (M := Doubles.mime) (Doubles.mock "scan-id-456" 5)
                Doubles.env
                (Doubles.request "application/pdf" "malicious.pdf")
                (Doubles.start Doubles.queued)
              = (Ok (JsonUpload "uuid.pdf" "malicious.pdf" None malicious
                                "user123"),
                 [EvScanFile [] "uuid.pdf" (Ok "scan-id-456");
                  EvGetAnalysis "scan-id-456"
                    (Ok {| an_status := "completed";
                           an_stats := Some {| malicious_count := 5;
                                               suspicious := 0;
                                               harmless := 0 |} |})],
                 Doubles.start Doubles.queued))
    by (vm_compute; reflexivity).
  split; [exact E|].
  destruct (completed_poll_decides_verdict (M := Doubles.mime) _ _ _ _ _ _ _
              "scan-id-456" _ _ E (or_intror (or_introl eq_refl))
              eq_refl eq_refl)
    as [f [v [l0 [n0 [Hf [R [Hpos _]]]]]]].
  exists f, v, l0, n0. split; [exact Hf|]. split; [exact R|].
  apply Hpos. reflexivity.
Defined.

Lemma blocklisted_name_resolves_malicious_without_scan_witness :
  In "eicar.com" knownMaliciousNames /\
  (toLowerCase "eicar.com.txt" = "" ++ "eicar.com" ++ ".txt")%string /\
  resolve (Doubles.mock "scan-id-123" 0) Doubles.env
          (Doubles.upload "text/plain" "eicar.com.txt") "uuid.txt"
          (Doubles.start Doubles.queued)
  = (Ok malicious, [], Doubles.start Doubles.queued).
Proof.
  assert (Hin : In "eicar.com" knownMaliciousNames)
    by (right; right; left; reflexivity).
  split; [exact Hin|]. split; [reflexivity|].
  destruct (proj1 (blocklisted_name_resolves_malicious_without_scan
                     (M := Doubles.mime) (Doubles.mock "scan-id-123" 0)
                     Doubles.env (Doubles.upload "text/plain" "eicar.com.txt")
                     "uuid.txt" (Doubles.start Doubles.queued)
                     "eicar.com" "" ".txt" Hin eq_refl))
    as [l [E [Hl _]]].
  rewrite E, Hl. reflexivity.
Defined.

(** * Further properties *)

(** ** The revised utility module *)

Ltac run_net :=
  unfold tryCatch, bind, axios_get_file, axios_post_file, axios_get_analysis,
    data, throw, ret.

(** What a poll of the revised module leaves on the wire: one request, or
    two, and no wait. *)
Lemma Revised_getAnalysis_wire (id key : string) (n n' : Net)
    (r : Result Analysis) :
  Revised.getAnalysis id key n = (r, n') ->
  remote n' = remote n /\
  exists rqs,
    wire n' = (wire n ++ map Sent rqs)%list /\
    (List.length rqs = 1 \/ List.length rqs = 2)%nat /\
    (forall a, r = Ok a -> an_status a = "completed").
Proof.
  unfold Revised.getAnalysis. run_net.
  destruct (isFileHash id).
  - destruct (files_get (remote n) (clock n) id) as [f| |e]; cbn [received].
    + destruct (last_analysis_stats f) as [st|].
      * intros E; inversion E; subst. split; [reflexivity|].
        exists [GetFile id]. repeat split; auto.
        intros a Ha; inversion Ha; reflexivity.
      * destruct (truthy (last_analysis_id f)).
        -- cbn [remote clock sent].
           destruct (analyses_get (remote n) (S (clock n)) (last_analysis_id f))
             as [d| |e]; cbn [received];
             try destruct (response_status_is e 429);
             intros E; inversion E; subst; (split; [reflexivity|]);
             exists [GetFile id; GetAnalysis (last_analysis_id f)];
             cbn [wire sent map]; rewrite <- app_assoc;
             (repeat split; auto);
             intros a Ha; inversion Ha; reflexivity.
        -- cbn. intros E; inversion E; subst. split; [reflexivity|].
           exists [GetFile id]. repeat split; auto. discriminate.
    + cbn. intros E; inversion E; subst. split; [reflexivity|].
      exists [GetFile id]. repeat split; auto. discriminate.
    + destruct (response_status_is e 429); intros E; inversion E; subst;
        (split; [reflexivity|]); exists [GetFile id]; repeat split; auto;
        discriminate.
  - destruct (analyses_get (remote n) (clock n) id) as [d| |e]; cbn [received].
    + destruct (an_status d =? "completed")%string; cbn;
        intros E; inversion E; subst; (split; [reflexivity|]);
        exists [GetAnalysis id]; repeat split; auto;
        try discriminate.
      intros a Ha; inversion Ha; reflexivity.
    + cbn. intros E; inversion E; subst. split; [reflexivity|].
      exists [GetAnalysis id]. repeat split; auto. discriminate.
    + destruct (response_status_is e 429).
      * intros E; inversion E; subst. split; [reflexivity|].
        exists [GetAnalysis id]. repeat split; auto. discriminate.
      * destruct (response e) as [rs|];
          [destruct ((status rs =? 400) && (code rs =? "NotAvailableYet")%string)|];
          intros E; inversion E; subst; (split; [reflexivity|]);
          exists [GetAnalysis id]; repeat split; auto; discriminate.
Qed.

Lemma requests_map_Sent (rqs : list Request) :
  requests (map Sent rqs) = List.length rqs.
Proof. induction rqs as [|rq rqs IH]; cbn; [reflexivity | now rewrite IH]. Qed.

Lemma waitedTotal_app (l1 l2 : list NetEvent) :
  waitedTotal (l1 ++ l2) = waitedTotal l1 + waitedTotal l2.
Proof.
  induction l1 as [|[rq|ms] l1 IH]; cbn; [reflexivity | exact IH | lia].
Qed.

Lemma waitedTotal_map_Sent (rqs : list Request) :
  waitedTotal (map Sent rqs) = 0.
Proof. induction rqs as [|rq rqs IH]; cbn; [reflexivity | exact IH]. Qed.

Lemma revised_poll_bounds_aux (id key : string) (n n' : Net)
    (r : Result Analysis) :
  Revised.getAnalysis id key n = (r, n') ->
  (forall a, r = Ok a -> an_status a = "completed") /\
  (requests (wire n') <= requests (wire n) + 2)%nat /\
  waitedTotal (wire n') = waitedTotal (wire n).
Proof.
  intros E.
  destruct (Revised_getAnalysis_wire id key n n' r E) as [_ [rqs [Hw [Hl Hc]]]].
  split; [exact Hc|].
  rewrite Hw, requests_app, waitedTotal_app, requests_map_Sent,
    waitedTotal_map_Sent.
  split; lia.
Qed.

(** X1.  Whatever the handle and the service's answers, a poll of the
    revised module sends one or two requests, waits for nothing, and when
    it returns a result, that result is marked completed: a pending
    analysis is never returned, only thrown. *)
Theorem revised_poll_returns_completed_only (id key : string) (n n' : Net)
    (r : Result Analysis) :
  Revised.getAnalysis id key n = (r, n') ->
  (forall a, r = Ok a -> an_status a = "completed") /\
  (requests (wire n) + 1 <= requests (wire n') <= requests (wire n) + 2)%nat /\
  waitedTotal (wire n') = waitedTotal (wire n).
Proof.
  intros E.
  destruct (Revised_getAnalysis_wire id key n n' r E) as [_ [rqs [Hw [Hl Hc]]]].
  split; [exact Hc|].
  rewrite Hw, requests_app, waitedTotal_app, requests_map_Sent,
    waitedTotal_map_Sent.
  split; lia.
Qed.

Lemma revised_poll_returns_completed_only_witness :
  Revised.getAnalysis Doubles.emptyDigest "key" (Doubles.start Fixtures.known)
  = (Ok {| an_status := "completed";
           an_stats := Some {| malicious_count := 2; suspicious := 0;
                               harmless := 60 |} |},
     sent (GetFile Doubles.emptyDigest) (Doubles.start Fixtures.known)) /\
  (requests (wire (sent (GetFile Doubles.emptyDigest)
                        (Doubles.start Fixtures.known))) <= 2)%nat.
Proof.
  assert (E : Revised.getAnalysis Doubles.emptyDigest "key"
                (Doubles.start Fixtures.known)
              = (Ok {| an_status := "completed";
                       an_stats := Some {| malicious_count := 2;
                                           suspicious := 0;
                                           harmless := 60 |} |},
                 sent (GetFile Doubles.emptyDigest)
                      (Doubles.start Fixtures.known)))
    by (vm_compute; reflexivity).
  split; [exact E|].
  exact (proj2 (proj1 (proj2 (revised_poll_returns_completed_only _ _ _ _ _ E)))).
Defined.

(** X2.  A fingerprint-shaped handle whose file record carries
    [last_analysis_stats] is answered from that record: one request, the
    lookup of the file, and the statistics returned as a completed
    analysis. *)
Theorem revised_poll_uses_recorded_stats (id key : string) (n : Net)
    (f : FileInfo) (stats : Stats) :
  isFileHash id = true ->
  files_get (remote n) (clock n) id = Resp f ->
  last_analysis_stats f = Some stats ->
  Revised.getAnalysis id key n
  = (Ok {| an_status := "completed"; an_stats := Some stats |},
     sent (GetFile id) n).
Proof.
  intros Hh Hf Hs. unfold Revised.getAnalysis. run_net.
  rewrite Hh, Hf. cbn [received]. rewrite Hs. reflexivity.
Qed.

Lemma revised_poll_uses_recorded_stats_witness :
  Revised.getAnalysis Doubles.emptyDigest "key" (Doubles.start Fixtures.known)
  = (Ok {| an_status := "completed";
           an_stats := Some {| malicious_count := 2; suspicious := 0;
                               harmless := 60 |} |},
     sent (GetFile Doubles.emptyDigest) (Doubles.start Fixtures.known)).
Proof.
  apply (revised_poll_uses_recorded_stats Doubles.emptyDigest "key"
           (Doubles.start Fixtures.known) _ _ eq_refl eq_refl eq_refl).
Defined.

(** X3.  When the lookup by fingerprint is answered, the revised
    [scanFile] returns the fingerprint itself after that single request:
    the bytes are not uploaded and the body of the answer is not read. *)
Theorem revised_scanFile_known_file {C : Crypto} (buffer : list byte)
    (filename key : string) (n : Net) :
  (forall e, files_get (remote n) (clock n) (sha256_hex buffer) <> Fail e) ->
  Revised.scanFile buffer filename key n
  = (Ok (sha256_hex buffer), sent (GetFile (sha256_hex buffer)) n).
Proof.
  intros Hok. unfold Revised.scanFile. run_net.
  destruct (files_get (remote n) (clock n) (sha256_hex buffer)) as [f| |e];
    [reflexivity | reflexivity | destruct (Hok e eq_refl)].
Qed.

Lemma revised_scanFile_known_file_witness :
  Revised.scanFile (C := Doubles.crypto) [] "uuid.pdf" "key"
                   (Doubles.start Fixtures.known)
  = (Ok Doubles.emptyDigest,
     sent (GetFile Doubles.emptyDigest) (Doubles.start Fixtures.known)).
Proof.
  apply (revised_scanFile_known_file (C := Doubles.crypto) [] "uuid.pdf" "key"
           (Doubles.start Fixtures.known)).
  intros e. discriminate.
Defined.

(** X4.  When the lookup fails, for whatever reason (a rate limit
    included), the revised [scanFile] uploads the bytes under the given
    name: it returns the id of the upload; a 429 on the upload is thrown
    as [RATE_LIMIT_EXCEEDED], an unreadable answer as a TypeError, and any
    other failure as it is. *)
Theorem revised_scanFile_unknown_file {C : Crypto} (buffer : list byte)
    (filename key : string) (n : Net) (e0 : JsError) :
  files_get (remote n) (clock n) (sha256_hex buffer) = Fail e0 ->
  Revised.scanFile buffer filename key n
  = (match files_post (remote n) (S (clock n)) buffer filename with
     | Resp id => Ok id
     | Bad => Throw TypeError
     | Fail e => if response_status_is e 429
                 then Throw Revised.RATE_LIMIT_EXCEEDED else Throw e
     end,
     sent (PostFile buffer filename) (sent (GetFile (sha256_hex buffer)) n)).
Proof.
  intros H0. unfold Revised.scanFile. run_net. rewrite H0.
  cbn [received remote clock sent].
  destruct (files_post (remote n) (S (clock n)) buffer filename) as [id| |e];
    cbn [received]; try reflexivity.
  destruct (response_status_is e 429); reflexivity.
Qed.

Lemma revised_scanFile_unknown_file_witness :
  fst (Revised.scanFile (C := Doubles.crypto) [] "uuid.pdf" "key"
         (Doubles.start Doubles.queued))
  = Ok "analysis-1".
Proof.
  rewrite (revised_scanFile_unknown_file (C := Doubles.crypto) [] "uuid.pdf"
             "key" (Doubles.start Doubles.queued)
             (Doubles.httpError 404 "NotFoundError") eq_refl).
  reflexivity.
Defined.

(** ** Waiting for an analysis, continued *)

Lemma waitLoop_first_poll (id key : string) (left : nat) (n : Net) :
  (forall e, fst (Revised.getAnalysis id key n) = Throw e ->
             message e <> "RATE_LIMIT_EXCEEDED") ->
  Revised.waitLoop id key (S left) 0 n = Revised.getAnalysis id key n.
Proof.
  intros Hne. cbn [Revised.waitLoop]. unfold bind, attempt.
  cbn [Z.ltb Z.compare]. unfold ret at 1.
  destruct (Revised.getAnalysis id key n) as [r n1] eqn:E.
  destruct r as [a|e].
  - destruct (Revised_getAnalysis_wire id key n n1 (Ok a) E)
      as [_ [rqs [_ [_ Hc]]]].
    rewrite (Hc a eq_refl). reflexivity.
  - specialize (Hne e eq_refl).
    destruct (String.eqb_spec (message e) "RATE_LIMIT_EXCEEDED");
      [contradiction | reflexivity].
Qed.

(** X5.  With a budget of at least one attempt, [waitForAnalysis] is a
    single poll unless that poll is rate-limited: a completed analysis is
    returned at once, without any wait, and every other error, the
    [ANALYSIS_PENDING] of an analysis still in progress included, is
    rethrown at once, without a second poll. *)
Theorem waitForAnalysis_is_one_poll_unless_rate_limited (id key : string)
    (maxRetries : Z) (n : Net) :
  0 < maxRetries ->
  (forall e, fst (Revised.getAnalysis id key n) = Throw e ->
             message e <> "RATE_LIMIT_EXCEEDED") ->
  Revised.waitForAnalysis id key maxRetries n = Revised.getAnalysis id key n.
Proof.
  intros Hpos Hne. unfold Revised.waitForAnalysis.
  destruct (Z.to_nat maxRetries) as [|left] eqn:El; [lia|].
  now apply waitLoop_first_poll.
Qed.

Lemma waitForAnalysis_is_one_poll_unless_rate_limited_witness :
  Revised.waitForAnalysis "analysis-1" "key" 3 (Doubles.start Doubles.queued)
  = (Throw Revised.ANALYSIS_PENDING,
     sent (GetAnalysis "analysis-1") (Doubles.start Doubles.queued)).
Proof.
  rewrite (waitForAnalysis_is_one_poll_unless_rate_limited
             "analysis-1" "key" 3 (Doubles.start Doubles.queued) eq_refl).
  - reflexivity.
  - intros e He. vm_compute in He. inversion He. discriminate.
Defined.

Lemma waitLoop_bounds (id key : string) (left : nat) :
  forall (retries : Z) (n n' : Net) (r : Result Analysis),
    Revised.waitLoop id key left retries n = (r, n') ->
    (requests (wire n') <= requests (wire n) + 2 * left)%nat /\
    waitedTotal (wire n') <= waitedTotal (wire n) + 24000 * Z.of_nat left /\
    (forall a, r = Ok a -> an_status a = "completed").
Proof.
  induction left as [|left IH]; intros retries n n' r.
  - cbn. intros E; inversion E; subst. split; [lia|]. split; [lia|].
    discriminate.
  - cbn [Revised.waitLoop]. unfold bind at 1. unfold attempt.
    set (n0 := if 0 <? retries
               then waited Revised.POLLING_INTERVAL_MS n else n).
    assert (E0 : bind (if 0 <? retries
                       then setTimeout Revised.POLLING_INTERVAL_MS else ret tt)
                      (fun _ => Revised.getAnalysis id key) n
                 = Revised.getAnalysis id key n0).
    { unfold bind, setTimeout, ret, n0. destruct (0 <? retries); reflexivity. }
    rewrite E0.
    assert (Hn0 : requests (wire n0) = requests (wire n) /\
                  waitedTotal (wire n0) <= waitedTotal (wire n) + 8000).
    { unfold n0. destruct (0 <? retries); cbn [wire waited].
      - rewrite requests_app, waitedTotal_app. cbn.
        unfold Revised.POLLING_INTERVAL_MS. lia.
      - lia. }
    destruct Hn0 as [Hq0 Hw0].
    destruct (Revised.getAnalysis id key n0) as [r1 n1] eqn:E1.
    pose proof (revised_poll_bounds_aux id key n0 n1 r1 E1) as [Hc [Hq1 Hw1]].
    destruct r1 as [a|e].
    + rewrite (Hc a eq_refl). cbn. unfold ret.
      intros E; inversion E; subst. split; [lia|]. split; [lia|].
      intros a' Ha'; inversion Ha'; subst. now apply Hc.
    + destruct (message e =? "RATE_LIMIT_EXCEEDED")%string.
      * unfold bind, setTimeout. intros E.
        apply IH in E as [Hq [Hw Hc']].
        cbn [wire waited] in Hq, Hw.
        rewrite requests_app in Hq. rewrite waitedTotal_app in Hw.
        cbn [requests waitedTotal] in Hq, Hw.
        unfold Revised.POLLING_INTERVAL_MS in Hw.
        split; [lia|]. split; [lia | exact Hc'].
      * unfold throw. intros E; inversion E; subst.
        split; [lia|]. split; [lia | discriminate].
Qed.

(** X6.  [waitForAnalysis] is bounded by its budget: it sends at most two
    requests per attempt and waits at most 24 seconds per attempt (8 before
    the poll, 16 after a rate limit), and whatever it returns is a
    completed analysis. *)
Theorem waitForAnalysis_is_bounded (id key : string) (maxRetries : Z)
    (n n' : Net) (r : Result Analysis) :
  Revised.waitForAnalysis id key maxRetries n = (r, n') ->
  (requests (wire n') <= requests (wire n) + 2 * Z.to_nat maxRetries)%nat /\
  waitedTotal (wire n') <= waitedTotal (wire n) + 24000 * Z.max 0 maxRetries /\
  (forall a, r = Ok a -> an_status a = "completed").
Proof.
  unfold Revised.waitForAnalysis. intros E.
  apply waitLoop_bounds in E as [Hq [Hw Hc]].
  split; [exact Hq|]. split; [|exact Hc].
  lia.
Qed.

Lemma waitForAnalysis_is_bounded_witness :
  Revised.waitForAnalysis "analysis-1" "key" 3 (Doubles.start Doubles.limitedOnce)
  = (Ok cleanResult,
     sent (GetAnalysis "analysis-1")
       (waited 8000
          (waited 16000
             (sent (GetAnalysis "analysis-1")
                   (Doubles.start Doubles.limitedOnce))))) /\
  waitedTotal [Sent (GetAnalysis "analysis-1"); Waited 16000; Waited 8000;
               Sent (GetAnalysis "analysis-1")] <= 72000.
Proof.
  assert (E : Revised.waitForAnalysis "analysis-1" "key" 3
                (Doubles.start Doubles.limitedOnce)
              = (Ok cleanResult,
                 sent (GetAnalysis "analysis-1")
                   (waited 8000
                      (waited 16000
                         (sent (GetAnalysis "analysis-1")
                               (Doubles.start Doubles.limitedOnce))))))
    by (vm_compute; reflexivity).
  split; [exact E|].
  exact (proj1 (proj2 (waitForAnalysis_is_bounded _ _ _ _ _ _ E))).
Defined.

(** X7.  With no budget ([maxRetries] zero or negative) [waitForAnalysis]
    throws [ANALYSIS_TIMEOUT] without sending a request or waiting. *)
Theorem waitForAnalysis_without_budget (id key : string) (maxRetries : Z)
    (n : Net) :
  maxRetries <= 0 ->
  Revised.waitForAnalysis id key maxRetries n
  = (Throw Revised.ANALYSIS_TIMEOUT, n).
Proof.
  intros Hle. unfold Revised.waitForAnalysis.
  replace (Z.to_nat maxRetries) with 0%nat by lia. reflexivity.
Qed.

Lemma waitForAnalysis_without_budget_witness :
  Revised.waitForAnalysis "analysis-1" "key" 0 (Doubles.start Doubles.queued)
  = (Throw Revised.ANALYSIS_TIMEOUT, Doubles.start Doubles.queued).
Proof.
  apply (waitForAnalysis_without_budget "analysis-1" "key" 0
           (Doubles.start Doubles.queued)).
  discriminate.
Defined.

(** ** Submission in the original module, continued *)

(** X8.  A handle returned by the original [scanFile] is always an id the
    service supplied: that of the record found by the first lookup, that
    of the upload, or that of the record found by the lookup retried after
    a 409 or 400; it takes one, two or three requests respectively, and no
    handle is ever made up locally. *)
Theorem original_scanFile_returns_service_ids {C : Crypto}
    (buffer : list byte) (filename key id : string) (n n' : Net) :
  Original.scanFile buffer filename key n = (Ok id, n') ->
  let hash := sha256_hex buffer in
  (exists fi,
      files_get (remote n) (clock n) hash = Resp fi /\ id = fi_id fi /\
      n' = sent (GetFile hash) n) \/
  (files_post (remote n) (S (clock n)) buffer filename = Resp id /\
   n' = sent (PostFile buffer filename) (sent (GetFile hash) n)) \/
  (exists fi e r,
      files_post (remote n) (S (clock n)) buffer filename = Fail e /\
      response e = Some r /\ (status r = 409 \/ status r = 400) /\
      files_get (remote n) (S (S (clock n))) hash = Resp fi /\ id = fi_id fi /\
      n' = sent (GetFile hash)
             (sent (PostFile buffer filename) (sent (GetFile hash) n))).
Proof.
  unfold Original.scanFile. run_net. cbv zeta.
  destruct (files_get (remote n) (clock n) (sha256_hex buffer))
    as [fi0| |e0] eqn:E0; cbn [received].
  - intros E; inversion E; subst. left. exists fi0. auto.
  - cbn [remote clock sent].
    destruct (files_post (remote n) (S (clock n)) buffer filename)
      as [pid| |e1] eqn:E1; cbn [received].
    + intros E; inversion E; subst. right; left. auto.
    + cbn. discriminate.
    + destruct (response e1) as [r|] eqn:Er; [|discriminate].
      destruct (Z.eqb_spec (status r) 409) as [H409|_];
        [|destruct (Z.eqb_spec (status r) 400) as [H400|_]; [|discriminate]];
        cbn [remote clock sent];
        (destruct (files_get (remote n) (S (S (clock n))) (sha256_hex buffer))
           as [fi| |e2] eqn:E2; cbn [received]; try discriminate;
         intros E; inversion E; subst; right; right;
         exists fi, e1, r; auto 10).
  - cbn [remote clock sent].
    destruct (files_post (remote n) (S (clock n)) buffer filename)
      as [pid| |e1] eqn:E1; cbn [received].
    + intros E; inversion E; subst. right; left. auto.
    + cbn. discriminate.
    + destruct (response e1) as [r|] eqn:Er; [|discriminate].
      destruct (Z.eqb_spec (status r) 409) as [H409|_];
        [|destruct (Z.eqb_spec (status r) 400) as [H400|_]; [|discriminate]];
        cbn [remote clock sent];
        (destruct (files_get (remote n) (S (S (clock n))) (sha256_hex buffer))
           as [fi| |e2] eqn:E2; cbn [received]; try discriminate;
         intros E; inversion E; subst; right; right;
         exists fi, e1, r; auto 10).
Qed.

Lemma original_scanFile_returns_service_ids_witness :
  Original.scanFile (C := Doubles.crypto) [] "uuid.pdf" "key"
                    (Doubles.start Doubles.queued)
  = (Ok "analysis-1",
     sent (PostFile [] "uuid.pdf")
          (sent (GetFile Doubles.emptyDigest) (Doubles.start Doubles.queued))) /\
  files_post Doubles.queued 1 [] "uuid.pdf" = Resp "analysis-1".
Proof.
  assert (E : Original.scanFile (C := Doubles.crypto) [] "uuid.pdf" "key"
                (Doubles.start Doubles.queued)
              = (Ok "analysis-1",
                 sent (PostFile [] "uuid.pdf")
                      (sent (GetFile Doubles.emptyDigest)
                            (Doubles.start Doubles.queued))))
    by (vm_compute; reflexivity).
  split; [exact E|].
  destruct (original_scanFile_returns_service_ids (C := Doubles.crypto)
              _ _ _ _ _ _ E) as [[fi [H _]] | [[H _] | [fi [e [r [H _]]]]]].
  - discriminate H.
  - exact H.
  - discriminate H.
Defined.

(** ** The controller, continued *)

Section HandlerShape.
Context {M : Mime}.
Variable vt : VirusTotal.

(** The sleeps of the polling loop: 5000 ms each, one per round at most. *)
Lemma pollLoop_sleeps (key vtId : string) (mx : Z) (left : nat) :
  forall (rc : Z) (n n' : Net) (r : Result Verdict) (l : list Event),
    pollLoop vt key vtId mx left rc n = (r, l, n') ->
    0 <= slept l <= 5000 * Z.of_nat left /\
    Forall (fun e => match e with EvSleep ms => ms = 5000 | _ => True end) l.
Proof.
  induction left as [|left IH]; intros rc n n' r l.
  - cbn. intros E; inversion E; subst. cbn. split; [lia | constructor].
  - rewrite pollLoop_S.
    destruct (getAnalysis vt vtId key n) as [r1 n1].
    destruct (pollStep mx rc r1) as [v|].
    + intros E; inversion E; subst. cbn [slept].
      split; [lia | repeat constructor].
    + destruct (pollLoop vt key vtId mx left (rc + 1) n1) as [[r2 l2] n2] eqn:E2.
      intros E; inversion E; subst.
      destruct (IH _ _ _ _ _ E2) as [Hs Hf].
      cbn [slept]. split; [lia | repeat constructor; exact Hf].
Qed.

(** The steps of a resolution: none for a blocklisted name, otherwise the
    call of [scanFile] on the file's bytes under the public id, followed by
    polls and sleeps. *)
Lemma resolve_events (env : Env) (f : File) (publicId : string) (n n' : Net)
    (v : Verdict) (l : list Event) :
  resolve vt env f publicId n = (Ok v, l, n') ->
  (isKnownMalicious (originalname f) = true /\ l = []) \/
  (isKnownMalicious (originalname f) = false /\
   exists r l',
     l = EvScanFile (buffer f) publicId r :: l' /\
     Forall loop_event l' /\ 0 <= slept l' <= 15000 /\
     Forall (fun e => match e with EvSleep ms => ms = 5000 | _ => True end) l').
Proof.
  unfold resolve. destruct (isKnownMalicious (originalname f)).
  - unfold hret. intros E; inversion E; subst. left. auto.
  - rewrite scanVerdict_eq. intros E. right. split; [reflexivity|].
    destruct (scanFile vt (buffer f) publicId (VT_API_KEY env) n)
      as [[vtId|e] n1]; cbn zeta in E.
    + destruct (truthy vtId).
      * destruct (pollLoop vt (VT_API_KEY env) vtId 3 3 0 n1)
          as [[r2 l2] n2] eqn:E2.
        destruct (pollLoop_run vt (VT_API_KEY env) vtId 3 3 0 n1)
          as [v2 [l2' [n2' [E2' [_ [_ [Hf _]]]]]]].
        rewrite E2 in E2'. inversion E2'; subst.
        destruct (pollLoop_sleeps _ _ _ _ _ _ _ _ _ E2) as [Hs Hf5].
        inversion E; subst.
        exists (Ok vtId), l2'. repeat split; auto; lia.
      * inversion E; subst. exists (Ok vtId), [].
        repeat split; auto; cbn; try lia; constructor.
    + inversion E; subst. exists (Throw e), [].
      repeat split; auto; cbn; try lia; constructor.
Qed.

Lemma cloudinaryFailure_shape (err : CloudinaryError) (name : string) :
  exists msg details,
    cloudinaryFailure err name = JsonCloudinaryError msg name details /\
    truthy msg = true /\
    (details = None <-> ce_http_code err = 0).
Proof.
  unfold cloudinaryFailure.
  set (m1 := if truthy (ce_message err) then ce_message err else "Upload failed").
  assert (H1 : truthy m1 = true).
  { unfold m1. destruct (truthy (ce_message err)) eqn:E; [exact E | reflexivity]. }
  set (m2 := match ce_error err with
             | Some m => if truthy m then m else m1
             | None => m1
             end).
  assert (H2 : truthy m2 = true).
  { unfold m2. destruct (ce_error err) as [m|]; [|exact H1].
    destruct (truthy m) eqn:E; [exact E | exact H1]. }
  destruct (Z.eqb_spec (ce_http_code err) 0) as [Hz|Hnz].
  - exists m2, None. repeat split; auto.
  - eexists. eexists. split; [reflexivity|]. split.
    + destruct (truthy (ce_message err)
                && includes (ce_message err) "File size too large");
        [reflexivity | exact H2].
    + split; [discriminate | contradiction].
Qed.

(** What persisting a verdict other than [malicious] answers. *)
Lemma persist_store (env : Env) (f : File) (publicId user : string)
    (v : Verdict) (n : Net) :
  v <> malicious ->
  let args := {| ua_buffer := buffer f; ua_publicId := publicId;
                 ua_verdict := v; ua_originalName := originalname f;
                 ua_userId := user |} in
  persist env f publicId user v n
  = (Ok match upload_stream env args with
        | Stored u => JsonUpload (up_public_id u) (originalname f)
                                 (Some (up_secure_url u)) v user
        | Refused err => cloudinaryFailure err (originalname f)
        end, [EvUpload args], n).
Proof.
  intros Hv. unfold persist, store.
  destruct v; try contradiction; reflexivity.
Qed.

(** A run of [uploadHandler], with its steps and its answer spelled out. *)
Lemma uploadHandler_cases (env : Env) (req : Req) (n n' : Net)
    (resp : Response) (l : list Event) :
  uploadHandler vt env req n = (Ok resp, l, n') ->
  (precheck req = Some resp /\ l = [] /\ n' = n) \/
  (exists f v l0,
      precheck req = None /\ file req = Some f /\
      resolve vt env f (publicIdOf env f) n = (Ok v, l0, n') /\
      ((v = malicious /\ l = l0 /\
        resp = JsonUpload (publicIdOf env f) (originalname f) None malicious
                          (userId req)) \/
       (v = clean /\ isKnownMalicious (originalname f) = false /\
        let args := {| ua_buffer := buffer f;
                       ua_publicId := publicIdOf env f;
                       ua_verdict := clean;
                       ua_originalName := originalname f;
                       ua_userId := userId req |} in
        l = (l0 ++ [EvUpload args])%list /\
        resp = match upload_stream env args with
               | Stored u => JsonUpload (up_public_id u) (originalname f)
                                        (Some (up_secure_url u)) clean
                                        (userId req)
               | Refused err => cloudinaryFailure err (originalname f)
               end))).
Proof.
  intros E.
  destruct (uploadHandler_run vt env req n)
    as [[resp0 [Hg E0]] | [f [v [l0 [n0 [resp0 [l2 [Hg [Hf [R [P E0]]]]]]]]]]];
    rewrite E0 in E; inversion E; subst resp0 l n'.
  - left. auto.
  - right. exists f, v, l0. split; [exact Hg|]. split; [exact Hf|].
    split; [exact R|].
    destruct (resolve_run vt env f (publicIdOf env f) n)
      as [v' [l' [n1 [R' [Hv [_ [_ [_ [Hk _]]]]]]]]].
    rewrite R in R'. inversion R'; subst v' l' n1.
    destruct Hv as [Hv|Hv]; subst v.
    + right. split; [reflexivity|].
      assert (Hnk : isKnownMalicious (originalname f) = false).
      { destruct (isKnownMalicious (originalname f)) eqn:Ek; [|reflexivity].
        destruct (Hk eq_refl) as [Hc _]. discriminate. }
      split; [exact Hnk|].
      rewrite (persist_store env f (publicIdOf env f) (userId req) clean n0)
        in P by discriminate.
      inversion P; subst. split; reflexivity.
    + left. split; [reflexivity|].
      destruct (persist_run env f (publicIdOf env f) (userId req) malicious n0)
        as [[_ P'] | [Hne _]]; [|congruence].
      rewrite P in P'. inversion P'; subst. rewrite app_nil_r. auto.
Qed.

End HandlerShape.

Lemma slept_app (l1 l2 : list Event) :
  slept (l1 ++ l2) = slept l1 + slept l2.
Proof.
  induction l1 as [|e l1 IH]; [reflexivity|].
  destruct e; cbn; rewrite ?IH; lia.
Qed.

Section HandlerExtras.
Context {M : Mime}.
Variable vt : VirusTotal.

Lemma uploadHandler_total (env : Env) (req : Req) (n : Net) :
  exists resp l n', uploadHandler vt env req n = (Ok resp, l, n').
Proof.
  destruct (uploadHandler_run vt env req n)
    as [[resp [_ E]] | [f [v [l0 [n0 [resp [l2 [_ [_ [_ [_ E]]]]]]]]]]]; eauto.
Qed.

(** What the checks before the resolution answer, and why. *)
Lemma precheck_answers (req : Req) (resp : Response) :
  precheck req = Some resp ->
  (truthy (userId req) = false /\
   resp = JsonError 401 "User authentication required") \/
  (truthy (userId req) = true /\ file req = None /\
   resp = JsonUploadFailed (message TypeError)) \/
  (exists f,
      truthy (userId req) = true /\ file req = Some f /\
      ((~ In (extension f) allowed /\ resp = JsonError 400 "Blocked extension") \/
       (In (extension f) allowed /\ 25 * 1024 * 1024 < size f /\
        resp = JsonError 400 "File too large"))).
Proof.
  unfold precheck. destruct (truthy (userId req)); cbn [negb].
  2:{ intros E; inversion E. left. auto. }
  destruct (file req) as [f|].
  2:{ intros E; inversion E. right; left. auto. }
  destruct (existsb (String.eqb (extension f)) allowed) eqn:Ea; cbn [negb].
  - assert (Hin : In (extension f) allowed).
    { apply existsb_exists in Ea as [x [Hin Hx]].
      apply String.eqb_eq in Hx. now subst. }
    destruct (Z.gtb_spec (size f) (25 * 1024 * 1024)); [|discriminate].
    intros E; inversion E. right; right. exists f. repeat split; auto.
  - intros E; inversion E. right; right. exists f. repeat split; auto.
    left. split; [|reflexivity].
    intros Hin.
    assert (existsb (String.eqb (extension f)) allowed = true).
    { apply existsb_exists. exists (extension f).
      split; [exact Hin | apply String.eqb_refl]. }
    congruence.
Qed.

(** X9.  In every run of [uploadHandler], [scanFile] is given the file's
    bytes under the generated public id, never under the name the user
    chose; and what is handed to [uploadToCloudinary] is exactly those
    bytes, that public id, the verdict [clean], the original name and the
    user id, for a name that is not on the blocklist. *)
Theorem scan_and_store_use_the_public_id (env : Env) (req : Req) (n : Net) :
  exists resp l n',
    uploadHandler vt env req n = (Ok resp, l, n') /\
    (forall b name r,
        In (EvScanFile b name r) l ->
        exists f, file req = Some f /\ b = buffer f /\
                  name = publicIdOf env f) /\
    (forall args,
        In (EvUpload args) l ->
        exists f,
          file req = Some f /\
          isKnownMalicious (originalname f) = false /\
          args = {| ua_buffer := buffer f; ua_publicId := publicIdOf env f;
                    ua_verdict := clean; ua_originalName := originalname f;
                    ua_userId := userId req |}).
Proof.
  destruct (uploadHandler_total env req n) as [resp [l [n' E]]].
  exists resp, l, n'. split; [exact E|].
  destruct (uploadHandler_cases vt env req n n' resp l E)
    as [[_ [-> _]] | [f [v [l0 [Hg [Hf [R Hcase]]]]]]].
  { split; intros; contradiction. }
  assert (Hscan : forall b name r,
             In (EvScanFile b name r) l0 ->
             b = buffer f /\ name = publicIdOf env f).
  { intros b name r Hin.
    destruct (resolve_events vt env f _ _ _ _ _ R)
      as [[_ ->] | [_ [r0 [l' [-> [Hloop _]]]]]]; [contradiction|].
    destruct Hin as [Heq|Hin]; [inversion Heq; auto|].
    rewrite Forall_forall in Hloop. destruct (Hloop _ Hin). }
  assert (Hnoup : forall args, ~ In (EvUpload args) l0).
  { intros args Hin.
    destruct (resolve_events vt env f _ _ _ _ _ R)
      as [[_ ->] | [_ [r0 [l' [-> [Hloop _]]]]]]; [contradiction|].
    destruct Hin as [Heq|Hin]; [discriminate|].
    rewrite Forall_forall in Hloop. destruct (Hloop _ Hin). }
  destruct Hcase as [[_ [-> _]] | [_ [Hnk [-> _]]]].
  - split.
    + intros b name r Hin. exists f. split; [exact Hf|]. eauto.
    + intros args Hin. destruct (Hnoup _ Hin).
  - split.
    + intros b name r Hin. apply in_app_or in Hin as [Hin|[Heq|[]]];
        [|discriminate].
      exists f. split; [exact Hf|]. eauto.
    + intros args Hin. apply in_app_or in Hin as [Hin|[Heq|[]]];
        [destruct (Hnoup _ Hin)|].
      inversion Heq; subst. exists f. auto.
Qed.

(** X10.  An upload answer of [uploadHandler] carries the verdict [clean]
    or [malicious], never [pending] or [unknown]; it has no URL exactly
    when the verdict is [malicious]; and it names the user and the
    original file name of the request. *)
Theorem upload_answer_shape (env : Env) (req : Req) (n : Net) :
  exists resp l n',
    uploadHandler vt env req n = (Ok resp, l, n') /\
    match resp with
    | JsonUpload id name url v user =>
        (v = clean \/ v = malicious) /\
        (url = None <-> v = malicious) /\
        (v = malicious -> uploads l = []) /\
        user = userId req /\
        exists f, file req = Some f /\ name = originalname f
    | JsonFiles _ => False
    | _ => True
    end.
Proof.
  destruct (uploadHandler_total env req n) as [resp [l [n' E]]].
  exists resp, l, n'. split; [exact E|].
  destruct (uploadHandler_cases vt env req n n' resp l E)
    as [[Hg _] | [f [v [l0 [Hg [Hf [R Hcase]]]]]]].
  - destruct (precheck_answers req resp Hg)
      as [[_ ->] | [[_ [_ ->]] | [f [_ [_ [[_ ->] | [_ [_ ->]]]]]]]]; exact I.
  - destruct (resolve_run vt env f (publicIdOf env f) n)
      as [v' [l' [n1 [R' [_ [_ [_ [Hup _]]]]]]]].
    rewrite R in R'. inversion R'; subst v' l' n1.
    destruct Hcase as [[-> [-> ->]] | [-> [_ [-> ->]]]].
    + repeat split; auto. exists f. auto.
    + cbv zeta. destruct (upload_stream env _) as [u|err].
      * repeat split; try discriminate; auto. exists f. auto.
      * destruct (cloudinaryFailure_shape err (originalname f))
          as [msg [details [-> _]]]. exact I.
Qed.

(** X11.  A run of [uploadHandler] sleeps 5000 ms at a time and at most
    15 seconds in all, and only after it has called [scanFile]. *)
Theorem upload_sleeps_at_most_fifteen_seconds (env : Env) (req : Req)
    (n : Net) :
  exists resp l n',
    uploadHandler vt env req n = (Ok resp, l, n') /\
    0 <= slept l <= 15000 /\
    Forall (fun e => match e with EvSleep ms => ms = 5000 | _ => True end) l /\
    (scans l = 0%nat -> slept l = 0).
Proof.
  destruct (uploadHandler_total env req n) as [resp [l [n' E]]].
  exists resp, l, n'. split; [exact E|].
  destruct (uploadHandler_cases vt env req n n' resp l E)
    as [[_ [-> _]] | [f [v [l0 [Hg [Hf [R Hcase]]]]]]].
  { cbn. repeat split; try lia; constructor. }
  assert (Hslept : forall args, slept (l0 ++ [EvUpload args]) = slept l0).
  { intros args. rewrite slept_app. cbn. lia. }
  assert (H0 : 0 <= slept l0 <= 15000 /\
               Forall (fun e => match e with
                                | EvSleep ms => ms = 5000 | _ => True end) l0 /\
               (scans l0 = 0%nat -> slept l0 = 0)).
  { destruct (resolve_events vt env f _ _ _ _ _ R)
      as [[_ ->] | [_ [r0 [l' [-> [_ [Hs Hf5]]]]]]].
    - cbn. repeat split; try lia; constructor.
    - cbn [slept]. split; [exact Hs|]. split; [constructor; auto|].
      unfold scans. cbn. discriminate. }
  destruct H0 as [Hs [Hf5 Hz]].
  destruct Hcase as [[_ [-> _]] | [_ [_ [-> _]]]].
  - auto.
  - rewrite Hslept. split; [exact Hs|]. split.
    + apply Forall_app. split; [exact Hf5 | repeat constructor].
    + unfold scans in *. rewrite filter_app, length_app. cbn. intros Hsc.
      apply Hz. lia.
Qed.

Lemma allowed_existsb (e : string) :
  existsb (String.eqb e) allowed = true <-> In e allowed.
Proof.
  rewrite existsb_exists. split.
  - intros [x [Hin Hx]]. apply String.eqb_eq in Hx. now subst.
  - intros Hin. exists e. split; [exact Hin | apply String.eqb_refl].
Qed.

(** The checks of lines 25-34, read off the request. *)
Lemma precheck_decides (req : Req) :
  (truthy (userId req) = false ->
   precheck req = Some (JsonError 401 "User authentication required")) /\
  (truthy (userId req) = true -> file req = None ->
   precheck req = Some (JsonUploadFailed (message TypeError))) /\
  (forall f,
      truthy (userId req) = true -> file req = Some f ->
      (~ In (extension f) allowed ->
       precheck req = Some (JsonError 400 "Blocked extension")) /\
      (In (extension f) allowed -> 26214400 < size f ->
       precheck req = Some (JsonError 400 "File too large")) /\
      (In (extension f) allowed -> size f <= 26214400 ->
       precheck req = None)).
Proof.
  unfold precheck. split; [|split].
  - intros ->. reflexivity.
  - intros -> ->. reflexivity.
  - intros f -> ->. cbn [negb].
    destruct (existsb (String.eqb (extension f)) allowed) eqn:Ea; cbn [negb].
    + apply allowed_existsb in Ea.
      split; [contradiction|].
      split; intros _ Hs;
        destruct (Z.gtb_spec (size f) (25 * 1024 * 1024)); (reflexivity || lia).
    + assert (Hn : ~ In (extension f) allowed).
      { intros Hin. apply allowed_existsb in Hin. congruence. }
      split; [reflexivity|]. split; intros Hin; contradiction.
Qed.

(** X12.  What [uploadHandler] answers before it takes any step is read
    off the request alone.  Without a user id the answer is the 401,
    whatever else the request holds.  With a user id but without a file it
    is the 500 [Upload failed]; with a file whose extension is not allowed
    the 400 [Blocked extension]; with an allowed extension and more than
    25 MiB the 400 [File too large].  None of these runs scans, polls,
    uploads or sends a request.  A request with a user id and a file of an
    allowed extension and at most 25 MiB (exactly 25 MiB included) gets
    none of these answers: it is answered with an upload or with a
    Cloudinary error.  Conversely, an error answer or a 500 is always one
    of the four above. *)
Theorem rejections_precede_every_step (env : Env) (req : Req) (n : Net) :
  exists resp l n',
    uploadHandler vt env req n = (Ok resp, l, n') /\
    (truthy (userId req) = false ->
     resp = JsonError 401 "User authentication required" /\
     l = [] /\ n' = n) /\
    (truthy (userId req) = true -> file req = None ->
     resp = JsonUploadFailed (message TypeError) /\ l = [] /\ n' = n) /\
    (forall f,
        truthy (userId req) = true -> file req = Some f ->
        (~ In (extension f) allowed ->
         resp = JsonError 400 "Blocked extension" /\ l = [] /\ n' = n) /\
        (In (extension f) allowed -> 26214400 < size f ->
         resp = JsonError 400 "File too large" /\ l = [] /\ n' = n) /\
        (In (extension f) allowed -> size f <= 26214400 ->
         match resp with
         | JsonUpload _ _ _ _ _ | JsonCloudinaryError _ _ _ => True
         | _ => False
         end)) /\
    match resp with
    | JsonError st msg =>
        l = [] /\ n' = n /\
        ((st = 401 /\ truthy (userId req) = false) \/
         (st = 400 /\ truthy (userId req) = true /\
          exists f, file req = Some f /\
                    ((msg = "Blocked extension" /\ ~ In (extension f) allowed) \/
                     (msg = "File too large" /\ In (extension f) allowed /\
                      26214400 < size f))))
    | JsonUploadFailed _ =>
        l = [] /\ n' = n /\ truthy (userId req) = true /\ file req = None
    | _ => truthy (userId req) = true /\
           exists f, file req = Some f /\ In (extension f) allowed /\
                     size f <= 26214400
    end.
Proof.
  destruct (uploadHandler_total env req n) as [resp [l [n' E]]].
  exists resp, l, n'. split; [exact E|].
  assert (Hstop : forall r, precheck req = Some r ->
                            resp = r /\ l = [] /\ n' = n).
  { intros r Hp. rewrite (uploadHandler_precheck vt env req n r Hp) in E.
    inversion E. auto. }
  destruct (precheck_decides req) as [D401 [D500 Dfile]].
  split; [|split; [|split]].
  - intros Hu. apply Hstop. now apply D401.
  - intros Hu Hf. apply Hstop. now apply D500.
  - intros f Hu Hf. destruct (Dfile f Hu Hf) as [Dext [Dsize Dpass]].
    split; [|split].
    + intros Hn. apply Hstop. now apply Dext.
    + intros Ha Hs. apply Hstop. now apply Dsize.
    + intros Ha Hs. pose proof (Dpass Ha Hs) as Hg.
      destruct (uploadHandler_cases vt env req n n' resp l E)
        as [[Hg' _] | [f' [v [l0 [_ [_ [_ Hcase]]]]]]]; [congruence|].
      destruct Hcase as [[_ [_ ->]] | [_ [_ [_ ->]]]]; [exact I|].
      cbv zeta. destruct (upload_stream env _) as [u|err]; [exact I|].
      destruct (cloudinaryFailure_shape err (originalname f'))
        as [msg [details [-> _]]]. exact I.
  - destruct (uploadHandler_cases vt env req n n' resp l E)
      as [[Hg [-> ->]] | [f [v [l0 [Hg [Hf [R Hcase]]]]]]].
    + destruct (precheck_answers req resp Hg)
        as [[Hu ->] | [[Hu [Hf ->]] | [f [Hu [Hf [[Hn ->] | [Ha [Hs ->]]]]]]]].
      * repeat split; auto.
      * repeat split; auto.
      * repeat split; auto. right. repeat split; auto. exists f. auto.
      * repeat split; auto. right. repeat split; auto. exists f.
        split; [exact Hf|]. right. repeat split; auto; lia.
    + assert (Hpass : truthy (userId req) = true /\
                      exists f, file req = Some f /\ In (extension f) allowed /\
                                size f <= 26214400).
      { unfold precheck in Hg. destruct (truthy (userId req)); [|discriminate].
        split; [reflexivity|]. rewrite Hf in Hg. cbn [negb] in Hg.
        destruct (existsb (String.eqb (extension f)) allowed) eqn:Ea;
          [|discriminate].
        destruct (Z.gtb_spec (size f) (25 * 1024 * 1024)); [discriminate|].
        exists f. split; [exact Hf|]. split; [|lia].
        now apply allowed_existsb. }
      destruct Hcase as [[_ [_ ->]] | [_ [_ [_ ->]]]]; [exact Hpass|].
      cbv zeta. destruct (upload_stream env _) as [u|err]; [exact Hpass|].
      destruct (cloudinaryFailure_shape err (originalname f))
        as [msg [details [-> _]]]. exact Hpass.
Qed.

(** The message of the answer to a refused upload (lines 137-160). *)
Lemma cloudinaryFailure_answer (err : CloudinaryError) (name : string) :
  exists msg,
    cloudinaryFailure err name
    = JsonCloudinaryError msg name
        (if ce_http_code err =? 0 then None
         else Some (ce_http_code err,
                    if truthy (ce_name err) then ce_name err
                    else "CloudinaryError")) /\
    truthy msg = true /\
    (ce_http_code err <> 0 -> truthy (ce_message err) = true ->
     includes (ce_message err) "File size too large" = true ->
     msg = "File size exceeds Cloudinary limits. Please use a smaller file.") /\
    (ce_http_code err = 0 \/
     includes (ce_message err) "File size too large" = false ->
     msg = match ce_error err with
           | Some m => if truthy m then m
                       else if truthy (ce_message err) then ce_message err
                            else "Upload failed"
           | None => if truthy (ce_message err) then ce_message err
                     else "Upload failed"
           end).
Proof.
  destruct (cloudinaryFailure_shape err name) as [msg [details [E [Hm _]]]].
  revert E. unfold cloudinaryFailure.
  destruct (Z.eqb_spec (ce_http_code err) 0) as [Hz|Hnz].
  - intros E. inversion E; subst. eexists. split; [reflexivity|].
    split; [exact Hm|]. split; [contradiction | reflexivity].
  - destruct (truthy (ce_message err)) eqn:Et;
      destruct (includes (ce_message err) "File size too large") eqn:Ei;
      cbn [andb]; intros E; inversion E; subst;
      (eexists; split; [reflexivity|]; split; [exact Hm|]; split;
       [ intros; (reflexivity || discriminate)
       | intros [Hz|Hf]; (contradiction || discriminate || reflexivity) ]).
Qed.

(** X13.  When [uploadHandler] has resolved a verdict other than
    [malicious] and Cloudinary refuses the file, the refusal is what the
    caller is told: the answer is a Cloudinary error, after exactly one
    upload attempt that follows the scan.  It carries the original file
    name, a message that is never empty ([error.message], else [message],
    else [Upload failed]; the file-size text when the error has an
    [http_code] and speaks of the file size), and as details the
    [http_code] and the error's name exactly when there is an [http_code].
    A verdict [malicious] is answered as such, and Cloudinary is not
    asked.  Conversely, a Cloudinary error is only ever the answer to an
    upload that was refused. *)
Theorem refused_upload_is_reported (env : Env) (req : Req) (f : File)
    (n : Net) (err : CloudinaryError) :
  let args := {| ua_buffer := buffer f; ua_publicId := publicIdOf env f;
                 ua_verdict := clean; ua_originalName := originalname f;
                 ua_userId := userId req |} in
  precheck req = None -> file req = Some f ->
  upload_stream env args = Refused err ->
  exists v l0 n',
    resolve vt env f (publicIdOf env f) n = (Ok v, l0, n') /\
    (v = clean \/ v = malicious) /\
    uploads l0 = [] /\
    (v = malicious ->
     uploadHandler vt env req n
     = (Ok (JsonUpload (publicIdOf env f) (originalname f) None malicious
                       (userId req)), l0, n')) /\
    (v = clean ->
     exists msg,
       uploadHandler vt env req n
       = (Ok (JsonCloudinaryError msg (originalname f)
                (if ce_http_code err =? 0 then None
                 else Some (ce_http_code err,
                            if truthy (ce_name err) then ce_name err
                            else "CloudinaryError"))),
          (l0 ++ [EvUpload args])%list, n') /\
       truthy msg = true /\
       (ce_http_code err <> 0 -> truthy (ce_message err) = true ->
        includes (ce_message err) "File size too large" = true ->
        msg = "File size exceeds Cloudinary limits. Please use a smaller file.") /\
       (ce_http_code err = 0 \/
        includes (ce_message err) "File size too large" = false ->
        msg = match ce_error err with
              | Some m => if truthy m then m
                          else if truthy (ce_message err) then ce_message err
                               else "Upload failed"
              | None => if truthy (ce_message err) then ce_message err
                        else "Upload failed"
              end)) /\
    (forall resp l n1 msg name details,
        uploadHandler vt env req n = (Ok resp, l, n1) ->
        resp = JsonCloudinaryError msg name details ->
        v = clean /\ uploads l = [args]).
Proof.
  intros args Hg Hf Hr.
  destruct (uploadHandler_total env req n) as [resp [l [n' E]]].
  destruct (uploadHandler_cases vt env req n n' resp l E)
    as [[Hg' _] | [f' [v [l0 [_ [Hf' [R Hcase]]]]]]]; [congruence|].
  assert (f' = f) by congruence. subst f'.
  destruct (resolve_run vt env f (publicIdOf env f) n)
    as [v' [l' [n1 [R' [Hv [_ [_ [Hup _]]]]]]]].
  rewrite R in R'. inversion R'; subst v' l' n1.
  exists v, l0, n'. split; [exact R|]. split; [exact Hv|].
  split; [exact Hup|].
  destruct Hcase as [[-> [-> ->]] | [-> [_ Hcase]]].
  - split; [intros _; exact E|]. split; [discriminate|].
    intros resp l n1 msg name details E' ->.
    rewrite E in E'. discriminate.
  - cbv zeta in Hcase. fold args in Hcase. rewrite Hr in Hcase.
    destruct Hcase as [-> ->].
    destruct (cloudinaryFailure_answer err (originalname f))
      as [msg [Ec [Hm [Hsize Hmsg]]]].
    rewrite Ec in E.
    split; [discriminate|]. split.
    + intros _. exists msg. auto.
    + intros resp l n1 msg' name details E' _.
      rewrite E in E'. inversion E'; subst.
      split; [reflexivity|]. rewrite uploads_app, Hup. reflexivity.
Qed.

End HandlerExtras.

Lemma rejections_precede_every_step_witness :
  uploadHandler (M := Doubles.mime) (Doubles.mock "scan-id-123" 0) Doubles.env
                {| userId := "user123"; file := None |}
                (Doubles.start Doubles.queued)
  = (Ok (JsonUploadFailed "Cannot read properties of undefined"), [],
     Doubles.start Doubles.queued).
Proof.
  destruct (rejections_precede_every_step (M := Doubles.mime)
              (Doubles.mock "scan-id-123" 0) Doubles.env
              {| userId := "user123"; file := None |}
              (Doubles.start Doubles.queued))
    as [resp [l [n' [E [_ [H500 _]]]]]].
  destruct (H500 eq_refl eq_refl) as [Hr [Hl Hn]].
  rewrite E, Hr, Hl, Hn. reflexivity.
Defined.

Lemma refused_upload_is_reported_witness :
  fst (fst (uploadHandler (M := Doubles.mime) (Doubles.mock "scan-id-123" 0)
              Fixtures.full (Doubles.request "application/pdf" "test.pdf")
              (Doubles.start Doubles.queued)))
  = Ok (JsonCloudinaryError
          "File size exceeds Cloudinary limits. Please use a smaller file."
          "test.pdf" (Some (400, "CloudinaryError"))).
Proof.
  destruct (refused_upload_is_reported (M := Doubles.mime)
              (Doubles.mock "scan-id-123" 0) Fixtures.full
              (Doubles.request "application/pdf" "test.pdf")
              (Doubles.upload "application/pdf" "test.pdf")
              (Doubles.start Doubles.queued)
              {| ce_message := "File size too large. Got 30000000. Maximum is 10485760.";
                 ce_error := None; ce_http_code := 400; ce_name := "" |}
              eq_refl eq_refl eq_refl)
    as [v [l0 [n' [R [_ [_ [_ [Hclean _]]]]]]]].
  assert (Hv : v = clean).
  { vm_compute in R. inversion R. reflexivity. }
  destruct (Hclean Hv) as [msg [E [_ [Hsize _]]]].
  rewrite E. cbn [fst].
  rewrite (Hsize ltac:(discriminate) eq_refl eq_refl). reflexivity.
Defined.

(** ** A known file, end to end *)

Lemma isFileHash_truthy (id : string) : isFileHash id = true -> truthy id = true.
Proof.
  unfold isFileHash. destruct id; [discriminate | reflexivity].
Qed.

(** X14.  Through the revised module, a file that is not blocklisted and
    whose fingerprint the service knows, with analysis statistics on
    record, is judged by that record: exactly two requests are sent, both
    lookups of the fingerprint, the bytes are never uploaded to the
    scanner, there is one poll and no sleep; the answer is [malicious]
    without upload if the recorded malicious count is positive, and the
    file is stored as [clean] otherwise. *)
Theorem known_file_is_judged_by_its_record {C : Crypto} {M : Mime}
    (env : Env) (req : Req) (f : File) (n : Net) (f2 : FileInfo)
    (stats : Stats) :
  precheck req = None -> file req = Some f ->
  isKnownMalicious (originalname f) = false ->
  isFileHash (sha256_hex (buffer f)) = true ->
  (forall e, files_get (remote n) (clock n) (sha256_hex (buffer f)) <> Fail e) ->
  files_get (remote n) (S (clock n)) (sha256_hex (buffer f)) = Resp f2 ->
  last_analysis_stats f2 = Some stats ->
  exists resp l n',
    uploadHandler Revised.virusTotal env req n = (Ok resp, l, n') /\
    wire n' = (wire n ++ [Sent (GetFile (sha256_hex (buffer f)));
                          Sent (GetFile (sha256_hex (buffer f)))])%list /\
    polls l = 1%nat /\ slept l = 0 /\
    (0 < malicious_count stats ->
     resp = JsonUpload (publicIdOf env f) (originalname f) None malicious
                       (userId req) /\
     uploads l = []) /\
    (malicious_count stats <= 0 ->
     exists args, uploads l = [args] /\ ua_verdict args = clean).
Proof.
  intros Hg Hf Hk Hh Hok H2 Hs.
  set (h := sha256_hex (buffer f)) in *.
  assert (Es : Revised.scanFile (buffer f) (publicIdOf env f) (VT_API_KEY env) n
               = (Ok h, sent (GetFile h) n)).
  { unfold Revised.scanFile. run_net. fold h.
    destruct (files_get (remote n) (clock n) h) as [x| |e];
      [reflexivity | reflexivity | destruct (Hok e eq_refl)]. }
  assert (Eg : Revised.getAnalysis h (VT_API_KEY env) (sent (GetFile h) n)
               = (Ok {| an_status := "completed"; an_stats := Some stats |},
                  sent (GetFile h) (sent (GetFile h) n))).
  { unfold Revised.getAnalysis. run_net. rewrite Hh.
    cbn [remote clock sent]. rewrite H2. cbn [received]. rewrite Hs.
    reflexivity. }
  rewrite (uploadHandler_resolve _ env req f n Hg Hf).
  unfold hbind, resolve. rewrite Hk, scanVerdict_eq.
  unfold Revised.virusTotal at 1. cbn [scanFile]. rewrite Es. cbn zeta.
  rewrite (isFileHash_truthy h Hh), pollLoop_S.
  unfold Revised.virusTotal at 1. cbn [getAnalysis]. rewrite Eg.
  rewrite (pollStep_completed 3 0
             {| an_status := "completed"; an_stats := Some stats |} stats
             eq_refl eq_refl).
  destruct (malicious_count stats >? 0) eqn:Em; cbn [Verdict_eqb].
  - unfold persist. cbn [Verdict_eqb]. unfold hret.
    eexists. eexists. eexists. split; [reflexivity|].
    split; [cbn [wire sent]; rewrite <- app_assoc; reflexivity|].
    split; [reflexivity|]. split; [reflexivity|].
    split; [intros _; split; reflexivity | lia].
  - rewrite persist_store by discriminate. cbv zeta.
    eexists. eexists. eexists. split; [reflexivity|].
    split; [cbn [wire sent]; rewrite <- app_assoc; reflexivity|].
    split; [reflexivity|]. split; [reflexivity|].
    split; [lia|]. intros _. eexists. split; reflexivity.
Qed.

Lemma known_file_is_judged_by_its_record_witness :
  fst (fst (uploadHandler (M := Doubles.mime)
              (Revised.virusTotal (C := Doubles.crypto)) Doubles.env
              (Doubles.request "application/pdf" "report.pdf")
              (Doubles.start Fixtures.known)))
  = Ok (JsonUpload "uuid.pdf" "report.pdf" None malicious "user123").
Proof.
  destruct (known_file_is_judged_by_its_record
              (C := Doubles.crypto) (M := Doubles.mime) Doubles.env
              (Doubles.request "application/pdf" "report.pdf")
              (Doubles.upload "application/pdf" "report.pdf")
              (Doubles.start Fixtures.known)
              {| fi_id := Doubles.emptyDigest;
                 last_analysis_stats :=
                   Some {| malicious_count := 2; suspicious := 0;
                           harmless := 60 |};
                 last_analysis_id := "" |}
              {| malicious_count := 2; suspicious := 0; harmless := 60 |}
              eq_refl eq_refl eq_refl eq_refl
              (fun e (H : Resp _ = Fail e) =>
                 eq_ind (Resp _) (fun r => match r with
                                           | Resp _ => True
                                           | _ => False
                                           end) I _ H)
              eq_refl eq_refl)
    as [resp [l [n' [E [_ [_ [_ [Hpos _]]]]]]]].
  rewrite E. cbn [fst]. f_equal. apply Hpos. reflexivity.
Defined.

(** ** Listing, continued *)

Lemma includes_char (c d : ascii) (s : string) :
  includes (String c s) (String d EmptyString) = false ->
  c <> d /\ includes s (String d EmptyString) = false.
Proof.
  cbn [includes String.prefix].
  destruct (ascii_dec d c) as [->|Hne].
  - destruct s; cbn; discriminate.
  - cbn. intros E. split; [congruence | exact E].
Qed.

Lemma split_pop_plain (s cur : string) :
  includes s "/" = false -> split_pop s cur = (cur ++ s)%string.
Proof.
  revert cur. induction s as [|c s IH]; intros cur Hs.
  - cbn. clear Hs. induction cur as [|x cur IHc]; cbn; congruence.
  - apply includes_char in Hs as [Hne Hs]. cbn [split_pop].
    destruct (Ascii.eqb_spec c "/"); [contradiction|].
    rewrite (IH _ Hs), string_app_assoc. reflexivity.
Qed.

Lemma split_pop_after_slash (a b cur : string) :
  split_pop (a ++ String "/" b) cur = split_pop b "".
Proof.
  revert cur. induction a as [|c a IH]; intros cur; cbn.
  - reflexivity.
  - destruct (Ascii.eqb c "/"); apply IH.
Qed.

(** X15.  In a listing, an entry has no URL exactly when it is listed as
    [malicious]; every other entry carries the resource's own URL. *)
Theorem listed_url_iff_not_malicious (user : string) (r : Resource) :
  (fe_url (listEntry user r) = None <->
   fe_verdict (listEntry user r) = "malicious") /\
  (fe_verdict (listEntry user r) <> "malicious" ->
   fe_url (listEntry user r) = Some (secure_url r)).
Proof.
  unfold listEntry. cbn [fe_url fe_verdict].
  match goal with
  | |- context [if (?v =? "malicious")%string then None else _] =>
      destruct (String.eqb_spec v "malicious") as [He|Hne]
  end.
  - split; [split; auto | contradiction].
  - split; [split; [discriminate | contradiction] | reflexivity].
Qed.

(** X16.  A verdict stored in a resource's context, written in ASCII
    and other than [unknown] in any letter case, decides how the resource
    is listed, whatever its tags say: the entry is the same for any other
    list of tags, and the resource is listed under that verdict in lower
    case, unless the name it is listed under is on the blocklist, which
    makes it [malicious].  The name is the context's [originalName] when
    there is one. *)
Theorem context_verdict_precedes_tags (user : string) (r : Resource)
    (c : Context) :
  context r = Some c ->
  isAscii (cx_verdict c) = true ->
  truthy (cx_verdict c) = true ->
  toLowerCase (cx_verdict c) <> "unknown" ->
  (forall otherTags,
      listEntry user {| public_id := public_id r; secure_url := secure_url r;
                        context := context r; tags := otherTags |}
      = listEntry user r) /\
  (truthy (cx_originalName c) = true ->
   fe_originalName (listEntry user r) = cx_originalName c /\
   fe_verdict (listEntry user r)
   = if isKnownMalicious (cx_originalName c)
     then "malicious" else toLowerCase (cx_verdict c)) /\
  fe_verdict (listEntry user r)
  = (if isKnownMalicious (fe_originalName (listEntry user r))
     then "malicious" else toLowerCase (cx_verdict c)).
Proof.
  intros Hc _ Ht Hu.
  assert (Hne : (toLowerCase (cx_verdict c) =? "unknown")%string = false).
  { destruct (String.eqb_spec (toLowerCase (cx_verdict c)) "unknown");
      [contradiction | reflexivity]. }
  split; [|split].
  - intros otherTags. unfold listEntry.
    cbn [public_id secure_url context tags].
    rewrite Hc, Ht, Hne, !andb_false_r. reflexivity.
  - intros Hn. unfold listEntry. cbn [fe_verdict fe_originalName].
    rewrite Hc, Ht, Hn, Hne, andb_false_r. split; reflexivity.
  - unfold listEntry. cbn [fe_verdict fe_originalName].
    rewrite Hc, Ht, Hne, andb_false_r. reflexivity.
Qed.

Lemma context_verdict_precedes_tags_witness :
  fe_verdict
    (listEntry "user123"
       {| public_id := "file1"; secure_url := "https://example.com/file1";
          context := Some {| cx_verdict := "Clean";
                             cx_originalName := "test1.pdf";
                             cx_custom := None; cx_userId := "user123" |};
          tags := ["malicious"; "user123"] |})
  = "clean".
Proof.
  destruct (context_verdict_precedes_tags "user123"
             {| public_id := "file1"; secure_url := "https://example.com/file1";
                context := Some {| cx_verdict := "Clean";
                                   cx_originalName := "test1.pdf";
                                   cx_custom := None; cx_userId := "user123" |};
                tags := ["malicious"; "user123"] |}
             {| cx_verdict := "Clean"; cx_originalName := "test1.pdf";
                cx_custom := None; cx_userId := "user123" |}
             eq_refl eq_refl eq_refl ltac:(discriminate))
    as [_ [Hname _]].
  destruct (Hname eq_refl) as [_ Hv]. rewrite Hv. reflexivity.
Defined.

(** X17.  A resource without context is listed under the part of its
    public id that follows the last slash. *)
Theorem listing_name_falls_back_to_basename (user : string) (r : Resource)
    (dir base : string) :
  context r = None ->
  public_id r = (dir ++ String "/" base)%string ->
  includes base "/" = false ->
  fe_originalName (listEntry user r) = base /\
  fe_id (listEntry user r) = (dir ++ String "/" base)%string.
Proof.
  intros Hc Hp Hb. unfold listEntry. cbn [fe_originalName fe_id].
  rewrite Hc, Hp, split_pop_after_slash, (split_pop_plain base "" Hb).
  split; reflexivity.
Qed.

Lemma listing_name_falls_back_to_basename_witness :
  fe_originalName
    (listEntry "user123"
       {| public_id := "docs/2024/report.pdf"; secure_url := "u";
          context := None; tags := [] |})
  = "report.pdf".
Proof.
  exact (proj1 (listing_name_falls_back_to_basename "user123"
                  {| public_id := "docs/2024/report.pdf"; secure_url := "u";
                     context := None; tags := [] |}
                  "docs/2024" "report.pdf" eq_refl eq_refl eq_refl)).
Defined.

Lemma toLowerCase_verdict (v : Verdict) :
  toLowerCase (Verdict_to_string v) = Verdict_to_string v.
Proof. destruct v; reflexivity. Qed.

(** X18.  What [uploadToCloudinary] stores is what [listAll] reads back:
    a resource carrying the public id, context and tags of an upload is
    listed under that public id, original name, verdict and user id, with
    its URL unless the verdict is [malicious], provided the name is not
    empty and not on the blocklist and the user id is not empty. *)
Theorem stored_file_is_listed_as_stored (user url : string)
    (args : UploadArgs) :
  truthy (ua_originalName args) = true ->
  truthy (ua_userId args) = true ->
  isKnownMalicious (ua_originalName args) = false ->
  listEntry user (storedAs args url)
  = {| fe_id := ua_publicId args;
       fe_originalName := ua_originalName args;
       fe_url := if Verdict_eqb (ua_verdict args) malicious
                 then None else Some url;
       fe_verdict := Verdict_to_string (ua_verdict args);
       fe_userId := ua_userId args |}.
Proof.
  intros Hn Hu Hk. unfold listEntry, storedAs, uploadContext, uploadTags.
  cbn [context public_id secure_url tags cx_verdict cx_originalName
       cx_custom cx_userId].
  rewrite Hn, Hu, Hk, toLowerCase_verdict.
  destruct (ua_verdict args); reflexivity.
Qed.

Lemma stored_file_is_listed_as_stored_witness :
  listEntry "someone" (storedAs Fixtures.cleanArgs "https://example.com/uuid.pdf")
  = {| fe_id := "uuid.pdf"; fe_originalName := "test.pdf";
       fe_url := Some "https://example.com/uuid.pdf";
       fe_verdict := "clean"; fe_userId := "user123" |}.
Proof.
  exact (stored_file_is_listed_as_stored "someone"
           "https://example.com/uuid.pdf" Fixtures.cleanArgs
           eq_refl eq_refl eq_refl).
Defined.

(** ** From upload to listing and cleanup *)

Section StoredFiles.
Context {M : Mime}.
Variable vt : VirusTotal.

(** X19.  Whatever [uploadHandler] stores under a non-empty name comes
    back from [listAll] as a [clean] entry with its URL, its original name
    and the uploader's user id, and is not among the files
    [cleanupMaliciousFiles] selects for deletion. *)
Theorem uploaded_file_is_listed_clean_and_kept (env : Env) (req : Req)
    (n : Net) :
  exists resp l n',
    uploadHandler vt env req n = (Ok resp, l, n') /\
    forall args,
      In (EvUpload args) l ->
      truthy (ua_originalName args) = true ->
      forall user url,
        listEntry user (storedAs args url)
        = {| fe_id := ua_publicId args;
             fe_originalName := ua_originalName args;
             fe_url := Some url;
             fe_verdict := "clean";
             fe_userId := userId req |} /\
        cleanupSelects (storedAs args url) = false.
Proof.
  destruct (uploadHandler_total vt env req n) as [resp [l [n' E]]].
  exists resp, l, n'. split; [exact E|].
  intros args Hin Hn user url.
  destruct (uploadHandler_cases vt env req n n' resp l E)
    as [[_ [-> _]] | [f [v [l0 [Hg [Hf [R Hcase]]]]]]]; [contradiction|].
  assert (Hu : truthy (userId req) = true).
  { unfold precheck in Hg. destruct (truthy (userId req));
      [reflexivity | discriminate]. }
  assert (Hnoup : ~ In (EvUpload args) l0).
  { intros Hin0.
    destruct (resolve_events vt env f _ _ _ _ _ R)
      as [[_ ->] | [_ [r0 [l' [-> [Hloop _]]]]]]; [contradiction|].
    destruct Hin0 as [Heq|Hin0]; [discriminate|].
    rewrite Forall_forall in Hloop. destruct (Hloop _ Hin0). }
  destruct Hcase as [[_ [-> _]] | [_ [Hnk [-> _]]]]; [contradiction|].
  apply in_app_or in Hin as [Hin|[Heq|[]]]; [contradiction|].
  inversion Heq; subst args. cbn [ua_originalName] in Hn.
  unfold cleanupSelects, cleanupVerdict, cleanupName, listEntry, storedAs,
    uploadContext, uploadTags.
  cbn [context public_id secure_url tags cx_verdict cx_originalName
       cx_custom cx_userId ua_verdict ua_originalName ua_userId ua_publicId
       Verdict_to_string].
  rewrite Hn, Hu, Hnk. split; reflexivity.
Qed.

End StoredFiles.

(** ** Authentication *)

Lemma split_from_plain (sep : ascii) (t cur : string) :
  includes t (String sep EmptyString) = false ->
  split_from sep t cur = [(cur ++ t)%string].
Proof.
  revert cur. induction t as [|c t IH]; intros cur Ht.
  - cbn. f_equal. clear Ht. induction cur as [|x cur IHc]; cbn; congruence.
  - apply includes_char in Ht as [Hne Ht]. cbn [split_from].
    destruct (Ascii.eqb_spec c sep); [contradiction|].
    rewrite (IH _ Ht), string_app_assoc. reflexivity.
Qed.

Lemma split_from_segment (sep : ascii) (t rest cur : string) :
  includes t (String sep EmptyString) = false ->
  split_from sep (t ++ String sep rest) cur
  = (cur ++ t)%string :: split_from sep rest EmptyString.
Proof.
  revert cur. induction t as [|c t IH]; intros cur Ht.
  - cbn [append split_from]. rewrite Ascii.eqb_refl. f_equal.
    induction cur as [|x cur IHc]; cbn; congruence.
  - apply includes_char in Ht as [Hne Ht]. cbn [append split_from].
    destruct (Ascii.eqb_spec c sep); [contradiction|].
    rewrite (IH _ Ht), string_app_assoc. reflexivity.
Qed.

Lemma requireAuth_user_truthy
    (verifyToken : string -> Result (string * string))
    (authorization user session : string) :
  requireAuth verifyToken authorization = Granted user session ->
  truthy user = true.
Proof.
  unfold requireAuth.
  destruct (negb (truthy authorization)
            || negb (startsWith authorization "Bearer ")); [discriminate|].
  destruct (negb (truthy (nth 1 (split " " authorization) "")));
    [discriminate|].
  destruct (verifyToken (nth 1 (split " " authorization) ""))
    as [[sub sid]|e]; [|discriminate].
  destruct (truthy sub) eqn:Hs; cbn [negb]; [|discriminate].
  intros E; inversion E; subst. exact Hs.
Qed.

(** X20.  [requireAuth] lets a request through only with a user id that
    Clerk returned, non-empty, for the token of the header: the header
    starts with [Bearer ], and the token is what stands between the first
    space and the next. *)
Theorem requireAuth_grants_only_verified_tokens
    (verifyToken : string -> Result (string * string))
    (authorization user session : string) :
  requireAuth verifyToken authorization = Granted user session ->
  startsWith authorization "Bearer " = true /\
  truthy (nth 1 (split " " authorization) "") = true /\
  verifyToken (nth 1 (split " " authorization) "") = Ok (user, session) /\
  truthy user = true.
Proof.
  unfold requireAuth.
  destruct (truthy authorization); cbn [negb orb]; [|discriminate].
  destruct (startsWith authorization "Bearer "); cbn [negb]; [|discriminate].
  destruct (truthy (nth 1 (split " " authorization) "")); cbn [negb];
    [|discriminate].
  destruct (verifyToken (nth 1 (split " " authorization) ""))
    as [[sub sid]|e]; [|discriminate].
  destruct (truthy sub) eqn:Hs; cbn [negb]; [|discriminate].
  intros E; inversion E; subst. auto.
Qed.

Lemma requireAuth_grants_only_verified_tokens_witness :
  requireAuth Fixtures.clerk "Bearer good" = Granted "user123" "sess1" /\
  Fixtures.clerk (nth 1 (split " " "Bearer good") "") = Ok ("user123", "sess1").
Proof.
  assert (E : requireAuth Fixtures.clerk "Bearer good"
              = Granted "user123" "sess1") by reflexivity.
  split; [exact E|].
  exact (proj1 (proj2 (proj2
           (requireAuth_grants_only_verified_tokens _ _ _ _ E)))).
Defined.

(** X21.  A header [Bearer <token>] with a non-empty token free of spaces
    that Clerk verifies with a non-empty user id is let through with that
    user id and session, also when more text follows the token after a
    space. *)
Theorem requireAuth_accepts_bearer_token
    (verifyToken : string -> Result (string * string))
    (token user session : string) :
  truthy token = true ->
  includes token " " = false ->
  verifyToken token = Ok (user, session) ->
  truthy user = true ->
  requireAuth verifyToken ("Bearer " ++ token) = Granted user session /\
  forall rest,
    requireAuth verifyToken ("Bearer " ++ token ++ " " ++ rest)
    = Granted user session.
Proof.
  intros Ht Hsp Hv Hu.
  assert (Hgo : forall tail,
             nth 1 (split " " ("Bearer " ++ tail)) "" = token ->
             requireAuth verifyToken ("Bearer " ++ tail) = Granted user session).
  { intros tail Hnth. unfold requireAuth.
    assert (Hp : startsWith ("Bearer " ++ tail) "Bearer " = true).
    { unfold startsWith. apply prefix_iff. exists tail. reflexivity. }
    rewrite Hp, Hnth, Ht, Hv, Hu. reflexivity. }
  split.
  - apply Hgo. unfold split.
    change ("Bearer " ++ token)%string
      with ("Bearer" ++ String " " token)%string.
    rewrite split_from_segment by reflexivity.
    rewrite (split_from_plain " " token "" Hsp). reflexivity.
  - intros rest. apply Hgo. unfold split.
    change ("Bearer " ++ token ++ " " ++ rest)%string
      with ("Bearer" ++ String " " (token ++ String " " rest))%string.
    rewrite split_from_segment by reflexivity.
    rewrite (split_from_segment " " token rest "" Hsp). reflexivity.
Qed.

Lemma requireAuth_accepts_bearer_token_witness :
  requireAuth Fixtures.clerk "Bearer good" = Granted "user123" "sess1".
Proof.
  exact (proj1 (requireAuth_accepts_bearer_token Fixtures.clerk "good"
                  "user123" "sess1" eq_refl eq_refl eq_refl eq_refl)).
Defined.

(** X22.  On the upload route, a request the middleware denies reaches
    no step of the handler, and behind the middleware the handler's own
    authentication check never fires: its answer is never a 401. *)
Theorem upload_route_checks_identity_once {M : Mime} (vt : VirusTotal)
    (verifyToken : string -> Result (string * string)) (env : Env)
    (authorization : string) (f : option File) (n : Net) :
  exists out l n',
    postFiles vt verifyToken env authorization f n = (Ok out, l, n') /\
    match out with
    | inl denied =>
        l = [] /\ n' = n /\ exists msg, denied = Denied 401 msg
    | inr resp =>
        (exists user session,
            requireAuth verifyToken authorization = Granted user session /\
            truthy user = true) /\
        forall msg, resp <> JsonError 401 msg
    end.
Proof.
  unfold postFiles.
  destruct (requireAuth verifyToken authorization) as [st msg|user session] eqn:Ea.
  - exists (inl (Denied st msg)), [], n. split; [reflexivity|].
    split; [reflexivity|]. split; [reflexivity|].
    unfold requireAuth in Ea.
    destruct (negb (truthy authorization)
              || negb (startsWith authorization "Bearer "));
      [inversion Ea; eauto|].
    destruct (negb (truthy (nth 1 (split " " authorization) "")));
      [inversion Ea; eauto|].
    destruct (verifyToken (nth 1 (split " " authorization) ""))
      as [[sub sid]|e]; [|inversion Ea; eauto].
    destruct (negb (truthy sub)); [inversion Ea; eauto | discriminate].
  - pose proof (requireAuth_user_truthy _ _ _ _ Ea) as Hu.
    destruct (uploadHandler_total vt env {| userId := user; file := f |} n)
      as [resp [l [n' E]]].
    rewrite E. exists (inr resp), l, n'. split; [reflexivity|].
    split; [eauto|].
    intros msg ->.
    destruct (uploadHandler_cases vt env _ n n' _ l E)
      as [[Hg _] | [f0 [v [l0 [_ [_ [_ Hcase]]]]]]].
    + destruct (precheck_answers _ _ Hg)
        as [[Hf _] | [[_ [_ Hr]] | [f0 [_ [_ [[_ Hr] | [_ [_ Hr]]]]]]]];
        cbn [userId] in *; congruence.
    + destruct Hcase as [[_ [_ Hr]] | [_ [_ [_ Hr]]]]; [discriminate|].
      cbv zeta in Hr. destruct (upload_stream env _) as [u|err];
        [discriminate|].
      destruct (cloudinaryFailure_shape err (originalname f0))
        as [m [d [Hc _]]]. congruence.
Qed.

(** ** Deletion *)

Lemma destroyAll_length (adm : Admin) (ids : list string) :
  forall k, List.length (destroyAll adm k ids) = List.length ids.
Proof.
  induction ids as [|id ids IH]; intros k; cbn; [reflexivity | now rewrite IH].
Qed.

Lemma filter_length_bound {A} (p : A -> bool) (l : list A) :
  (List.length (filter p l) <= List.length l)%nat.
Proof.
  induction l as [|x l IH]; cbn; [lia|]. destruct (p x); cbn; lia.
Qed.

Ltac solve_delete :=
  repeat split; intros;
  try congruence;
  try match goal with
      | H : Found _ = Found _ |- _ => inversion H; subst
      end;
  try contradiction;
  try match goal with
      | Hown : exists c, _, Hc : forall c, _ -> _ <> _ |- _ =>
          let c0 := fresh "c" in
          let H1 := fresh in
          let H2 := fresh in
          destruct Hown as [c0 [H1 H2]]; destruct (Hc c0 H1 H2)
      end;
  eauto.

(** X23.  [deleteFile] hands at most the requested id to [destroy], and
    only for a caller with a user id who owns the file: the user id is
    among the file's tags or is the one in its context.  It reports
    success only when that call returned [ok]; a file of somebody else is
    answered with 403 and left alone. *)
Theorem deleteFile_destroys_only_own_files (adm : Admin)
    (user fileId : string) :
  let '(answer, destroyed) := deleteFile adm user fileId in
  (destroyed = [] \/ destroyed = [fileId]) /\
  (destroyed = [fileId] ->
   truthy user = true /\
   exists info,
     api_resource adm fileId = Found info /\
     (In user (tags info) \/
      exists c, context info = Some c /\ cx_userId c = user)) /\
  (forall msg, answer = AnsDeleted msg ->
               destroyed = [fileId] /\ destroy adm 0 fileId = Ok "ok") /\
  (forall info,
      truthy user = true -> truthy fileId = true ->
      api_resource adm fileId = Found info ->
      ~ In user (tags info) ->
      (forall c, context info = Some c -> cx_userId c <> user) ->
      answer = AnsError 403 "You do not have permission to delete this file"
      /\ destroyed = []).
Proof.
  unfold deleteFile.
  destruct (truthy user) eqn:Hu; cbn [negb]; [|solve_delete].
  destruct (truthy fileId) eqn:Hid; cbn [negb]; [|solve_delete].
  destruct (api_resource adm fileId) as [info|err] eqn:Ei.
  2:{ destruct (ce_http_code err =? 404); solve_delete. }
  destruct (existsb (String.eqb user) (tags info)) eqn:Et; cbn [negb andb].
  - assert (Hin : In user (tags info)).
    { apply existsb_exists in Et as [x [Hin Hx]].
      apply String.eqb_eq in Hx. now subst. }
    unfold deleteFileFromCloudinary.
    destruct (destroy adm 0 fileId) as [res|e] eqn:Ed;
      [destruct (String.eqb_spec res "ok") as [->|Hne]|]; solve_delete.
  - destruct (String.eqb_spec
                match context info with
                | Some c => cx_userId c
                | None => ""
                end user) as [Heq|Hne]; cbn [negb]; [|solve_delete].
    assert (Hown : exists c, context info = Some c /\ cx_userId c = user).
    { destruct (context info) as [c|].
      - exists c. auto.
      - subst user. discriminate. }
    unfold deleteFileFromCloudinary.
    destruct (destroy adm 0 fileId) as [res|e] eqn:Ed;
      [destruct (String.eqb_spec res "ok") as [->|Hne']|]; solve_delete.
Qed.

(** "should delete a file owned by the user" *)
Example test_deleteFile_owner :
  deleteFile Fixtures.admin "user123" "file1"
  = (AnsDeleted "File deleted successfully", ["file1"]).
Proof. reflexivity. Qed.

(** "should reject deletion if user does not own the file" *)
Example test_deleteFile_stranger :
  deleteFile Fixtures.admin "user123" "file2"
  = (AnsError 403 "You do not have permission to delete this file", []).
Proof. reflexivity. Qed.

(** X24.  For an authenticated user whose search succeeds,
    [deleteAllFiles] hands every resource found to [destroy], once and in
    order, and accounts for each of them: the deleted and the failed count
    add up to the number of resources found, the deleted count being the
    number of calls that returned [ok].  No failed count is sent exactly
    when nothing was found, and the deleted count is then 0. *)
Theorem deleteAllFiles_accounts_for_every_file (adm : Admin) (user : string)
    (resources : list Resource) :
  truthy user = true ->
  search_execute adm ("resource_type:raw AND tags:" ++ user)%string
  = Ok resources ->
  exists msg deleted failed,
    deleteAllFiles adm user
    = (AnsDeletedAll msg deleted failed, map public_id resources) /\
    deleted = List.length (filter (fun ok => ok)
                             (destroyAll adm 0 (map public_id resources))) /\
    (deleted <= List.length resources)%nat /\
    match failed with
    | Some failCount =>
        (deleted + failCount = List.length resources)%nat /\ resources <> []
    | None => resources = [] /\ deleted = 0%nat
    end.
Proof.
  intros Hu Hs. unfold deleteAllFiles. rewrite Hu, Hs. cbn [negb].
  destruct resources as [|r rs].
  - eexists. exists 0%nat, None. repeat split; auto.
  - set (ids := map public_id (r :: rs)).
    pose proof (filter_length_bound (fun ok : bool => ok) (destroyAll adm 0 ids))
      as Hb.
    rewrite destroyAll_length in Hb.
    assert (Hl : List.length ids = List.length (r :: rs))
      by (unfold ids; apply length_map).
    eexists. eexists. eexists. split; [reflexivity|].
    split; [reflexivity|]. fold ids. rewrite destroyAll_length.
    split; [lia|]. split; [lia | discriminate].
Qed.

Lemma deleteAllFiles_accounts_for_every_file_witness :
  deleteAllFiles Fixtures.admin "user123"
  = (AnsDeletedAll "Deleted 0 files, failed to delete 2 files" 0 (Some 2%nat),
     ["uuid.pdf"; "docs/eicar.com"]).
Proof.
  destruct (deleteAllFiles_accounts_for_every_file Fixtures.admin "user123"
              _ eq_refl eq_refl) as [msg [d [fl [E _]]]].
  rewrite E. vm_compute in E. inversion E. reflexivity.
Defined.

(** X25.  [cleanupMaliciousFiles] reads a resource's name exactly as
    [listAll] does.  When its search succeeds it returns true and hands to
    [destroy] only resources it selected, among them every resource found
    whose name is on the blocklist or whose context verdict is
    [malicious] in any letter case; when the search fails it returns false
    and destroys nothing. *)
Theorem cleanup_destroys_what_the_listing_flags (adm : Admin) :
  (forall user r, cleanupName r = fe_originalName (listEntry user r)) /\
  match search_execute adm "resource_type:raw" with
  | Throw _ => cleanupMaliciousFiles adm = (false, [])
  | Ok resources =>
      exists ids,
        cleanupMaliciousFiles adm = (true, ids) /\
        (forall id, In id ids ->
                    exists r, In r resources /\ public_id r = id /\
                              cleanupSelects r = true) /\
        (forall user r,
            In r resources ->
            isKnownMalicious (fe_originalName (listEntry user r)) = true \/
            (exists c, context r = Some c /\
                       toLowerCase (cx_verdict c) = "malicious") ->
            In (public_id r) ids)
  end.
Proof.
  assert (Hname : forall user r,
             cleanupName r = fe_originalName (listEntry user r)).
  { intros user r. unfold cleanupName, listEntry. cbn [fe_originalName].
    destruct (context r) as [c|]; [|reflexivity].
    destruct (truthy (cx_originalName c)); [reflexivity|].
    destruct (cx_custom c) as [cu|]; reflexivity. }
  split; [exact Hname|].
  unfold cleanupMaliciousFiles.
  destruct (search_execute adm "resource_type:raw") as [resources|e];
    [|reflexivity].
  eexists. split; [reflexivity|]. split.
  - intros id Hin. apply in_map_iff in Hin as [r [Hid Hin]].
    apply filter_In in Hin as [Hin Hsel]. exists r. auto.
  - intros user r Hin Hflag. apply in_map. apply filter_In.
    split; [exact Hin|]. unfold cleanupSelects.
    destruct Hflag as [Hk | [c [Hc Hv]]].
    + rewrite (Hname user r), Hk. apply orb_true_r.
    + assert (Ht : truthy (cx_verdict c) = true).
      { destruct (cx_verdict c); [discriminate | reflexivity]. }
      assert (Hcv : cleanupVerdict r = "malicious").
      { unfold cleanupVerdict. rewrite Hc, Ht, Hv.
        destruct (tags r); reflexivity. }
      rewrite Hcv. reflexivity.
Qed.

(** ** The client's checks *)

(** X26.  The upload form applies the same blocklist test as the server,
    and a stricter size limit: a file the form lets through for its size
    (at most 10 MiB) is never rejected by the server for its size, while a
    file between the two limits is refused by the form alone. *)
Theorem client_checks_are_no_weaker (name : string) (size : Z) :
  checkMaliciousPatterns name = isKnownMalicious name /\
  (isFileTooLarge size = false -> (size >? 25 * 1024 * 1024) = false) /\
  (10 * 1024 * 1024 < size <= 25 * 1024 * 1024 ->
   isFileTooLarge size = true /\ (size >? 25 * 1024 * 1024) = false).
Proof.
  split; [reflexivity|]. unfold isFileTooLarge. cbv zeta. split.
  - intros H. destruct (Z.gtb_spec size (10 * 1024 * 1024)); [discriminate|].
    destruct (Z.gtb_spec size (25 * 1024 * 1024)); [lia | reflexivity].
  - intros [Hlo Hhi]. split.
    + destruct (Z.gtb_spec size (10 * 1024 * 1024)); [reflexivity | lia].
    + destruct (Z.gtb_spec size (25 * 1024 * 1024)); [lia | reflexivity].
Qed.
